(** * LLM Orchestration Engine: dashboard client and routing core

    A shallow embedding of the TypeScript client library of the dashboard
    ([lib/api.ts]: the wire contracts, the calls, and the formatting and
    colour utilities), of the components that use it ([TryItDemo.tsx],
    [ProviderStatus.tsx], [Header.tsx], the two charts, [MetricsCards.tsx]
    and the page [app/page.tsx]), and of the routing core (registry, health
    tracker, cost calculator, scorer, router) that the specification
    describes.

    Layout: the JavaScript fragment the client code runs on, then the
    client library, then the components, then the routing core, then the
    double-precision arithmetic, the calls and the remaining components;
    the properties follow the definitions. *)

From Stdlib Require Import ZArith QArith Qround Qabs Qpower String Ascii List Lia Bool.
From Stdlib Require Import DecimalString DecimalPos DecimalN Permutation Sorted Qminmax Lqa.
From stdpp Require Import gmap strings.
Import ListNotations.

Open Scope string_scope.

(* ===================================================================== *)
(** * The JavaScript fragment used by the client code                     *)
(* ===================================================================== *)

Module JS.

(** A JavaScript [number].  A finite double is a dyadic rational, so the
    finite numbers are embedded in [Q]; comparison and [toFixed] are exact
    functions of the mathematical value.  The sign of zero plays no role in
    the code below and is not represented. *)
Inductive number : Type :=
| NaN
| PosInf
| NegInf
| Fin (q : Q).

(** Abrupt completions. *)
Inductive JsError : Type := RangeError | TypeError.

Inductive completion (A : Type) : Type :=
| Returns (a : A)
| Throws (e : JsError).
Arguments Returns {A} a.
Arguments Throws {A} e.

Definition bind {A B} (c : completion A) (k : A -> completion B) : completion B :=
  match c with
  | Returns a => k a
  | Throws e => Throws e
  end.

Notation "'let*' x ':=' c 'in' k" := (bind c (fun x => k))
  (at level 10, x name, c at level 100, k at level 200).

Definition Qltb (x y : Q) : bool :=
  match Qcompare x y with Lt => true | _ => false end.

(** [a < b] on numbers: false as soon as one side is [NaN]. *)
Definition lt (a b : number) : bool :=
  match a, b with
  | NaN, _ | _, NaN => false
  | PosInf, _ => false
  | _, NegInf => false
  | NegInf, _ => true
  | Fin _, PosInf => true
  | Fin x, Fin y => Qltb x y
  end.

(** [a >= b] on numbers. *)
Definition ge (a b : number) : bool :=
  match a, b with
  | NaN, _ | _, NaN => false
  | PosInf, _ => true
  | _, NegInf => true
  | NegInf, _ => false
  | Fin _, PosInf => false
  | Fin x, Fin y => Qle_bool y x
  end.

Definition is_finite (a : number) : bool :=
  match a with Fin _ => true | _ => false end.

(** ** Strings *)

Definition is_digit (c : ascii) : bool :=
  let n := nat_of_ascii c in (48 <=? n)%nat && (n <=? 57)%nat.

Fixpoint all_digits (s : string) : bool :=
  match s with
  | EmptyString => true
  | String c r => is_digit c && all_digits r
  end.

Fixpoint zeros (n : nat) : string :=
  match n with
  | O => ""
  | S k => String "0" (zeros k)
  end.

(** The first [n] code units of a string, and the rest. *)
Fixpoint take (n : nat) (s : string) : string :=
  match n, s with
  | S k, String c r => String c (take k r)
  | _, _ => ""
  end.

Fixpoint drop (n : nat) (s : string) : string :=
  match n, s with
  | S k, String _ r => drop k r
  | _, _ => s
  end.

(** [String.prototype.toLowerCase] on the ASCII range: the letters A to Z
    move to a to z, every other code unit is kept. *)
Definition lower_ascii (c : ascii) : ascii :=
  let n := nat_of_ascii c in
  if (65 <=? n)%nat && (n <=? 90)%nat then ascii_of_nat (n + 32) else c.

Fixpoint toLowerCase (s : string) : string :=
  match s with
  | EmptyString => EmptyString
  | String c r => String (lower_ascii c) (toLowerCase r)
  end.

(** Decimal digits of a non-negative integer; ["0"] for zero. *)
Definition decimal (n : Z) : string :=
  NilZero.string_of_uint (N.to_uint (Z.to_N n)).

(** ** [Number.prototype.toFixed] *)

(** The integer [n] for which [n / 10^f - x] is as close to zero as
    possible, the larger one when there are two. *)
Definition nearest_scaled (x : Q) (f : nat) : Z :=
  Qfloor (x * inject_Z (10 ^ Z.of_nat f) + (1 # 2)).

Definition ten_pow_21 : Q := inject_Z (10 ^ 21).

Section Runtime.

(** [Number::toString] of a finite value of magnitude at least [10^21]
    (the shortest decimal that reads back as the same double, in exponent
    notation).  It belongs to the engine, not to this code base. *)
Variable ToString_large : Q -> string.

Definition toFixed (x : number) (fractionDigits : Z) : completion string :=
  if (fractionDigits <? 0)%Z || (100 <? fractionDigits)%Z then Throws RangeError
  else
    match x with
    | NaN => Returns "NaN"
    | PosInf => Returns "Infinity"
    | NegInf => Returns "-Infinity"
    | Fin q =>
        let f := Z.to_nat fractionDigits in
        let s := if Qltb q 0 then "-" else "" in
        let x := if Qltb q 0 then Qopp q else q in
        let m :=
          if Qle_bool ten_pow_21 x then ToString_large x
          else
            let n := nearest_scaled x f in
            let m := decimal n in
            match f with
            | O => m
            | S _ =>
                let k := String.length m in
                let m := if (k <=? f)%nat then zeros (f + 1 - k) ++ m else m in
                let k := String.length m in
                take (k - f) m ++ "." ++ drop (k - f) m
            end
        in Returns (s ++ m)
    end.

End Runtime.

(** ** The remainder operator and values *)

(** Round towards zero. *)
Definition Qtrunc (q : Q) : Z :=
  if Qltb q 0 then (- Qfloor (- q))%Z else Qfloor q.

(** [a % b]: the result takes the sign of the dividend and is computed
    without rounding error. *)
Definition rem (a b : number) : number :=
  match a, b with
  | NaN, _ | _, NaN => NaN
  | PosInf, _ | NegInf, _ => NaN
  | Fin x, PosInf | Fin x, NegInf => Fin x
  | Fin x, Fin y =>
      if Qeq_bool y 0 then NaN
      else Fin (x - y * inject_Z (Qtrunc (x / y)))
  end.

Definition of_nat (n : nat) : number := Fin (inject_Z (Z.of_nat n)).

(** Values.  [VBuiltin] stands for a function or object that the engine
    provides (the members of [Object.prototype]). *)
#[warnings="-register-all"]
Inductive value : Type :=
| VUndefined
| VNull
| VBool (b : bool)
| VNum (n : number)
| VStr (s : string)
| VArr (elems : list value)
| VObj (props : list (string * value))
| VBuiltin (name : string).

(** [ToBoolean]. *)
Definition truthy (v : value) : bool :=
  match v with
  | VUndefined | VNull => false
  | VBool b => b
  | VNum NaN => false
  | VNum (Fin q) => negb (Qeq_bool q 0)
  | VNum _ => true
  | VStr s => negb (String.eqb s "")
  | VArr _ | VObj _ | VBuiltin _ => true
  end.

(** [a || b]. *)
Definition or_else (a b : value) : value := if truthy a then a else b.

(** What an ordinary object inherits from [Object.prototype]. *)
Definition Object_prototype : list (string * value) :=
  [ ("constructor", VBuiltin "Object");
    ("__proto__", VBuiltin "Object.prototype");
    ("hasOwnProperty", VBuiltin "Object.prototype.hasOwnProperty");
    ("isPrototypeOf", VBuiltin "Object.prototype.isPrototypeOf");
    ("propertyIsEnumerable", VBuiltin "Object.prototype.propertyIsEnumerable");
    ("toLocaleString", VBuiltin "Object.prototype.toLocaleString");
    ("toString", VBuiltin "Object.prototype.toString");
    ("valueOf", VBuiltin "Object.prototype.valueOf");
    ("__defineGetter__", VBuiltin "Object.prototype.__defineGetter__");
    ("__defineSetter__", VBuiltin "Object.prototype.__defineSetter__");
    ("__lookupGetter__", VBuiltin "Object.prototype.__lookupGetter__");
    ("__lookupSetter__", VBuiltin "Object.prototype.__lookupSetter__") ].

Fixpoint assoc {A} (k : string) (l : list (string * A)) : option A :=
  match l with
  | [] => None
  | (k', a) :: r => if String.eqb k k' then Some a else assoc k r
  end.

(** [o[key]] on an object literal with own properties [own]: the own
    property if there is one, else the inherited one, else [undefined]. *)
Definition get_property (own : gmap string value) (key : string) : value :=
  match own !! key with
  | Some v => v
  | None =>
      match assoc key Object_prototype with
      | Some v => v
      | None => VUndefined
      end
  end.

(** [a[i]] on an array literal, for a numeric [i]: the element when [i] is
    an integer within bounds, [undefined] for every other number. *)
Definition array_get (a : list value) (i : number) : value :=
  match i with
  | Fin q =>
      if Qeq_bool q (inject_Z (Qfloor q)) && (0 <=? Qfloor q)%Z
      then default VUndefined (a !! Z.to_nat (Qfloor q))
      else VUndefined
  | _ => VUndefined
  end.

(** [String.prototype.trim] on the ASCII white space. *)
Definition is_space (c : ascii) : bool :=
  let n := nat_of_ascii c in
  (n =? 32)%nat || ((9 <=? n)%nat && (n <=? 13)%nat).

Fixpoint trim_start (s : string) : string :=
  match s with
  | String c r => if is_space c then trim_start r else s
  | EmptyString => EmptyString
  end.

Fixpoint trim_end (s : string) : string :=
  match s with
  | String c r =>
      match trim_end r with
      | EmptyString => if is_space c then EmptyString else String c EmptyString
      | r' => String c r'
      end
  | EmptyString => EmptyString
  end.

Definition trim (s : string) : string := trim_end (trim_start s).

End JS.

(* ===================================================================== *)
(** * TypeScript object types and the values they admit                   *)
(* ===================================================================== *)

Module TS.
Import JS.

(** The type expressions that occur in the interfaces of [lib/api.ts]. *)
Inductive ty : Type :=
| TString
| TNumber
| TBoolean
| TNull
| TAny
| TLit (s : string)
| TUnion (a b : ty)
| TArray (t : ty)
| TRecord (t : ty)
| TObject (fs : fields)
with fields : Type :=
| FNil
| FCons (name : string) (optional : bool) (t : ty) (rest : fields).

(** A required member [name: t] and an optional member [name?: t]. *)
Definition req (name : string) (t : ty) : string * bool * ty := (name, false, t).
Definition opt (name : string) (t : ty) : string * bool * ty := (name, true, t).

Definition interface (members : list (string * bool * ty)) : ty :=
  TObject (fold_right (fun '(n, o, t) fs => FCons n o t fs) FNil members).

(** A union of string literal types. *)
Fixpoint literals (first : string) (others : list string) : ty :=
  match others with
  | [] => TLit first
  | s :: r => TUnion (TLit first) (literals s r)
  end.

Fixpoint members (fs : fields) : list (string * bool * ty) :=
  match fs with
  | FNil => []
  | FCons n o t r => (n, o, t) :: members r
  end.

Definition member_names (t : ty) : list string :=
  match t with
  | TObject fs => map (fun m => fst (fst m)) (members fs)
  | _ => []
  end.

(** [conforms t v]: the value [v] is admitted by the type [t].  Object
    types are structural: members beyond the declared ones are allowed; an
    optional member may be missing or [undefined]. *)
Fixpoint conforms (t : ty) (v : value) {struct t} : bool :=
  match t with
  | TString => match v with VStr _ => true | _ => false end
  | TNumber => match v with VNum _ => true | _ => false end
  | TBoolean => match v with VBool _ => true | _ => false end
  | TNull => match v with VNull => true | _ => false end
  | TAny => true
  | TLit s => match v with VStr s' => String.eqb s s' | _ => false end
  | TUnion a b => conforms a v || conforms b v
  | TArray e => match v with VArr l => forallb (conforms e) l | _ => false end
  | TRecord e =>
      match v with
      | VObj ps => forallb (fun p => conforms e (snd p)) ps
      | _ => false
      end
  | TObject fs =>
      match v with
      | VObj ps => conforms_fields fs ps
      | _ => false
      end
  end
with conforms_fields (fs : fields) (ps : list (string * value)) {struct fs} : bool :=
  match fs with
  | FNil => true
  | FCons n o t r =>
      match assoc n ps with
      | Some VUndefined => o || conforms t VUndefined
      | Some v => conforms t v
      | None => o
      end && conforms_fields r ps
  end.


(** Member access [v.name], and a chain of them. *)
Definition get (name : string) (v : value) : option value :=
  match v with
  | VObj ps => assoc name ps
  | _ => None
  end.

Fixpoint get_path (path : list string) (v : value) : option value :=
  match path with
  | [] => Some v
  | n :: r => match get n v with Some w => get_path r w | None => None end
  end.

(** The declared type behind a chain of required members. *)
Fixpoint required_member (n : string) (fs : fields) : option ty :=
  match fs with
  | FNil => None
  | FCons n' o t r =>
      if String.eqb n n' then (if o then None else Some t)
      else required_member n r
  end.

Fixpoint type_at (path : list string) (t : ty) : option ty :=
  match path with
  | [] => Some t
  | n :: r =>
      match t with
      | TObject fs =>
          match required_member n fs with
          | Some t' => type_at r t'
          | None => None
          end
      | _ => None
      end
  end.

(** Names and optionality of the declared members, in order. *)
Definition declared (t : ty) : list (string * bool) :=
  match t with
  | TObject fs => map fst (members fs)
  | _ => []
  end.

(** An optional member: missing, [undefined], or of the declared type. *)
Definition absent_or (t : ty) (o : option value) : bool :=
  match o with
  | None | Some VUndefined => true
  | Some v => conforms t v
  end.

Definition is_string (o : option value) : bool :=
  match o with Some (VStr _) => true | _ => false end.
Definition is_number (o : option value) : bool :=
  match o with Some (VNum _) => true | _ => false end.
Definition is_string_array (o : option value) : bool :=
  match o with
  | Some (VArr l) => forallb (fun e => match e with VStr _ => true | _ => false end) l
  | _ => false
  end.

End TS.

(* ===================================================================== *)
(** * [lib/api.ts]: wire contracts and utilities                          *)
(* ===================================================================== *)

Module Api.
Import JS TS.

(** ** Types *)

Definition TASK_KINDS : list string :=
  ["summarize"; "sentiment"; "rewrite"; "chat"; "code"; "analysis"].

Definition PREFERENCE_PROFILES : list string :=
  ["fast"; "cheap"; "best"; "balanced"].

Definition GenerateRequest : ty :=
  interface
    [ req "task" (literals "summarize" ["sentiment"; "rewrite"; "chat"; "code"; "analysis"]);
      req "model_preference" (literals "fast" ["cheap"; "best"; "balanced"]);
      req "text" TString;
      opt "max_tokens" TNumber;
      opt "temperature" TNumber ].

Definition GenerateResponse : ty :=
  interface
    [ req "success" TBoolean;
      req "result" (TUnion TString TNull);
      req "error" (TUnion TString TNull);
      req "request_id" TString;
      req "timestamp" TString;
      req "routing" (interface
        [ req "selected_model" TString;
          req "provider" TString;
          req "reason" TString;
          req "alternatives_considered" (TArray TString);
          req "routing_time_ms" TNumber;
          req "cost_score" TNumber;
          req "latency_score" TNumber;
          req "quality_score" TNumber;
          req "availability_score" TNumber;
          req "final_score" TNumber ]);
      req "usage" (interface
        [ req "input_tokens" TNumber;
          req "output_tokens" TNumber;
          req "total_tokens" TNumber;
          req "input_cost_usd" TNumber;
          req "output_cost_usd" TNumber;
          req "total_cost_usd" TNumber ]);
      req "performance" (interface
        [ req "total_time_ms" TNumber;
          req "routing_time_ms" TNumber;
          req "inference_time_ms" TNumber;
          req "overhead_time_ms" TNumber ]) ].


(** The type of the elements of [HealthResponse.providers]. *)
Definition HealthResponse_provider : ty :=
  interface
    [ req "status" TString;
      req "recent_requests" TNumber;
      req "error_rate" TNumber ].

Definition HealthResponse : ty :=
  interface
    [ req "status" (literals "healthy" ["degraded"; "unhealthy"]);
      req "version" TString;
      req "timestamp" TString;
      req "environment" TString;
      req "providers" (TRecord HealthResponse_provider);
      req "uptime_seconds" TNumber;
      req "requests_processed" TNumber;
      req "error_rate_percent" TNumber;
      req "available_providers" (TArray TString) ].

(** ** Utilities *)

(** The literals [0.0001] and [0.01] denote the doubles nearest to them. *)
Definition lit_0_0001 : number :=
  Fin (7378697629483821 # 73786976294838206464).
Definition lit_0_01 : number :=
  Fin (5764607523034235 # 576460752303423488).

Section Runtime.
Variable ToString_large : Q -> string.

Definition formatCost (cost : number) : completion string :=
  if lt cost lit_0_0001 then Returns "<$0.0001"
  else if lt cost lit_0_01 then
    let* s := toFixed ToString_large cost 4 in Returns ("$" ++ s)
  else
    let* s := toFixed ToString_large cost 2 in Returns ("$" ++ s).

End Runtime.

Definition DEFAULT_PROVIDER_COLOR : string := "#6b7280".

Definition provider_colors : gmap string value :=
  list_to_map
    [ ("openai", VStr "#10a37f");
      ("anthropic", VStr "#d4a574");
      ("azure", VStr "#0078d4");
      ("bedrock", VStr "#ff9900");
      ("mock", VStr "#6b7280");
      ("local", VStr "#8b5cf6") ].

(** The keys of [provider_colors]. *)
Definition KNOWN_PROVIDERS : list string :=
  ["openai"; "anthropic"; "azure"; "bedrock"; "mock"; "local"].

Definition getProviderColor (provider : string) : value :=
  or_else (get_property provider_colors (toLowerCase provider))
          (VStr DEFAULT_PROVIDER_COLOR).

Definition model_colors : list value :=
  [ VStr "#0ea5e9"; VStr "#8b5cf6"; VStr "#10b981"; VStr "#f59e0b";
    VStr "#ef4444"; VStr "#ec4899"; VStr "#6366f1"; VStr "#14b8a6" ].

Definition getModelColor (model : string) (index : number) : value :=
  array_get model_colors (rem index (of_nat (length model_colors))).

(** Shape of a rendered amount: a dollar sign, at least one digit, a dot,
    and exactly [d] digits. *)
Fixpoint split_dot (s : string) : option (string * string) :=
  match s with
  | EmptyString => None
  | String c r =>
      if Ascii.eqb c "." then Some ("", r)
      else match split_dot r with
           | Some (a, b) => Some (String c a, b)
           | None => None
           end
  end.

Definition is_dollar_fixed (d : nat) (s : string) : bool :=
  match s with
  | String c r =>
      Ascii.eqb c "$" &&
      match split_dot r with
      | Some (a, b) =>
          negb (String.length a =? 0)%nat && all_digits a &&
          all_digits b && (String.length b =? d)%nat
      | None => false
      end
  | EmptyString => false
  end.

End Api.

(* ===================================================================== *)
(** * [components/TryItDemo.tsx]                                          *)
(* ===================================================================== *)

Module TryItDemo.
Import JS TS.

(** An entry of [TASKS] or [PREFERENCES]; the description and the icon,
    which only the rendering reads, are left out. *)
Record Choice : Type := { value : string; label : string }.

Definition TASKS : list Choice :=
  [ {| value := "summarize"; label := "Summarize" |};
    {| value := "sentiment"; label := "Sentiment" |};
    {| value := "rewrite"; label := "Rewrite" |};
    {| value := "chat"; label := "Chat" |};
    {| value := "code"; label := "Code" |};
    {| value := "analysis"; label := "Analysis" |} ].

Definition PREFERENCES : list Choice :=
  [ {| value := "fast"; label := "Fast" |};
    {| value := "cheap"; label := "Cheap" |};
    {| value := "best"; label := "Best" |};
    {| value := "balanced"; label := "Balanced" |} ].

(** The part of the component state that a request is built from. *)
Record State : Type := { task : string; preference : string; text : string }.

Definition SAMPLE_TEXTS : list (string * string) :=
  [
    ("summarize",
       "The Industrial Revolution, which began in Britain in the late " ++
       "18th century, marked a major turning point in human history. It " ++
       "transformed predominantly agrarian, rural societies in Europe " ++
       "and America into industrial and urban ones. New manufacturing " ++
       "processes led to the development of factories, and the " ++
       "introduction of machine tools changed the nature of work. The " ++
       "revolution also brought about improvements in transportation, " ++
       "including the development of steam-powered ships and railways, " ++
       "which facilitated the movement of goods and people on an " ++
       "unprecedented scale.");
    ("sentiment",
       "I absolutely loved my experience at this restaurant! The food " ++
       "was incredible, the service was impeccable, and the atmosphere " ++
       "was perfect for a romantic dinner. The chef's special was a " ++
       "masterpiece of culinary art. I'll definitely be coming back and " ++
       "recommending this place to all my friends. Five stars isn't " ++
       "enough!");
    ("rewrite",
       "The meeting was pretty bad. Nobody showed up on time and the " ++
       "presentation was boring. We didnt really accomplish anything " ++
       "useful and people kept checking their phones. I think we need to " ++
       "do better next time.");
    ("chat",
       "What are the key differences between machine learning and deep " ++
       "learning? Can you explain when to use each approach?");
    ("code",
       "Write a Python function that takes a list of numbers and returns " ++
       "the top 3 most frequent elements. Handle edge cases " ++
       "appropriately.");
    ("analysis",
       "Our Q3 sales data shows: North region: $2.4M (up 15%), South " ++
       "region: $1.8M (down 5%), East region: $3.1M (up 22%), West " ++
       "region: $2.1M (flat). Total revenue: $9.4M. Customer acquisition " ++
       "cost increased by 8% while customer lifetime value grew by 12%.") ].

(** [SAMPLE_TEXTS[task]]; the type of [task] admits the six keys only. *)
Definition sample_text (task : string) : string :=
  default "" (assoc task SAMPLE_TEXTS).

Definition initial : State :=
  {| task := "summarize"; preference := "balanced";
     text := sample_text "summarize" |}.

(** What the user can do: press the [i]-th task button, press the [i]-th
    preference button, edit the text area. *)
Inductive Event : Type :=
| ClickTask (i : nat)
| ClickPreference (i : nat)
| ChangeText (s : string).

Definition handleTaskChange (newTask : string) (st : State) : State :=
  {| task := newTask; preference := preference st; text := sample_text newTask |}.

Definition setPreference (p : string) (st : State) : State :=
  {| task := task st; preference := p; text := text st |}.

Definition setText (s : string) (st : State) : State :=
  {| task := task st; preference := preference st; text := s |}.

(** A button exists only for the entries of the rendered array. *)
Definition step (st : State) (e : Event) : State :=
  match e with
  | ClickTask i =>
      match TASKS !! i with
      | Some t => handleTaskChange (value t) st
      | None => st
      end
  | ClickPreference i =>
      match PREFERENCES !! i with
      | Some p => setPreference (value p) st
      | None => st
      end
  | ChangeText s => setText s st
  end.

Definition run (es : list Event) : State := fold_left step es initial.

(** [handleSubmit]: the request handed to [generate], if any. *)
Definition handleSubmit (st : State) : option JS.value :=
  if String.eqb (trim (text st)) "" then None
  else Some (VObj [ ("task", VStr (task st));
                    ("model_preference", VStr (preference st));
                    ("text", VStr (trim (text st))) ]).

End TryItDemo.

(* ===================================================================== *)
(** * [components/ProviderStatus.tsx]                                     *)
(* ===================================================================== *)

Module ProviderStatus.
Import JS TS.

Definition ProviderHealth : ty :=
  interface
    [ req "status" TString;
      req "recent_requests" TNumber;
      req "error_rate" TNumber;
      opt "avg_latency_ms" TNumber ].

End ProviderStatus.

(* ===================================================================== *)
(** * The routing core                                                    *)
(* ===================================================================== *)

(** The routing core (candidate registry, health tracker, cost calculator,
    scorer, router) is served by the backend; the definitions of this
    module follow its specification, section by section.  Quantities are
    exact rationals. *)

Module Engine.

Inductive result (E A : Type) : Type :=
| Ok (a : A)
| Err (e : E).
Arguments Ok {E A} a.
Arguments Err {E A} e.

(** ** Data model (3) *)

(** Modelled from the spec: the data model of the backend, section 3 (the
    entities) and section 6 (the invocation results and error kinds); the
    backend sources are not part of the code base at hand.  Wall-clock
    readings other than the current time and the latency that a provider
    reports are not represented. *)
Record Pricing : Type := { price_in : Q; price_out : Q }.

Record ModelCandidate : Type := {
  id : string;
  provider : string;
  tasks : list string;
  max_input_tokens : Z;
  max_output_tokens : Z;
  pricing : Pricing;
  baseline_latency : Q;
  baseline_quality : Q
}.

Inductive PreferenceProfile : Type := fast | cheap | best | balanced.

Record Weights : Type := {
  w_cost : Q;
  w_latency : Q;
  w_quality : Q;
  w_availability : Q
}.

Record RequestConstraints : Type := {
  max_cost : option Q;
  max_latency : option Q;
  task : string
}.

Record Request : Type := {
  request_id : string;
  constraints : RequestConstraints;
  preference : PreferenceProfile;
  text : string
}.

Inductive HealthState : Type := Healthy | Degraded | Unhealthy.

Record Observation : Type := {
  succeeded : bool;
  observed_latency : option Q;
  observed_at : Q
}.

Record HealthRecord : Type := {
  window : list Observation;
  state : HealthState;
  last_transition : Q
}.

Record ScoredCandidate : Type := {
  candidate : ModelCandidate;
  estimated_cost : Q;
  cost_score : Q;
  latency_score : Q;
  quality_score : Q;
  availability_score : Q;
  final_score : Q;
  rationale : string
}.

Inductive ErrorKind : Type :=
| Timeout
| RateLimited
| Unauthenticated
| TransientTransportError
| ModelRefused.

Record InvokeError : Type := { kind : ErrorKind; message : string }.

Record Generation : Type := {
  generated : string;
  inputTokens : Z;
  outputTokens : Z;
  latencyMs : Q
}.

Inductive InvokeResult : Type :=
| Invoked (g : Generation)
| InvokeFailed (e : InvokeError).

Record Attempt : Type := { attempted : string; failure : InvokeError }.

Inductive RoutingError : Type :=
| NoEligibleModel
| InvalidTokenCount
| AllProvidersFailed (attempts : list Attempt)
| ProviderError (e : InvokeError) (attempts : list Attempt).

Record RoutingDecision : Type := {
  selected : ScoredCandidate;
  considered : list ScoredCandidate;
  failures : list Attempt;
  generation : Generation;
  computed_cost : Q
}.

Record Outcome : Type := {
  outcome_request : string;
  chosen_model : option string;
  success : bool;
  tokens_in : Z;
  tokens_out : Z;
  outcome_cost : Q;
  outcome_latency : Q;
  outcome_at : Q
}.




(** ** Cost Calculator (4.3) *)

Definition cost_amount (inputTokens outputTokens : Z) (p : Pricing) : Q :=
  inject_Z inputTokens / 1000 * price_in p + inject_Z outputTokens / 1000 * price_out p.

(** Modelled from the spec: the cost calculator of the backend
    ([services/cost_calculator.py]), section 4.3: the priced sum of the two
    token counts, and [InvalidTokenCount] for a negative count. *)
Definition cost (inputTokens outputTokens : Z) (p : Pricing) : result RoutingError Q :=
  if (inputTokens <? 0)%Z || (outputTokens <? 0)%Z then Err InvalidTokenCount
  else Ok (cost_amount inputTokens outputTokens p).

(** ** Candidate Registry (4.1) *)

Definition within (bound : option Q) (x : Q) : bool :=
  match bound with
  | Some b => Qle_bool x b
  | None => true
  end.

Definition supports (t : string) (c : ModelCandidate) : bool :=
  existsb (String.eqb t) (tasks c).

(** Modelled from the spec: the registry filter of the backend router,
    section 4.1: task support, then the two hard constraints, in
    registration order; [NoEligibleModel] for an empty result.  The minimum
    achievable cost of a candidate is its cost for the input alone. *)
Definition eligible (registry : list ModelCandidate) (cs : RequestConstraints)
    (input_size : N) : result RoutingError (list ModelCandidate) :=
  match
    List.filter (fun c =>
      supports (task cs) c
      && within (max_cost cs) (cost_amount (Z.of_N input_size) 0 (pricing c))
      && within (max_latency cs) (baseline_latency c)) registry
  with
  | [] => Err NoEligibleModel
  | cands => Ok cands
  end.

(** ** Health Tracker (4.2) *)

Definition failures_in (w : list Observation) : nat :=
  length (List.filter (fun o => negb (succeeded o)) w).

(** Modelled from the spec: the error rate over the rolling window of the
    health tracker, section 4.2; an empty window has no errors. *)
Definition error_rate (w : list Observation) : Q :=
  match w with
  | [] => 0
  | _ => inject_Z (Z.of_nat (failures_in w)) / inject_Z (Z.of_nat (length w))
  end.

(** Failures at the recent end of the window (the newest entry is last). *)
Fixpoint leading_failures (newest_first : list Observation) : nat :=
  match newest_first with
  | o :: r => if succeeded o then O else S (leading_failures r)
  | [] => O
  end.

Definition consecutive_failures (w : list Observation) : nat :=
  leading_failures (rev w).

Definition fresh_record (now : Q) : HealthRecord :=
  {| window := []; state := Healthy; last_transition := now |}.

Definition state_eqb (a b : HealthState) : bool :=
  match a, b with
  | Healthy, Healthy | Degraded, Degraded | Unhealthy, Unhealthy => true
  | _, _ => false
  end.

Section Tracker.
(** The knobs that the specification leaves to the configuration: window
    length in outcomes and in seconds, the two error-rate thresholds, the
    run of failures that marks a provider unhealthy, the cool-down. *)
Variables (W : nat) (T : Q) (e1 e2 : Q) (k : nat) (cool_down : Q).

(** Modelled from the spec: the rolling window of the health tracker,
    section 4.2: the last [W] outcomes or the outcomes of the last [T]
    seconds, whichever are fewer. *)
Definition evict (now : Q) (w : list Observation) : list Observation :=
  let recent := List.filter (fun o => Qle_bool (now - T) (observed_at o)) w in
  drop (length recent - W) recent.

(** Modelled from the spec: the state machine of the health tracker,
    section 4.2: degraded above [e1]; unhealthy above [e2] or after [k]
    failures in a row; one step back once the cool-down has passed with the
    error rate no longer above the threshold. *)
Definition next_state (r : HealthRecord) (w : list Observation) (now : Q) : HealthState :=
  let rate := error_rate w in
  let cooled := Qle_bool (last_transition r + cool_down) now in
  match state r with
  | Healthy => if JS.Qltb e1 rate then Degraded else Healthy
  | Degraded =>
      if JS.Qltb e2 rate || (k <=? consecutive_failures w)%nat then Unhealthy
      else if cooled && Qle_bool rate e1 then Healthy
      else Degraded
  | Unhealthy =>
      if cooled && Qle_bool rate e2 then Degraded else Unhealthy
  end.

(** Modelled from the spec: the lazy evaluation of the health tracker,
    section 4.2: evict what has expired and take the transition that is
    due, on every update and, without storing the result, on every read. *)
Definition refresh (now : Q) (r : HealthRecord) : HealthRecord :=
  let w := evict now (window r) in
  let st := next_state r w now in
  {| window := w; state := st;
     last_transition := if state_eqb st (state r) then last_transition r else now |}.

(** Modelled from the spec: [record] of the health tracker, section 4.2:
    append to the rolling window, evict, recompute the state. *)
Definition record (p : string) (ok : bool) (latency : option Q) (now : Q)
    (ht : gmap string HealthRecord) : gmap string HealthRecord :=
  let r := default (fresh_record now) (ht !! p) in
  let observed := {| succeeded := ok; observed_latency := latency; observed_at := now |} in
  <[ p := refresh now {| window := (window r ++ [observed])%list; state := state r;
                         last_transition := last_transition r |} ]> ht.

(** Modelled from the spec: the health snapshot of section 4.6, step 2,
    the point-in-time view that a request is scored against. *)
Definition snapshot (now : Q) (ht : gmap string HealthRecord) : gmap string HealthRecord :=
  refresh now <$> ht.

End Tracker.

(** Modelled from the spec: [availabilityScore] of the health tracker,
    section 4.2: 1 when healthy, one half scaled by the share of successes
    when degraded, 0 when unhealthy.  A provider never observed is healthy. *)
Definition availabilityScore (ht : gmap string HealthRecord) (p : string) : Q :=
  match ht !! p with
  | None => 1
  | Some r =>
      match state r with
      | Healthy => 1
      | Degraded => (1 # 2) * (1 - error_rate (window r))
      | Unhealthy => 0
      end
  end.

(** ** Scorer (4.5) *)

Definition minimum (x : Q) (xs : list Q) : Q := fold_right Qmin x xs.
Definition maximum (x : Q) (xs : list Q) : Q := fold_right Qmax x xs.

Section Scorer.
(** The weight table, the value of a normalisation over an axis on which
    all candidates tie, the tolerance of the final-score comparison, and the
    wording of the rationale: configuration. *)
Variable weights : PreferenceProfile -> Weights.
Variable tie_normalized : Q.
Variable eps : Q.
Variable explain : PreferenceProfile -> ModelCandidate -> string.

(** Modelled from the spec: the min-max normalisation of the scorer,
    section 4.5; its value on an axis where all candidates tie is the
    configured one. *)
Definition normalize (lo hi x : Q) : Q :=
  if Qeq_bool hi lo then tie_normalized else (x - lo) / (hi - lo).

(** Modelled from the spec: the cost and latency scores of the scorer,
    section 4.5: one minus the min-max normalisation over the current set,
    and 1 on a singleton set. *)
Definition relative_score (all : list Q) (x : Q) : Q :=
  match all with
  | [_] => 1
  | _ => 1 - normalize (minimum x all) (maximum x all) x
  end.

Definition weighted (w : Weights) (c l q a : Q) : Q :=
  w_cost w * c + w_latency w * l + w_quality w * q + w_availability w * a.

(** Modelled from the spec: the scored candidate of section 4.5: the two
    relative scores, the curated quality as it is, the availability score
    of the provider, and their weighted sum. *)
Definition score_one (cands : list ModelCandidate) (pref : PreferenceProfile)
    (ht : gmap string HealthRecord) (costEstimates : ModelCandidate -> Q)
    (c : ModelCandidate) : ScoredCandidate :=
  let cs := relative_score (map costEstimates cands) (costEstimates c) in
  let ls := relative_score (map baseline_latency cands) (baseline_latency c) in
  let qs := baseline_quality c in
  let av := availabilityScore ht (provider c) in
  {| candidate := c;
     estimated_cost := costEstimates c;
     cost_score := cs;
     latency_score := ls;
     quality_score := qs;
     availability_score := av;
     final_score := weighted (weights pref) cs ls qs av;
     rationale := explain pref c |}.

Definition tied (a b : Q) : bool := Qle_bool (Qabs (a - b)) eps.

(** Modelled from the spec: the order of section 4.5.  [precedes a b]:
    [a] is ranked strictly before [b], by final score, and on a tie within
    [eps] by higher quality, then by lower estimated cost. *)
Definition precedes (a b : ScoredCandidate) : bool :=
  if tied (final_score a) (final_score b) then
    if JS.Qltb (quality_score b) (quality_score a) then true
    else if JS.Qltb (quality_score a) (quality_score b) then false
    else JS.Qltb (estimated_cost a) (estimated_cost b)
  else JS.Qltb (final_score b) (final_score a).

(** Modelled from the spec: the last tie-break of section 4.5: insertion
    behind everything that the new entry does not precede, so that
    registration order decides what is left undecided. *)
Fixpoint insert (x : ScoredCandidate) (l : list ScoredCandidate) : list ScoredCandidate :=
  match l with
  | [] => [x]
  | y :: r => if precedes x y then x :: y :: r else y :: insert x r
  end.

Definition rank (l : list ScoredCandidate) : list ScoredCandidate :=
  fold_left (fun acc x => insert x acc) l [].

(** Modelled from the spec: [score] of the backend scorer, section 4.5:
    the four component scores, the weighted final score, and the descending
    order with its tie-breaks. *)
Definition score (cands : list ModelCandidate) (pref : PreferenceProfile)
    (ht : gmap string HealthRecord) (costEstimates : ModelCandidate -> Q)
    : list ScoredCandidate :=
  rank (map (score_one cands pref ht costEstimates) cands).

End Scorer.

(** ** Router (4.6) *)

Inductive Attempts : Type :=
| Won (sc : ScoredCandidate) (g : Generation) (failed : list Attempt)
| Exhausted (failed : list Attempt)
| Refused (e : InvokeError) (failed : list Attempt).

Definition is_unauthenticated (k : ErrorKind) : bool :=
  match k with Unauthenticated => true | _ => false end.

Section Router.
Variables (W : nat) (T : Q) (e1 e2 : Q) (k : nat) (cool_down : Q).
Variable weights : PreferenceProfile -> Weights.
Variable tie_normalized : Q.
Variable eps : Q.
Variable explain : PreferenceProfile -> ModelCandidate -> string.
(** The registry, the size of an input text in tokens, the cost snapshot
    used for scoring, the attempt cap (3 by default), the multiplier of the
    per-attempt timeout, the clock reading, and the provider capability. *)
Variable registry : list ModelCandidate.
Variable input_size : string -> N.
Variable costEstimates : Request -> ModelCandidate -> Q.
Variable max_attempts : nat.
Variable safety_multiplier : Q.
Variable now : Q.
Variable invoke : string -> string -> Q -> InvokeResult.

Definition timeout_of (c : ModelCandidate) : Q := baseline_latency c * safety_multiplier.

(** Modelled from the spec: steps 3 to 6 of the router, section 4.6: walk
    the ranking computed once, at most [budget] attempts, recording each
    outcome with the health tracker; every error kind moves on to the next
    candidate except [Unauthenticated], which ends the walk (section 6). *)
Fixpoint try_in_order (req : Request) (todo : list ScoredCandidate) (budget : nat)
    (failed : list Attempt) (ht : gmap string HealthRecord)
    : Attempts * gmap string HealthRecord :=
  match budget, todo with
  | S b, sc :: rest =>
      let c := candidate sc in
      match invoke (id c) (text req) (timeout_of c) with
      | Invoked g =>
          (Won sc g failed,
           record W T e1 e2 k cool_down (provider c) true (Some (latencyMs g)) now ht)
      | InvokeFailed e =>
          let ht' := record W T e1 e2 k cool_down (provider c) false None now ht in
          let failed' := (failed ++ [{| attempted := id c; failure := e |}])%list in
          if is_unauthenticated (kind e) then (Refused e failed', ht')
          else try_in_order req rest b failed' ht'
      end
  | _, _ => (Exhausted failed, ht)
  end.

Definition failed_outcome (req : Request) : Outcome :=
  {| outcome_request := request_id req; chosen_model := None; success := false;
     tokens_in := 0; tokens_out := 0; outcome_cost := 0; outcome_latency := 0;
     outcome_at := now |}.

(** Modelled from the spec: [route] of the backend router
    ([services/router.py]), section 4.6 with the error kinds of section 6:
    eligible candidates, one ranking, attempts in that order up to the cap;
    [Unauthenticated] ends the request at once. *)
Definition route (req : Request) (ht : gmap string HealthRecord)
    : result RoutingError RoutingDecision * gmap string HealthRecord * list Outcome :=
  match eligible registry (constraints req) (input_size (text req)) with
  | Err e => (Err e, ht, [])
  | Ok cands =>
      let ranked := score weights tie_normalized eps explain cands (preference req)
                          (snapshot W T e1 e2 k cool_down now ht) (costEstimates req) in
      match try_in_order req ranked max_attempts [] ht with
      | (Won sc g failed, ht') =>
          match cost (inputTokens g) (outputTokens g) (pricing (candidate sc)) with
          | Err e => (Err e, ht', [failed_outcome req])
          | Ok c =>
              (Ok {| selected := sc; considered := ranked; failures := failed;
                     generation := g; computed_cost := c |},
               ht',
               [{| outcome_request := request_id req;
                   chosen_model := Some (id (candidate sc));
                   success := true;
                   tokens_in := inputTokens g; tokens_out := outputTokens g;
                   outcome_cost := c; outcome_latency := latencyMs g;
                   outcome_at := now |}])
          end
      | (Exhausted failed, ht') => (Err (AllProvidersFailed failed), ht', [failed_outcome req])
      | (Refused e failed, ht') => (Err (ProviderError e failed), ht', [failed_outcome req])
      end
  end.

End Router.

End Engine.

(* ===================================================================== *)
(** * Number arithmetic of the engine                                     *)
(* ===================================================================== *)

Module JSNumber.
Import JS.

(** [2^e], for an integer [e]. *)
Definition pow2 (e : Z) : Q :=
  match e with
  | Z0 => 1
  | Zpos p => inject_Z (Zpos (2 ^ p))
  | Zneg p => 1 # (2 ^ p)
  end.

(** [floor (log2 q)], for a positive [q]. *)
Definition binade (q : Q) : Z :=
  let e := (Z.log2 (Qnum q) - Z.log2 (Zpos (Qden q)))%Z in
  if Qle_bool (pow2 e) q then e else (e - 1)%Z.

(** The nearest integer, the even one at a tie. *)
Definition round_half_even (q : Q) : Z :=
  let f := Qfloor q in
  match Qcompare (q - inject_Z f) (1 # 2) with
  | Lt => f
  | Gt => (f + 1)%Z
  | Eq => if Z.even f then f else (f + 1)%Z
  end.

(** The double nearest to a positive rational, before the overflow check:
    53 significant bits, exponents from -1074 up, ties to even. *)
Definition nearest_double (q : Q) : Q :=
  let e := Z.max (binade q - 52) (-1074) in
  (inject_Z (round_half_even (q / pow2 e)) * pow2 e)%Q.

(** The result of an arithmetic operation whose exact value is [q]. *)
Definition to_double (q : Q) : number :=
  match Qcompare q 0 with
  | Eq => Fin 0
  | Gt =>
      let r := nearest_double q in
      if Qle_bool (pow2 1024) r then PosInf else Fin r
  | Lt =>
      let r := nearest_double (- q) in
      if Qle_bool (pow2 1024) r then NegInf else Fin (- r)
  end.

(** [a / b].  A zero divisor counts as positive zero. *)
Definition div (a b : number) : number :=
  match a, b with
  | NaN, _ | _, NaN => NaN
  | PosInf, Fin y => if Qltb y 0 then NegInf else PosInf
  | NegInf, Fin y => if Qltb y 0 then PosInf else NegInf
  | PosInf, _ | NegInf, _ => NaN
  | Fin _, PosInf | Fin _, NegInf => Fin 0
  | Fin x, Fin y =>
      if Qeq_bool y 0 then
        (if Qeq_bool x 0 then NaN else if Qltb x 0 then NegInf else PosInf)
      else to_double (x / y)
  end.

(** [a + b], [a - b] and [a * b]. *)
Definition add (a b : number) : number :=
  match a, b with
  | NaN, _ | _, NaN => NaN
  | PosInf, NegInf | NegInf, PosInf => NaN
  | PosInf, _ | _, PosInf => PosInf
  | NegInf, _ | _, NegInf => NegInf
  | Fin x, Fin y => to_double (x + y)
  end.

Definition neg (a : number) : number :=
  match a with
  | NaN => NaN
  | PosInf => NegInf
  | NegInf => PosInf
  | Fin x => Fin (- x)
  end.

Definition sub (a b : number) : number := add a (neg b).

Definition mul (a b : number) : number :=
  match a, b with
  | NaN, _ | _, NaN => NaN
  | Fin x, Fin y => to_double (x * y)
  | Fin x, i | i, Fin x =>
      if Qeq_bool x 0 then NaN
      else if Qltb x 0 then neg i else i
  | PosInf, PosInf | NegInf, NegInf => PosInf
  | PosInf, NegInf | NegInf, PosInf => NegInf
  end.

(** A rational that a double can hold. *)
Definition is_double (q : Q) : bool :=
  match to_double q with
  | Fin r => Qeq_bool r q
  | _ => false
  end.

(** [Math.round]: the nearest integer, the larger one at a tie. *)
Definition Math_round (x : number) : number :=
  match x with
  | Fin q => Fin (inject_Z (Qfloor (q + (1 # 2))))
  | _ => x
  end.

Definition is_integer (q : Q) : bool := Qeq_bool q (inject_Z (Qfloor q)).

Section Runtime.

(** [Number::toString] of a finite value that is not an integer of
    magnitude below [10^21]: the shortest decimal that reads back as the
    same double.  It belongs to the engine. *)
Variable ToString_other : Q -> string.

(** [Number::toString], radix ten; also what a template literal prints. *)
Definition Number_toString (x : number) : string :=
  match x with
  | NaN => "NaN"
  | PosInf => "Infinity"
  | NegInf => "-Infinity"
  | Fin q =>
      if is_integer q && Qltb (Qabs q) ten_pow_21
      then (if Qltb q 0 then "-" else "") ++ decimal (Z.abs (Qfloor q))
      else ToString_other q
  end.

End Runtime.

End JSNumber.

(* ===================================================================== *)
(** * [lib/api.ts]: latencies and counts                                  *)
(* ===================================================================== *)

Module ApiFormat.
Import JS JSNumber.

Section Runtime.
Variable ToString_other : Q -> string.

Definition formatLatency (ms : number) : completion string :=
  if lt ms (Fin 1000) then
    Returns (Number_toString ToString_other (Math_round ms) ++ "ms")
  else
    let* s := toFixed ToString_other (div ms (Fin 1000)) 2 in Returns (s ++ "s").

Definition formatNumber (num : number) : completion string :=
  if ge num (Fin 1000000) then
    let* s := toFixed ToString_other (div num (Fin 1000000)) 1 in Returns (s ++ "M")
  else if ge num (Fin 1000) then
    let* s := toFixed ToString_other (div num (Fin 1000)) 1 in Returns (s ++ "K")
  else Returns (Number_toString ToString_other num).

End Runtime.

End ApiFormat.

(* ===================================================================== *)
(** * Reading rendered numbers                                            *)
(* ===================================================================== *)

(** What a rendered number denotes: the inverse direction of [decimal],
    [toFixed] and [Number_toString], used to state how far a rendering is
    from the number it renders. *)

Module Reading.
Import JS.

Definition digit_value (c : ascii) : N := N.of_nat (nat_of_ascii c - 48).

Fixpoint digits_value_from (acc : N) (s : string) : N :=
  match s with
  | EmptyString => acc
  | String c r => digits_value_from (acc * 10 + digit_value c) r
  end.

(** The number that a string of decimal digits denotes. *)
Definition digits_value (s : string) : N := digits_value_from 0 s.

(** The number that [digits "." digits] denotes. *)
Definition fixed_value (s : string) : option Q :=
  match Api.split_dot s with
  | Some (a, b) =>
      if negb (String.length a =? 0)%nat && all_digits a && all_digits b
      then Some (inject_Z (Z.of_N (digits_value (a ++ b)))
                 / inject_Z (10 ^ Z.of_nat (String.length b)))%Q
      else None
  | None => None
  end.

(** The digits of [n] with a dot before the last [f] of them, after
    padding with zeros to [f + 1] digits: the text of [n / 10^f]. *)
Definition fixed_text (n : Z) (f : nat) : string :=
  let m := decimal n in
  let m := if (String.length m <=? f)%nat
           then zeros (f + 1 - String.length m) ++ m else m in
  let k := String.length m in
  take (k - f) m ++ "." ++ drop (k - f) m.

(** The amount behind a dollar sign. *)
Definition dollar_value (s : string) : option Q :=
  match s with
  | String "$" r => fixed_value r
  | _ => None
  end.

(** The digits of an integer, behind a minus sign when it is negative. *)
Definition integer_text (n : Z) : string :=
  (if (n <? 0)%Z then "-" else "") ++ decimal (Z.abs n).


End Reading.

(* ===================================================================== *)
(** * More of the engine: strings, members, conversions, promises         *)
(* ===================================================================== *)

Module JSObject.
Import JS JSNumber.

(** [s.split(sep)] for a separator of one code unit: the pieces between
    the occurrences of [sep]; never an empty array. *)
Fixpoint split (sep : ascii) (s : string) : list string :=
  match s with
  | EmptyString => [""]
  | String c r =>
      if Ascii.eqb c sep then "" :: split sep r
      else match split sep r with
           | h :: t => String c h :: t
           | [] => [String c ""]
           end
  end.

(** [a.pop()], as a value: the last element, [undefined] on an empty
    array. *)
Definition pop (a : list string) : value :=
  match last a with
  | Some s => VStr s
  | None => VUndefined
  end.

Fixpoint contains (c : ascii) (s : string) : bool :=
  match s with
  | EmptyString => false
  | String d r => Ascii.eqb d c || contains c r
  end.




(** [v.name] for one of the names that the client reads off a response
    ([status], [detail], [logs], [provider_health], [routing], ...), none of
    which a built-in prototype defines: a [TypeError] on [null] and
    [undefined], the own member of an object, [undefined] otherwise. *)
Definition member (name : string) (v : value) : completion value :=
  match v with
  | VUndefined | VNull => Throws TypeError
  | VObj props =>
      Returns (match assoc name props with
               | Some w => w
               | None => default VUndefined (assoc name Object_prototype)
               end)
  | _ => Returns VUndefined
  end.

(** [v === s] for a string [s]. *)
Definition is_the_string (s : string) (v : value) : bool :=
  match v with
  | VStr t => String.eqb t s
  | _ => false
  end.

Section Runtime.
Variable ToString_other : Q -> string.
(** The text that the engine prints for one of its own functions. *)
Variable Function_toString : string -> string.

(** [ToString]: what [String(v)], a template literal and [new Error(v)]
    make of a value.  An array joins its elements with commas, [null] and
    [undefined] elements counting as empty; an object without a [toString]
    of its own prints as ["[object Object]"]; an object whose own
    [toString] is not a function cannot be converted. *)
Fixpoint ToString (v : value) : completion string :=
  match v with
  | VUndefined => Returns "undefined"
  | VNull => Returns "null"
  | VBool true => Returns "true"
  | VBool false => Returns "false"
  | VNum n => Returns (Number_toString ToString_other n)
  | VStr s => Returns s
  | VArr l =>
      (fix join (l : list value) : completion string :=
         match l with
         | [] => Returns ""
         | e :: r =>
             let* a := match e with
                       | VUndefined | VNull => Returns ""
                       | _ => ToString e
                       end in
             match r with
             | [] => Returns a
             | _ => let* b := join r in Returns (a ++ "," ++ b)
             end
         end) l
  | VObj props =>
      match assoc "toString" props with
      | Some _ => Throws TypeError
      | None => Returns "[object Object]"
      end
  | VBuiltin name => Returns (Function_toString name)
  end.

End Runtime.

(** What a promise settles to.  The errors that the engine raises itself
    are kept apart from [new Error(message)]; all of them are instances of
    [Error]. *)
Inductive Thrown : Type :=
| ErrorWith (message : string)
| NativeTypeError
| NativeSyntaxError
| NetworkError.

Inductive Settled (A : Type) : Type :=
| Fulfilled (a : A)
| Rejected (e : Thrown).
Arguments Fulfilled {A} a.
Arguments Rejected {A} e.

(** How a [fetch] ends: it rejects, or it answers with a status and a body
    that [response.json()] can parse or not. *)
Inductive FetchOutcome : Type :=
| FetchFailed
| Responded (status : nat) (json : option value).

(** [response.ok]. *)
Definition response_ok (status : nat) : bool :=
  (200 <=? status)%nat && (status <=? 299)%nat.

End JSObject.

(* ===================================================================== *)
(** * [lib/api.ts]: the calls                                             *)
(* ===================================================================== *)

Module ApiCalls.
Import JS JSNumber JSObject.

Section Runtime.
Variable ToString_other : Q -> string.
Variable Function_toString : string -> string.

(** [fetchAPI], as a function of how the [fetch] ends.  The address, the
    method and the headers do not influence what is made of the answer. *)
Definition fetchAPI (o : FetchOutcome) : Settled value :=
  match o with
  | FetchFailed => Rejected NetworkError
  | Responded status json =>
      if negb (response_ok status) then
        let error :=
          match json with
          | Some v => v
          | None => VObj [("detail", VStr "Unknown error")]
          end in
        match member "detail" error with
        | Throws _ => Rejected NativeTypeError
        | Returns detail =>
            let message :=
              or_else detail
                (VStr ("API error: " ++
                       Number_toString ToString_other (of_nat status))) in
            match ToString ToString_other Function_toString message with
            | Returns m => Rejected (ErrorWith m)
            | Throws _ => Rejected NativeTypeError
            end
        end
      else
        match json with
        | Some v => Fulfilled v
        | None => Rejected NativeSyntaxError
        end
  end.

(** The calls differ in the address only. *)
Definition getHealth : FetchOutcome -> Settled value := fetchAPI.
Definition getBasicHealth : FetchOutcome -> Settled value := fetchAPI.
Definition generate : FetchOutcome -> Settled value := fetchAPI.
Definition getMetricsSummary : FetchOutcome -> Settled value := fetchAPI.
Definition getRealtimeStats : FetchOutcome -> Settled value := fetchAPI.
Definition getRequestLogs : FetchOutcome -> Settled value := fetchAPI.

End Runtime.

End ApiCalls.

(* ===================================================================== *)
(** * The charts                                                          *)
(* ===================================================================== *)

Module Charts.
Import JS JSNumber JSObject.

(** [Array.prototype.sort] with a comparator.  The sort is stable, and for
    a comparator that orders consistently the result does not depend on the
    algorithm; insertion is used here.  [x] goes before [y] when
    [cmp x y < 0]. *)
Fixpoint sort_insert {A} (cmp : A -> A -> number) (x : A) (l : list A) : list A :=
  match l with
  | [] => [x]
  | y :: r => if lt (cmp x y) (Fin 0) then x :: y :: r else y :: sort_insert cmp x r
  end.

Definition sort {A} (cmp : A -> A -> number) (l : list A) : list A :=
  fold_left (fun sorted x => sort_insert cmp x sorted) l [].

(** [name.split('/').pop() || name]: the label of a model in the charts
    and in the table. *)
Definition short_name (name : string) : JS.value :=
  or_else (pop (split "/" name)) (VStr name).

(** ** [components/ModelDistributionChart.tsx] *)

Record Slice : Type := {
  name : JS.value;
  fullName : string;
  value : number;
  color : JS.value
}.


(** [chartData.reduce((sum, item) => sum + item.value, 0)]. *)
Definition total (entries : list Slice) : number :=
  fold_left (fun sum item => add sum (value item)) entries (Fin 0).

(** The share in the tooltip of a slice:
    [((data.value / total) * 100).toFixed(1)]. *)
Definition percentage (ToString_other : Q -> string) (entries : list Slice) (data : Slice)
    : completion string :=
  toFixed ToString_other (mul (div (value data) (total entries)) (Fin 100)) 1.

(** ** [components/CostBreakdownChart.tsx] *)

Record Bar : Type := {
  bar_name : JS.value;
  bar_fullName : string;
  cost : number;
  fill : JS.value
}.

(** The comparator [(a, b) => b.cost - a.cost]. *)
Definition by_cost (a b : Bar) : number := sub (cost b) (cost a).

Definition costChartData (data : list (string * number)) : list Bar :=
  sort by_cost
       (imap (fun index entry =>
                {| bar_name := short_name (fst entry);
                   bar_fullName := fst entry;
                   cost := snd entry;
                   fill := Api.getModelColor (fst entry) (of_nat index) |}) data).

(** A cost that a JSON number can hold, and the order of the bars. *)
Definition finite_cost (b : Bar) : Prop :=
  exists q, cost b = Fin q /\ is_double q = true.

Definition not_cheaper (a b : Bar) : Prop := ge (cost a) (cost b) = true.

End Charts.

(* ===================================================================== *)
(** * [components/ProviderStatus.tsx]: icon and badge                     *)
(* ===================================================================== *)

Module ProviderStatusView.
Import JS JSObject.

Inductive Icon : Type := CheckCircle | AlertTriangle | XCircle | Server.

(** [getStatusIcon]: the icon and its class. *)
Definition getStatusIcon (status : string) : Icon * string :=
  if String.eqb status "healthy" then (CheckCircle, "w-5 h-5 text-emerald-500")
  else if String.eqb status "degraded" then (AlertTriangle, "w-5 h-5 text-amber-500")
  else if String.eqb status "unhealthy" then (XCircle, "w-5 h-5 text-red-500")
  else (Server, "w-5 h-5 text-slate-400").

Definition badge_classes : gmap string value :=
  list_to_map
    [ ("healthy", VStr "bg-emerald-100 text-emerald-700");
      ("degraded", VStr "bg-amber-100 text-amber-700");
      ("unhealthy", VStr "bg-red-100 text-red-700");
      ("unknown", VStr "bg-slate-100 text-slate-600") ].

Definition getStatusBadge (status : string) : value :=
  or_else (get_property badge_classes status) (get_property badge_classes "unknown").

End ProviderStatusView.

(* ===================================================================== *)
(** * [components/Header.tsx]                                             *)
(* ===================================================================== *)

Module Header.
Import JS JSObject ApiCalls.

Inductive Health : Type := healthy | degraded | unhealthy | loading.

Section Runtime.
Variable ToString_other : Q -> string.
Variable Function_toString : string -> string.

(** [checkHealth]: the state it sets, given how the request ends. *)
Definition checkHealth (o : FetchOutcome) : Health :=
  match getBasicHealth ToString_other Function_toString o with
  | Fulfilled data =>
      match member "status" data with
      | Returns status => if is_the_string "healthy" status then healthy else degraded
      | Throws _ => unhealthy
      end
  | Rejected _ => unhealthy
  end.

(** The indicator after the checks that have ended so far, oldest first;
    [loading] before the first. *)
Definition indicator (ended : list FetchOutcome) : Health :=
  fold_left (fun _ o => checkHealth o) ended loading.

End Runtime.

End Header.

(* ===================================================================== *)
(** * [components/TryItDemo.tsx]: a session                               *)
(* ===================================================================== *)

Module TryItSession.
Import JS TS JSNumber JSObject ApiCalls.

(** The whole component state: the choices, and what [handleSubmit]
    maintains.  [in_flight] is the request whose answer is awaited. *)
Record Session : Type := {
  choices : TryItDemo.State;
  loading : bool;
  response : option JS.value;
  error : option string;
  showDetails : bool;
  in_flight : option JS.value
}.

Definition initial : Session :=
  {| choices := TryItDemo.initial; loading := false; response := None;
     error := None; showDetails := false; in_flight := None |}.

Inductive Event : Type :=
| ClickTask (i : nat)
| ClickPreference (i : nat)
| ChangeText (s : string)
| ClickGenerate
| Settle (o : FetchOutcome)
| ToggleDetails.


Section Runtime.
Variable ToString_other : Q -> string.
Variable Function_toString : string -> string.
(** The message that the engine gives to an error it raises itself. *)
Variable Native_message : Thrown -> string.

(** [err instanceof Error ? err.message : 'Failed to generate response']:
    everything that [generate] rejects with is an [Error]. *)
Definition message_of (e : Thrown) : string :=
  match e with
  | ErrorWith m => m
  | other => Native_message other
  end.

Definition with_choices (c : TryItDemo.State) (s : Session) : Session :=
  {| choices := c; loading := loading s; response := response s; error := error s;
     showDetails := showDetails s; in_flight := in_flight s |}.

Definition step (s : Session) (e : Event) : Session :=
  match e with
  | ClickTask i =>
      match TryItDemo.TASKS !! i with
      | Some t =>
          {| choices := TryItDemo.handleTaskChange (TryItDemo.value t) (choices s);
             loading := loading s; response := None; error := None;
             showDetails := showDetails s; in_flight := in_flight s |}
      | None => s
      end
  | ClickPreference i => with_choices (TryItDemo.step (choices s) (TryItDemo.ClickPreference i)) s
  | ChangeText t => with_choices (TryItDemo.step (choices s) (TryItDemo.ChangeText t)) s
  | ClickGenerate =>
      (* the button is disabled while loading and on a blank text *)
      if loading s then s
      else match TryItDemo.handleSubmit (choices s) with
           | None => s
           | Some request =>
               {| choices := choices s; loading := true; response := None; error := None;
                  showDetails := showDetails s; in_flight := Some request |}
           end
  | Settle o =>
      match in_flight s with
      | None => s
      | Some _ =>
          match generate ToString_other Function_toString o with
          | Fulfilled result =>
              {| choices := choices s; loading := false; response := Some result;
                 error := error s; showDetails := showDetails s; in_flight := None |}
          | Rejected e =>
              {| choices := choices s; loading := false; response := response s;
                 error := Some (message_of e); showDetails := showDetails s;
                 in_flight := None |}
          end
      end
  | ToggleDetails =>
      (* the toggle is part of the response display *)
      match response s with
      | None => s
      | Some _ =>
          {| choices := choices s; loading := loading s; response := response s;
             error := error s; showDetails := negb (showDetails s);
             in_flight := in_flight s |}
      end
  end.

Definition run (es : list Event) : Session := fold_left step es initial.

(** The three quick stats above the result, from the members
    [routing.selected_model], [performance.total_time_ms] and
    [usage.total_cost_usd] of the response: model, latency, cost. *)
Definition quickStats (selected_model : string) (total_time_ms total_cost_usd : number)
    : completion (JS.value * string * string) :=
  let model := pop (split "/" selected_model) in
  let* latency := ApiFormat.formatLatency ToString_other total_time_ms in
  let* cost := Api.formatCost ToString_other total_cost_usd in
  Returns (model, latency, cost).

End Runtime.

End TryItSession.

(* ===================================================================== *)
(** * [app/page.tsx]: the dashboard                                       *)
(* ===================================================================== *)

Module Dashboard.
Import JS JSObject ApiCalls.

Record State : Type := {
  metrics : value;
  logs : value;
  providerHealth : value;
  loading : bool;
  lastUpdated : option Q;
  error : option string
}.

Definition UNABLE_TO_CONNECT : string :=
  "Unable to connect to API. Make sure the backend is running.".

Section Runtime.
Variable ToString_other : Q -> string.
Variable Function_toString : string -> string.

(** [fetchData], given the clock reading and how the three requests end
    (metrics summary, request logs, realtime statistics); one round at a
    time. *)
Definition fetchData (now : Q) (m l r : FetchOutcome) (s : State) : State :=
  let metricsData :=
    match getMetricsSummary ToString_other Function_toString m with
    | Fulfilled v => v
    | Rejected _ => VNull
    end in
  let logsData :=
    match getRequestLogs ToString_other Function_toString l with
    | Fulfilled v => v
    | Rejected _ => VObj [("logs", VArr [])]
    end in
  let realtimeData :=
    match getRealtimeStats ToString_other Function_toString r with
    | Fulfilled v => v
    | Rejected _ => VObj [("provider_health", VObj [])]
    end in
  let metrics' := if truthy metricsData then metricsData else metrics s in
  match member "logs" logsData with
  | Throws _ =>
      {| metrics := metrics'; logs := logs s; providerHealth := providerHealth s;
         loading := false; lastUpdated := lastUpdated s;
         error := Some UNABLE_TO_CONNECT |}
  | Returns found_logs =>
      let logs' := or_else found_logs (VArr []) in
      match member "provider_health" realtimeData with
      | Throws _ =>
          {| metrics := metrics'; logs := logs'; providerHealth := providerHealth s;
             loading := false; lastUpdated := lastUpdated s;
             error := Some UNABLE_TO_CONNECT |}
      | Returns found_health =>
          {| metrics := metrics'; logs := logs';
             providerHealth := or_else found_health (VObj []);
             loading := false; lastUpdated := Some now; error := None |}
      end
  end.

End Runtime.

End Dashboard.

(* ===================================================================== *)
(** * [components/MetricsCards.tsx]                                       *)
(* ===================================================================== *)

Module MetricsCards.
Import JS JSNumber JSObject.

Record Metrics : Type := {
  total : number;
  successful : number;
  failed : number;
  p50 : number;
  p95 : number;
  average : number;
  total_usd : number;
  average_per_request_usd : number;
  error_rate_percent : number
}.

Record CardProps : Type := {
  title : string;
  value : string;
  subtitle : string;
  color : string
}.

Inductive Cards : Type :=
| Skeletons (n : nat)
| Shown (cards : list CardProps).

Section Runtime.
Variable ToString_other : Q -> string.

Definition MetricsCards (metrics : option Metrics) (loading : bool) : completion Cards :=
  match metrics with
  | None => Returns (Skeletons 4)
  | Some m =>
      if loading then Returns (Skeletons 4)
      else
        let* requests := ApiFormat.formatNumber ToString_other (total m) in
        let* latency := ApiFormat.formatLatency ToString_other (average m) in
        let* latency95 := ApiFormat.formatLatency ToString_other (p95 m) in
        let* spent := Api.formatCost ToString_other (total_usd m) in
        let* spent_each := Api.formatCost ToString_other (average_per_request_usd m) in
        let* rate := toFixed ToString_other (error_rate_percent m) 1 in
        Returns (Shown
          [ {| title := "Total Requests"; value := requests;
               subtitle := Number_toString ToString_other (successful m) ++ " successful";
               color := "blue" |};
            {| title := "Avg Latency"; value := latency;
               subtitle := "P95: " ++ latency95; color := "amber" |};
            {| title := "Total Cost"; value := spent;
               subtitle := spent_each ++ "/request"; color := "green" |};
            {| title := "Error Rate"; value := rate ++ "%";
               subtitle := Number_toString ToString_other (failed m) ++ " failed";
               color := if lt (Fin 5) (error_rate_percent m) then "red" else "purple" |} ])
  end.

End Runtime.

End MetricsCards.

(* ===================================================================== *)
(** * Sample data                                                          *)
(* ===================================================================== *)

Module Samples.
Import JS TS Engine.

(** A response and a health snapshot as the backend sends them. *)
Definition sample_response : value :=
  VObj
    [ ("success", VBool true); ("result", VStr "ok"); ("error", VNull);
      ("request_id", VStr "req_abc123"); ("timestamp", VStr "2025-01-01T00:00:00Z");
      ("routing", VObj
         [ ("selected_model", VStr "gpt-4o-mini"); ("provider", VStr "openai");
           ("reason", VStr "Best cost-latency balance for summarization");
           ("alternatives_considered", VArr [VStr "claude-3-5-haiku"]);
           ("routing_time_ms", VNum (Fin 5));
           ("cost_score", VNum (Fin (9 # 10))); ("latency_score", VNum (Fin (85 # 100)));
           ("quality_score", VNum (Fin (8 # 10))); ("availability_score", VNum (Fin 1));
           ("final_score", VNum (Fin (87 # 100))) ]);
      ("usage", VObj
         [ ("input_tokens", VNum (Fin 150)); ("output_tokens", VNum (Fin 50));
           ("total_tokens", VNum (Fin 200));
           ("input_cost_usd", VNum (Fin (225 # 10000000)));
           ("output_cost_usd", VNum (Fin (3 # 100000)));
           ("total_cost_usd", VNum (Fin (525 # 10000000))) ]);
      ("performance", VObj
         [ ("total_time_ms", VNum (Fin 850)); ("routing_time_ms", VNum (Fin 5));
           ("inference_time_ms", VNum (Fin 820)); ("overhead_time_ms", VNum (Fin 25)) ]) ].

Definition sample_health : value :=
  VObj
    [ ("status", VStr "healthy"); ("version", VStr "1.0.0");
      ("timestamp", VStr "2025-01-01T00:00:00Z"); ("environment", VStr "production");
      ("providers", VObj
         [ ("openai", VObj [ ("status", VStr "healthy");
                             ("recent_requests", VNum (Fin 12));
                             ("error_rate", VNum (Fin 0)) ]) ]);
      ("uptime_seconds", VNum (Fin 3600)); ("requests_processed", VNum (Fin 12));
      ("error_rate_percent", VNum (Fin 0));
      ("available_providers", VArr [VStr "openai"]) ].

(** A configuration of the routing core: the weight table (the tuple of
    [cheap] is the one the specification quotes), two candidates, a
    request, and three providers: one that answers, one that times out, one
    that rejects the credentials. *)
Definition weights (p : PreferenceProfile) : Weights :=
  match p with
  | fast => {| w_cost := 2 # 10; w_latency := 6 # 10; w_quality := 1 # 10; w_availability := 1 # 10 |}
  | cheap => {| w_cost := 6 # 10; w_latency := 2 # 10; w_quality := 1 # 10; w_availability := 1 # 10 |}
  | best => {| w_cost := 1 # 10; w_latency := 1 # 10; w_quality := 6 # 10; w_availability := 2 # 10 |}
  | balanced => {| w_cost := 1 # 4; w_latency := 1 # 4; w_quality := 1 # 4; w_availability := 1 # 4 |}
  end.

Definition mini : ModelCandidate :=
  {| id := "gpt-4o-mini"; provider := "openai"; tasks := ["summarize"; "chat"];
     max_input_tokens := 128000; max_output_tokens := 16384;
     pricing := {| price_in := 15 # 100000; price_out := 6 # 10000 |};
     baseline_latency := 800; baseline_quality := 8 # 10 |}.

Definition haiku : ModelCandidate :=
  {| id := "claude-3-5-haiku"; provider := "anthropic"; tasks := ["summarize"; "code"];
     max_input_tokens := 200000; max_output_tokens := 8192;
     pricing := {| price_in := 8 # 10000; price_out := 4 # 1000 |};
     baseline_latency := 600; baseline_quality := 85 # 100 |}.

Definition registry : list ModelCandidate := [mini; haiku].

Definition request : Request :=
  {| request_id := "req_abc123";
     constraints := {| max_cost := None; max_latency := None; task := "summarize" |};
     preference := cheap;
     text := "Your long text to summarize here..." |}.

Definition input_size (s : string) : N := N.of_nat (String.length s).

Definition costEstimates (r : Request) (c : ModelCandidate) : Q :=
  cost_amount (Z.of_N (input_size (text r))) 100 (pricing c).

Definition explain (p : PreferenceProfile) (c : ModelCandidate) : string :=
  "Best weighted score: " ++ id c.

Definition answering (model payload : string) (timeout : Q) : InvokeResult :=
  Invoked {| generated := "A summary."; inputTokens := 9; outputTokens := 3; latencyMs := 420 |}.

Definition timing_out (model payload : string) (timeout : Q) : InvokeResult :=
  InvokeFailed {| kind := Timeout; message := "timed out" |}.


Definition route_with (invoke : string -> string -> Q -> InvokeResult)
    : result RoutingError RoutingDecision :=
  fst (fst (route 100 60 (1 # 10) (4 # 10) 3 30 weights 0 0 explain registry input_size
                  costEstimates 3 2 0 invoke request ∅)).

End Samples.

(* ===================================================================== *)
(** * Properties of the JavaScript fragment                               *)
(* ===================================================================== *)

Module JSFacts.
Import JS.

Lemma Qltb_true (x y : Q) : Qltb x y = true <-> (x < y)%Q.
Proof.
  unfold Qltb. rewrite Qlt_alt. destruct (x ?= y)%Q; split; congruence.
Qed.

Lemma Qltb_false (x y : Q) : Qltb x y = false <-> (y <= x)%Q.
Proof.
  unfold Qltb. rewrite Qle_alt.
  rewrite <- (Qcompare_antisym x y).
  destruct (x ?= y)%Q; simpl; split; congruence.
Qed.

Lemma Qle_bool_false (x y : Q) : Qle_bool x y = false <-> (y < x)%Q.
Proof.
  split; intros H.
  - apply Qnot_le_lt. intros L. apply Qle_bool_iff in L. congruence.
  - destruct (Qle_bool x y) eqn:E; [|reflexivity].
    apply Qle_bool_iff in E. exfalso. exact (Qlt_not_le _ _ H E).
Qed.

Lemma length_append (a b : string) :
  String.length (a ++ b) = (String.length a + String.length b)%nat.
Proof. induction a as [|c a IH]; simpl; [reflexivity | now rewrite IH]. Qed.

Lemma all_digits_append (a b : string) :
  all_digits (a ++ b) = all_digits a && all_digits b.
Proof.
  induction a as [|c a IH]; simpl; [reflexivity|].
  rewrite IH. now rewrite andb_assoc.
Qed.

Lemma all_digits_zeros (n : nat) : all_digits (zeros n) = true.
Proof. induction n; simpl; auto. Qed.

Lemma length_zeros (n : nat) : String.length (zeros n) = n.
Proof. induction n; simpl; auto. Qed.

Lemma all_digits_take (n : nat) (s : string) :
  all_digits s = true -> all_digits (take n s) = true.
Proof.
  revert s. induction n as [|n IH]; intros [|c s]; simpl; auto.
  intros H. apply andb_prop in H as [Hc Hs]. rewrite Hc. simpl. auto.
Qed.

Lemma all_digits_drop (n : nat) (s : string) :
  all_digits s = true -> all_digits (drop n s) = true.
Proof.
  revert s. induction n as [|n IH]; intros [|c s]; simpl; auto.
  intros H. apply andb_prop in H as [_ Hs]. auto.
Qed.

Lemma length_drop (n : nat) (s : string) :
  String.length (drop n s) = (String.length s - n)%nat.
Proof.
  revert s. induction n as [|n IH]; intros [|c s]; simpl; auto.
Qed.

Lemma length_take (n : nat) (s : string) :
  (n <= String.length s)%nat -> String.length (take n s) = n.
Proof.
  revert s. induction n as [|n IH]; intros [|c s]; simpl; auto; intros H.
  - lia.
  - rewrite IH; [reflexivity | lia].
Qed.

Lemma all_digits_uint (u : Decimal.uint) :
  all_digits (NilEmpty.string_of_uint u) = true.
Proof. induction u; simpl; auto. Qed.

Lemma decimal_digits (n : Z) : all_digits (decimal n) = true.
Proof.
  unfold decimal, NilZero.string_of_uint.
  destruct (N.to_uint (Z.to_N n)) eqn:E; try reflexivity;
    rewrite <- E; apply all_digits_uint.
Qed.

Lemma decimal_length (n : Z) : (1 <= String.length (decimal n))%nat.
Proof.
  unfold decimal, NilZero.string_of_uint.
  destruct (N.to_uint (Z.to_N n)); simpl; lia.
Qed.

(** The digits of [toFixed] with at least one fraction digit: an integer
    part of at least one digit and exactly [f] fraction digits. *)
Lemma fixed_point_split (m : string) (f : nat) :
  all_digits m = true -> (1 <= String.length m)%nat ->
  let m' := if (String.length m <=? f)%nat
            then zeros (f + 1 - String.length m) ++ m else m in
  let k := String.length m' in
  all_digits (take (k - f) m') = true /\
  (1 <= String.length (take (k - f) m'))%nat /\
  all_digits (drop (k - f) m') = true /\
  String.length (drop (k - f) m') = f.
Proof.
  intros Hd Hl m' k.
  assert (Hm' : all_digits m' = true).
  { subst m'. destruct (String.length m <=? f)%nat; auto.
    rewrite all_digits_append, all_digits_zeros, Hd. reflexivity. }
  assert (Hk : (f + 1 <= k)%nat).
  { subst k m'. destruct (Nat.leb_spec (String.length m) f).
    - rewrite length_append, length_zeros. lia.
    - lia. }
  repeat split.
  - now apply all_digits_take.
  - rewrite length_take; fold k; lia.
  - now apply all_digits_drop.
  - rewrite length_drop. fold k. lia.
Qed.

(** [nearest_scaled] is the nearest integer, the larger one at a tie. *)
Lemma nearest_scaled_spec (x : Q) (f : nat) :
  let y := (x * inject_Z (10 ^ Z.of_nat f))%Q in
  (inject_Z (nearest_scaled x f) - (1 # 2) <= y /\
   y < inject_Z (nearest_scaled x f) + (1 # 2))%Q.
Proof.
  intros y. unfold nearest_scaled. fold y.
  pose proof (Qfloor_le (y + (1 # 2))%Q) as Hlo.
  pose proof (Qlt_floor (y + (1 # 2))%Q) as Hhi.
  rewrite inject_Z_plus in Hhi.
  set (n := inject_Z (Qfloor (y + (1 # 2))%Q)) in *.
  change (inject_Z 1) with 1%Q in Hhi.
  split; lra.
Qed.

Lemma toLowerCase_idempotent (s : string) :
  toLowerCase (toLowerCase s) = toLowerCase s.
Proof.
  induction s as [|c s IH]; simpl; [reflexivity|].
  rewrite IH. f_equal.
  destruct c as [[] [] [] [] [] [] [] []]; reflexivity.
Qed.

End JSFacts.

(* ===================================================================== *)
(** * Properties of [lib/api.ts]: the utilities                           *)
(* ===================================================================== *)

Module ApiFacts.
Import JS JSFacts Api.

Lemma digit_not_dot (c : ascii) : is_digit c = true -> Ascii.eqb c "." = false.
Proof.
  intros H. destruct (Ascii.eqb_spec c "."); [subst; discriminate | reflexivity].
Qed.

Lemma split_dot_digits (a b : string) :
  all_digits a = true -> split_dot (a ++ String "." b) = Some (a, b).
Proof.
  induction a as [|c a IH]; simpl; intros H; [reflexivity|].
  apply andb_prop in H as [Hc Ha].
  rewrite (digit_not_dot c Hc), (IH Ha). reflexivity.
Qed.

Lemma is_dollar_fixed_intro (d : nat) (a b : string) :
  all_digits a = true -> (1 <= String.length a)%nat ->
  all_digits b = true -> String.length b = d ->
  is_dollar_fixed d ("$" ++ a ++ "." ++ b) = true.
Proof.
  intros Ha La Hb Lb.
  change ("$" ++ a ++ "." ++ b) with (String "$" (a ++ String "." b)).
  unfold is_dollar_fixed.
  rewrite (split_dot_digits a b Ha), Ha, Hb, Lb, Nat.eqb_refl.
  destruct (String.length a); [lia | reflexivity].
Qed.

(** [toFixed] on a non-negative finite number below [10^21], with one to a
    hundred fraction digits. *)
Lemma toFixed_shape (big : Q -> string) (q : Q) (f : nat) :
  (0 <= q)%Q -> (q < ten_pow_21)%Q -> (1 <= f <= 100)%nat ->
  exists a b,
    toFixed big (Fin q) (Z.of_nat f) = Returns (a ++ "." ++ b) /\
    all_digits a = true /\ (1 <= String.length a)%nat /\
    all_digits b = true /\ String.length b = f.
Proof.
  intros H0 H21 Hf. unfold toFixed.
  replace ((Z.of_nat f <? 0)%Z || (100 <? Z.of_nat f)%Z) with false
    by (symmetry; apply orb_false_intro; [apply Z.ltb_ge | apply Z.ltb_ge]; lia).
  replace (Qltb q 0) with false by (symmetry; now apply Qltb_false).
  replace (Qle_bool ten_pow_21 q) with false by (symmetry; now apply Qle_bool_false).
  rewrite Nat2Z.id.
  destruct f as [|f]; [lia|].
  pose proof (fixed_point_split (decimal (nearest_scaled q (S f))) (S f)
                (decimal_digits _) (decimal_length _)) as (A & B & C & D).
  eexists _, _. split; [reflexivity|]. auto.
Qed.

Lemma toFixed_large (big : Q -> string) (q : Q) (fd : Z) :
  (0 <= fd <= 100)%Z -> (ten_pow_21 <= q)%Q ->
  toFixed big (Fin q) fd = Returns (big q).
Proof.
  intros Hf H. unfold toFixed.
  replace ((fd <? 0)%Z || (100 <? fd)%Z) with false
    by (symmetry; apply orb_false_intro; apply Z.ltb_ge; lia).
  assert (0 < ten_pow_21)%Q by reflexivity.
  replace (Qltb q 0) with false by (symmetry; apply Qltb_false; lra).
  replace (Qle_bool ten_pow_21 q) with true by (symmetry; now apply Qle_bool_iff).
  reflexivity.
Qed.

Lemma lit_0_0001_pos : (0 < 7378697629483821 # 73786976294838206464)%Q.
Proof. reflexivity. Qed.

Lemma lit_0_01_small : (5764607523034235 # 576460752303423488 < ten_pow_21)%Q.
Proof. reflexivity. Qed.

Lemma lit_order :
  (7378697629483821 # 73786976294838206464 < 5764607523034235 # 576460752303423488)%Q.
Proof. reflexivity. Qed.

(** C8 (as amended).  [formatCost] never throws; below [0.0001], so for
    zero and every negative amount, it answers ["<$0.0001"]; from [0.0001]
    up to [0.01] it answers a dollar amount with exactly four fraction
    digits; from [0.01] on, and below [10^21], a dollar amount with exactly
    two fraction digits. *)
Theorem formatCost_rendering (ToString_large : Q -> string) (c : number) :
  (lt c lit_0_0001 = true -> formatCost ToString_large c = Returns "<$0.0001") /\
  (ge (Fin 0) c = true -> formatCost ToString_large c = Returns "<$0.0001") /\
  (ge c lit_0_0001 = true -> lt c lit_0_01 = true ->
     exists s, formatCost ToString_large c = Returns s /\ is_dollar_fixed 4 s = true) /\
  (ge c lit_0_01 = true -> lt c (Fin ten_pow_21) = true ->
     exists s, formatCost ToString_large c = Returns s /\ is_dollar_fixed 2 s = true) /\
  (exists s, formatCost ToString_large c = Returns s).
Proof.
  pose proof lit_0_0001_pos as P1. pose proof lit_0_01_small as P2.
  pose proof lit_order as P3.
  destruct c as [| | |q].
  - split; [discriminate|]. split; [discriminate|]. split; [discriminate|].
    split; [discriminate|]. exists "$NaN". reflexivity.
  - split; [discriminate|]. split; [discriminate|]. split; [discriminate|].
    split; [discriminate|]. exists "$Infinity". reflexivity.
  - split; [reflexivity|]. split; [reflexivity|]. split; [discriminate|].
    split; [discriminate|]. exists "<$0.0001". reflexivity.
  - unfold formatCost, lit_0_0001, lit_0_01; cbn [lt ge].
  destruct (Qltb q _) eqn:E1.
  { split; [reflexivity|]. split; [reflexivity|].
    apply Qltb_true in E1.
    split; [intros G; apply Qle_bool_iff in G; lra|].
    split; [intros G; apply Qle_bool_iff in G; lra|].
    eauto. }
  apply Qltb_false in E1.
  assert (Hq : (0 <= q)%Q) by lra.
  destruct (Qltb q _) eqn:E2.
  + apply Qltb_true in E2.
    destruct (toFixed_shape ToString_large q 4 Hq) as (a & b & R & Ha & La & Hb & Lb);
      [lra | lia |].
    change (Z.of_nat 4) with 4%Z in R. rewrite R. cbn [bind].
    pose proof (is_dollar_fixed_intro 4 a b Ha La Hb Lb) as D.
    split; [discriminate|]. split; [intros G; apply Qle_bool_iff in G; lra|].
    split; [eauto|]. split; [|eauto].
    intros G. apply Qle_bool_iff in G. lra.
  + apply Qltb_false in E2.
    split; [discriminate|]. split; [intros G; apply Qle_bool_iff in G; lra|].
    split; [discriminate|].
    destruct (Qle_bool ten_pow_21 q) eqn:E3.
    * apply Qle_bool_iff in E3. split.
      { intros _ L. apply Qltb_true in L. lra. }
      rewrite (toFixed_large ToString_large q 2) by (try lia; assumption).
      cbn [bind]. eauto.
    * apply Qle_bool_false in E3.
      destruct (toFixed_shape ToString_large q 2 Hq) as (a & b & R & Ha & La & Hb & Lb);
        [lra | lia |].
      change (Z.of_nat 2) with 2%Z in R. rewrite R. cbn [bind].
      pose proof (is_dollar_fixed_intro 2 a b Ha La Hb Lb) as D.
      split; eauto.
Qed.

Lemma formatCost_rendering_witness :
  exists s, formatCost (fun _ => "") (Fin (5 # 1000)) = Returns s /\
            is_dollar_fixed 4 s = true.
Proof.
  apply (proj1 (proj2 (proj2 (formatCost_rendering (fun _ => "") (Fin (5 # 1000))))));
    reflexivity.
Defined.

(** C8, the part that fails: [Infinity] is at least [0.01], and the answer
    for it has no fraction digits. *)
Lemma formatCost_infinity_counterexample :
  ge PosInf lit_0_01 = true /\
  ~ (exists s, formatCost (fun _ => "") PosInf = Returns s /\
               is_dollar_fixed 2 s = true).
Proof.
  split; [reflexivity|].
  intros (s & R & D). vm_compute in R. injection R as <-. discriminate D.
Qed.

(** Whatever the engine prints for large numbers, the answer for
    [Infinity] is ["$Infinity"], and from [10^21] on the answer is the
    engine's own rendering behind a dollar sign. *)
Lemma formatCost_infinity (big : Q -> string) :
  formatCost big PosInf = Returns "$Infinity".
Proof. reflexivity. Qed.

Lemma formatCost_large (big : Q -> string) (q : Q) :
  (ten_pow_21 <= q)%Q -> formatCost big (Fin q) = Returns ("$" ++ big q).
Proof.
  intros H. pose proof lit_0_01_small. pose proof lit_order.
  unfold formatCost, lit_0_0001, lit_0_01. cbn [lt].
  replace (Qltb q _) with false by (symmetry; apply Qltb_false; lra).
  replace (Qltb q _) with false by (symmetry; apply Qltb_false; lra).
  rewrite toFixed_large by (try lia; assumption). reflexivity.
Qed.

(** ** [getProviderColor] *)

Lemma provider_colors_unknown (key : string) :
  ~ In key KNOWN_PROVIDERS -> provider_colors !! key = None.
Proof.
  intros H. unfold provider_colors. apply not_elem_of_list_to_map_1.
  intros E. apply H. apply list_elem_of_In in E. exact E.
Qed.

(** Case does not matter. *)
Lemma getProviderColor_case (p : string) :
  getProviderColor p = getProviderColor (toLowerCase p).
Proof. unfold getProviderColor. now rewrite toLowerCase_idempotent. Qed.

(** The default colour is the colour of the [mock] provider. *)
Lemma getProviderColor_mock :
  getProviderColor "mock" = VStr DEFAULT_PROVIDER_COLOR.
Proof. vm_compute. reflexivity. Qed.

(** A name that is neither a known provider nor a member of
    [Object.prototype] gets the default colour. *)
Lemma getProviderColor_unknown (p : string) :
  ~ In (toLowerCase p) KNOWN_PROVIDERS ->
  assoc (toLowerCase p) Object_prototype = None ->
  getProviderColor p = VStr DEFAULT_PROVIDER_COLOR.
Proof.
  intros H1 H2. unfold getProviderColor, get_property.
  rewrite (provider_colors_unknown _ H1), H2. reflexivity.
Qed.

(** C9, the failing input.  The lower-case form of ["constructor"] is not
    one of the six provider names, yet the answer is not the default
    colour: the lookup finds the [constructor] member that every object
    literal inherits, and the answer is not even a string. *)
Theorem getProviderColor_constructor :
  ~ In (toLowerCase "constructor") KNOWN_PROVIDERS /\
  getProviderColor "constructor" = VBuiltin "Object" /\
  getProviderColor "constructor" <> VStr DEFAULT_PROVIDER_COLOR /\
  getProviderColor "Constructor" = getProviderColor "constructor".
Proof.
  split; [|split; [|split]].
  - vm_compute. intuition discriminate.
  - vm_compute. reflexivity.
  - vm_compute. discriminate.
  - vm_compute. reflexivity.
Qed.

(** ** [getModelColor] *)

Lemma array_get_Qeq (a : list value) (q1 q2 : Q) :
  (q1 == q2)%Q -> array_get a (Fin q1) = array_get a (Fin q2).
Proof.
  intros E. unfold array_get.
  rewrite (Qfloor_comp _ _ E).
  replace (Qeq_bool q1 (inject_Z (Qfloor q2))) with (Qeq_bool q2 (inject_Z (Qfloor q2)));
    [reflexivity|].
  destruct (Qeq_bool q2 _) eqn:E2; symmetry.
  - apply Qeq_bool_iff. apply Qeq_bool_iff in E2. now rewrite E.
  - destruct (Qeq_bool q1 _) eqn:E1; [|reflexivity].
    apply Qeq_bool_iff in E1. rewrite E in E1. apply Qeq_bool_iff in E1. congruence.
Qed.

Lemma rem_nat_8 (i : nat) :
  exists q, rem (of_nat i) (of_nat 8) = Fin q /\
            (q == inject_Z (Z.of_nat (i mod 8)))%Q.
Proof.
  unfold rem, of_nat. cbn [Qeq_bool Z.eqb Qnum Qden Z.of_nat Pos.of_succ_nat
                           Pos.succ Z.mul Pos.mul Z.compare Pos.compare Pos.compare_cont inject_Z].
  eexists. split; [reflexivity|].
  set (n := Z.of_nat i).
  assert (Hn : (0 <= n)%Z) by (subst n; lia).
  assert (Ht : Qtrunc (inject_Z n / inject_Z 8) = (n / 8)%Z).
  { unfold Qtrunc.
    replace (Qltb (inject_Z n / inject_Z 8) 0) with false.
    - unfold Qfloor, Qdiv, Qmult, Qinv, inject_Z. cbn [Qnum Qden Pos.mul].
      now rewrite Z.mul_1_r.
    - symmetry. apply Qltb_false.
      unfold Qle, Qdiv, Qmult, Qinv, inject_Z. cbn [Qnum Qden Pos.mul]. lia. }
  change (inject_Z n - inject_Z 8 * inject_Z (Qtrunc (inject_Z n / inject_Z 8))
          == inject_Z (Z.of_nat (i mod 8)))%Q.
  rewrite Ht.
  rewrite Nat2Z.inj_mod. fold n. change (Z.of_nat 8) with 8%Z.
  rewrite (Z.mod_eq n 8) by lia.
  unfold Qeq, Qminus, Qplus, Qopp, Qmult, inject_Z. cbn [Qnum Qden Pos.mul]. lia.
Qed.

(** On a natural index the colour is the palette entry at the index
    modulo eight. *)
Lemma getModelColor_nat (m : string) (i : nat) :
  getModelColor m (of_nat i) = default VUndefined (model_colors !! (i mod 8)%nat).
Proof.
  unfold getModelColor. change (length model_colors) with 8%nat.
  destruct (rem_nat_8 i) as (q & -> & E).
  rewrite (array_get_Qeq _ _ _ E). unfold array_get.
  rewrite Qfloor_Z, Nat2Z.id.
  replace (Qeq_bool _ _) with true by (symmetry; apply Qeq_bool_iff; reflexivity).
  replace (0 <=? Z.of_nat (i mod 8))%Z with true by (symmetry; apply Z.leb_le; lia).
  reflexivity.
Qed.

(** C10.  The colour does not depend on the model name, for any index
    whatsoever, and on natural indices it has period eight. *)
Theorem getModelColor_ignores_model_and_is_periodic :
  (forall (m1 m2 : string) (i : number), getModelColor m1 i = getModelColor m2 i) /\
  (forall (m : string) (i : nat),
      getModelColor m (of_nat (i + 8)) = getModelColor m (of_nat i)) /\
  (forall (m1 m2 : string) (i j n : nat),
      j = (i + 8 * n)%nat ->
      getModelColor m1 (of_nat j) = getModelColor m2 (of_nat i)).
Proof.
  split; [reflexivity|]. split.
  - intros m i. rewrite !getModelColor_nat.
    replace (i + 8)%nat with (i + 1 * 8)%nat by lia.
    now rewrite Nat.Div0.mod_add.
  - intros m1 m2 i j n ->. rewrite !getModelColor_nat.
    replace (i + 8 * n)%nat with (i + n * 8)%nat by lia.
    now rewrite Nat.Div0.mod_add.
Qed.

Lemma getModelColor_ignores_model_and_is_periodic_witness :
  getModelColor "gpt-4o" (of_nat 11) = getModelColor "claude" (of_nat 3).
Proof.
  apply (proj2 (proj2 getModelColor_ignores_model_and_is_periodic)
           "gpt-4o" "claude" 3%nat 11%nat 1%nat).
  reflexivity.
Defined.

End ApiFacts.

(* ===================================================================== *)
(** * Properties of the wire contracts                                    *)
(* ===================================================================== *)

Module ContractFacts.
Import JS TS Api Samples.

Lemma assoc_In {A} (k : string) (l : list (string * A)) (a : A) :
  assoc k l = Some a -> In (k, a) l.
Proof.
  induction l as [|[k' a'] l IH]; simpl; [discriminate|].
  destruct (String.eqb_spec k k') as [->|_].
  - intros [= ->]. now left.
  - intros H. right. auto.
Qed.

Lemma conforms_required (fs : fields) (ps : list (string * value)) (n : string) (t : ty) :
  conforms_fields fs ps = true -> required_member n fs = Some t ->
  exists v, assoc n ps = Some v /\ conforms t v = true.
Proof.
  induction fs as [|n' o t' r IH]; simpl; [discriminate|].
  intros H. apply andb_prop in H as [Hh Hr].
  destruct (String.eqb_spec n n') as [->|_]; [|auto].
  destruct o; [discriminate|]. intros [= ->].
  destruct (assoc n' ps) as [v|]; [|discriminate].
  exists v. split; [reflexivity|]. destruct v; auto.
Qed.

(** A chain of required members is present in every conforming value, and
    what it leads to conforms to the declared type. *)
Lemma conforms_type_at (path : list string) :
  forall (t t' : ty) (v : value),
    conforms t v = true -> type_at path t = Some t' ->
    exists w, get_path path v = Some w /\ conforms t' w = true.
Proof.
  induction path as [|n path IH]; simpl; intros t t' v Hc Ht.
  - injection Ht as <-. eauto.
  - destruct t; try discriminate.
    destruct (required_member n fs) as [t1|] eqn:E; [|discriminate].
    destruct v; simpl in Hc; try discriminate.
    destruct (conforms_required _ _ _ _ Hc E) as (w & Hw & Hcw).
    simpl. rewrite Hw. eauto.
Qed.

Lemma get_path_one (n : string) (v : value) : get_path [n] v = get n v.
Proof. simpl. now destruct (get n v). Qed.

Lemma string_at (path : list string) (t : ty) (v : value) :
  conforms t v = true -> type_at path t = Some TString ->
  is_string (get_path path v) = true.
Proof.
  intros Hc Ht. destruct (conforms_type_at path _ _ _ Hc Ht) as (w & -> & Hw).
  destruct w; simpl in *; congruence.
Qed.

Lemma number_at (path : list string) (t : ty) (v : value) :
  conforms t v = true -> type_at path t = Some TNumber ->
  is_number (get_path path v) = true.
Proof.
  intros Hc Ht. destruct (conforms_type_at path _ _ _ Hc Ht) as (w & -> & Hw).
  destruct w; simpl in *; congruence.
Qed.

Lemma string_array_at (path : list string) (t : ty) (v : value) :
  conforms t v = true -> type_at path t = Some (TArray TString) ->
  is_string_array (get_path path v) = true.
Proof.
  intros Hc Ht. destruct (conforms_type_at path _ _ _ Hc Ht) as (w & -> & Hw).
  destruct w; simpl in *; congruence.
Qed.

Lemma conforms_literals (first : string) (others : list string) (v : value) :
  conforms (literals first others) v = true <->
  exists s, v = VStr s /\ In s (first :: others).
Proof.
  revert first. induction others as [|o others IH]; intros first; simpl.
  - split.
    + destruct v; try discriminate. intros H. apply String.eqb_eq in H. subst. eauto.
    + intros (s & -> & [->|[]]). apply String.eqb_refl.
  - split.
    + intros H. apply orb_prop in H as [H|H].
      * destruct v; try discriminate. apply String.eqb_eq in H. subst. eauto.
      * apply IH in H as (s & -> & Hs). eauto.
    + intros (s & -> & [->|Hs]).
      * now rewrite String.eqb_refl.
      * apply orb_true_intro. right. apply IH. eauto.
Qed.

Lemma conforms_record_entry (e : ty) (ps : list (string * value)) (p : string) (r : value) :
  conforms (TRecord e) (VObj ps) = true -> assoc p ps = Some r -> conforms e r = true.
Proof.
  simpl. intros H Hp. apply assoc_In in Hp.
  rewrite forallb_forall in H. exact (H _ Hp).
Qed.

Lemma conforms_optional (fs : fields) (ps : list (string * value)) (n : string) (t : ty) :
  conforms_fields fs ps = true -> In (n, true, t) (members fs) ->
  absent_or t (assoc n ps) = true.
Proof.
  induction fs as [|n' o t' r IH]; simpl; [tauto|].
  intros H. apply andb_prop in H as [Hh Hr].
  intros [[= -> -> ->]|Hin]; [|auto].
  unfold absent_or. destruct (assoc n ps) as [v|]; [|reflexivity].
  destruct v; auto.
Qed.

(** ** The request contract *)




(** ** The response contract *)

(** C2.  Every value of type [GenerateResponse] carries the selected model
    and provider, the rationale, the four component scores and the final
    score, the alternatives considered, the token counts, the three costs
    and the four times. *)
Theorem GenerateResponse_carries_contract (v : value) :
  conforms GenerateResponse v = true ->
  is_string (get_path ["routing"; "selected_model"] v) = true /\
  is_string (get_path ["routing"; "provider"] v) = true /\
  is_string (get_path ["routing"; "reason"] v) = true /\
  is_number (get_path ["routing"; "cost_score"] v) = true /\
  is_number (get_path ["routing"; "latency_score"] v) = true /\
  is_number (get_path ["routing"; "quality_score"] v) = true /\
  is_number (get_path ["routing"; "availability_score"] v) = true /\
  is_number (get_path ["routing"; "final_score"] v) = true /\
  is_string_array (get_path ["routing"; "alternatives_considered"] v) = true /\
  is_number (get_path ["usage"; "input_tokens"] v) = true /\
  is_number (get_path ["usage"; "output_tokens"] v) = true /\
  is_number (get_path ["usage"; "input_cost_usd"] v) = true /\
  is_number (get_path ["usage"; "output_cost_usd"] v) = true /\
  is_number (get_path ["usage"; "total_cost_usd"] v) = true /\
  is_number (get_path ["performance"; "total_time_ms"] v) = true /\
  is_number (get_path ["performance"; "routing_time_ms"] v) = true /\
  is_number (get_path ["performance"; "inference_time_ms"] v) = true /\
  is_number (get_path ["performance"; "overhead_time_ms"] v) = true.
Proof.
  intros H.
  repeat match goal with
         | |- _ /\ _ => split
         | |- is_string _ = true => apply (string_at _ _ _ H); reflexivity
         | |- is_number _ = true => apply (number_at _ _ _ H); reflexivity
         | |- is_string_array _ = true => apply (string_array_at _ _ _ H); reflexivity
         end.
Qed.

Lemma GenerateResponse_carries_contract_witness :
  is_string (get_path ["routing"; "selected_model"] sample_response) = true.
Proof.
  apply (GenerateResponse_carries_contract sample_response). reflexivity.
Defined.

(** ** The health snapshot *)

(** C3, the part that fails.  A health response of the declared type whose
    provider record has no average latency, which the type of the provider
    records does not declare; the same record is also a [ProviderHealth],
    where the member is optional. *)
Lemma health_snapshot_without_latency :
  conforms HealthResponse sample_health = true /\
  get_path ["providers"; "openai"; "avg_latency_ms"] sample_health = None /\
  ~ In "avg_latency_ms" (member_names HealthResponse_provider) /\
  (exists r, get_path ["providers"; "openai"] sample_health = Some r /\
             conforms ProviderStatus.ProviderHealth r = true) /\
  In ("avg_latency_ms", true) (declared ProviderStatus.ProviderHealth).
Proof.
  split; [reflexivity|]. split; [reflexivity|]. split.
  - vm_compute. intuition discriminate.
  - split.
    + eexists. split; reflexivity.
    + vm_compute. tauto.
Qed.

(** C3 (as amended).  Every provider record of a [HealthResponse], and
    every [ProviderHealth], carries the status, the recent request count
    and the error rate; in a [ProviderHealth] the average latency is a
    number when it is there. *)
Theorem health_snapshot_members :
  (forall (v providers r : value) (p : string),
      conforms HealthResponse v = true ->
      get "providers" v = Some providers -> get p providers = Some r ->
      is_string (get "status" r) = true /\
      is_number (get "recent_requests" r) = true /\
      is_number (get "error_rate" r) = true) /\
  (forall r : value,
      conforms ProviderStatus.ProviderHealth r = true ->
      is_string (get "status" r) = true /\
      is_number (get "recent_requests" r) = true /\
      is_number (get "error_rate" r) = true /\
      absent_or TNumber (get "avg_latency_ms" r) = true).
Proof.
  split.
  - intros v providers r p Hv Hp Hr.
    destruct (conforms_type_at ["providers"] _ _ _ Hv eq_refl) as (w & Hw & Hcw).
    simpl in Hw. rewrite Hp in Hw. injection Hw as <-.
    destruct providers; try discriminate. simpl in Hr.
    pose proof (conforms_record_entry _ _ _ _ Hcw Hr) as Hc.
    split; [|split].
    + rewrite <- get_path_one. apply (string_at ["status"] _ _ Hc eq_refl).
    + rewrite <- get_path_one. apply (number_at ["recent_requests"] _ _ Hc eq_refl).
    + rewrite <- get_path_one. apply (number_at ["error_rate"] _ _ Hc eq_refl).
  - intros r Hc. split; [|split; [|split]].
    + rewrite <- get_path_one. apply (string_at ["status"] _ _ Hc eq_refl).
    + rewrite <- get_path_one. apply (number_at ["recent_requests"] _ _ Hc eq_refl).
    + rewrite <- get_path_one. apply (number_at ["error_rate"] _ _ Hc eq_refl).
    + destruct r; try discriminate. cbn [get].
      apply (conforms_optional
               (FCons "status" false TString
               (FCons "recent_requests" false TNumber
               (FCons "error_rate" false TNumber
               (FCons "avg_latency_ms" true TNumber FNil)))) props "avg_latency_ms" TNumber Hc).
      simpl. tauto.
Qed.

Lemma health_snapshot_members_witness :
  is_string (get "status"
    (VObj [ ("status", VStr "healthy"); ("recent_requests", VNum (Fin 12));
            ("error_rate", VNum (Fin 0)) ])) = true.
Proof.
  apply (proj1 health_snapshot_members sample_health
           (VObj [ ("openai", VObj [ ("status", VStr "healthy");
                                     ("recent_requests", VNum (Fin 12));
                                     ("error_rate", VNum (Fin 0)) ]) ])
           (VObj [ ("status", VStr "healthy"); ("recent_requests", VNum (Fin 12));
                   ("error_rate", VNum (Fin 0)) ])
           "openai"); reflexivity.
Defined.

End ContractFacts.

(* ===================================================================== *)
(** * Properties of [TryItDemo]                                           *)
(* ===================================================================== *)

Module TryItDemoFacts.
Import JS TS Api TryItDemo ContractFacts.

Lemma GenerateRequest_preference (v : JS.value) :
  conforms GenerateRequest v = true ->
  exists p, get "model_preference" v = Some (VStr p) /\ In p PREFERENCE_PROFILES.
Proof.
  intros H.
  destruct (conforms_type_at ["model_preference"] _ _ _ H eq_refl) as (w & Hw & Hc).
  rewrite get_path_one in Hw.
  apply conforms_literals in Hc as (p & -> & Hp). eauto.
Qed.

Lemma GenerateRequest_built (t p m : string) :
  In t TASK_KINDS -> In p PREFERENCE_PROFILES ->
  conforms GenerateRequest
    (VObj [("task", VStr t); ("model_preference", VStr p); ("text", VStr m)]) = true.
Proof.
  intros Ht Hp.
  assert (T : conforms (literals "summarize" ["sentiment"; "rewrite"; "chat"; "code"; "analysis"])
                (VStr t) = true) by (apply conforms_literals; eauto).
  assert (P : conforms (literals "fast" ["cheap"; "best"; "balanced"]) (VStr p) = true)
    by (apply conforms_literals; eauto).
  change (conforms GenerateRequest _) with
    (conforms (literals "summarize" ["sentiment"; "rewrite"; "chat"; "code"; "analysis"]) (VStr t)
     && (conforms (literals "fast" ["cheap"; "best"; "balanced"]) (VStr p)
     && (true && (true && (true && true))))).
  now rewrite T, P.
Qed.

Lemma task_button (i : nat) (c : Choice) :
  TASKS !! i = Some c -> In (value c) TASK_KINDS.
Proof.
  do 6 (destruct i as [|i]; [intros [= <-]; simpl; tauto|]). discriminate.
Qed.

Lemma preference_button (i : nat) (c : Choice) :
  PREFERENCES !! i = Some c -> In (value c) PREFERENCE_PROFILES.
Proof.
  do 4 (destruct i as [|i]; [intros [= <-]; simpl; tauto|]). discriminate.
Qed.

Lemma step_keeps_choices (st : State) (e : Event) :
  In (task st) TASK_KINDS /\ In (preference st) PREFERENCE_PROFILES ->
  In (task (step st e)) TASK_KINDS /\
  In (preference (step st e)) PREFERENCE_PROFILES.
Proof.
  intros [Ht Hp]. destruct e as [i|i|s]; simpl.
  - destruct (TASKS !! i) eqn:E; simpl; [|auto].
    split; [exact (task_button _ _ E) | exact Hp].
  - destruct (PREFERENCES !! i) eqn:E; simpl; [|auto].
    split; [exact Ht | exact (preference_button _ _ E)].
  - auto.
Qed.

Lemma fold_keeps_choices (es : list Event) (st : State) :
  In (task st) TASK_KINDS /\ In (preference st) PREFERENCE_PROFILES ->
  In (task (fold_left step es st)) TASK_KINDS /\
  In (preference (fold_left step es st)) PREFERENCE_PROFILES.
Proof.
  revert st. induction es as [|e es IH]; intros st H; simpl; [exact H|].
  apply IH. now apply step_keeps_choices.
Qed.

Lemma run_keeps_choices (es : list Event) :
  In (task (run es)) TASK_KINDS /\
  In (preference (run es)) PREFERENCE_PROFILES.
Proof. apply fold_keeps_choices. simpl. tauto. Qed.

Lemma every_profile_has_a_button (st : State) (p : string) :
  In p PREFERENCE_PROFILES ->
  exists i, preference (step st (ClickPreference i)) = p.
Proof.
  intros [<-|[<-|[<-|[<-|[]]]]];
    [exists 0%nat | exists 1%nat | exists 2%nat | exists 3%nat]; reflexivity.
Qed.

(** C7.  The preference profiles of the public interface are exactly fast,
    cheap, best and balanced: a request of the declared type carries one of
    the four and each of the four makes a request of the declared type; the
    selector offers these four and nothing else; whatever the user does,
    the request handed to [generate] carries one of the four, and each of
    the four can be selected. *)
Theorem preference_profiles_exact :
  PREFERENCE_PROFILES = ["fast"; "cheap"; "best"; "balanced"] /\
  (forall v : JS.value,
      conforms GenerateRequest v = true ->
      exists p, get "model_preference" v = Some (VStr p) /\ In p PREFERENCE_PROFILES) /\
  (forall t p m : string,
      In t TASK_KINDS -> In p PREFERENCE_PROFILES ->
      conforms GenerateRequest
        (VObj [("task", VStr t); ("model_preference", VStr p); ("text", VStr m)]) = true) /\
  map value PREFERENCES = PREFERENCE_PROFILES /\
  (forall (es : list Event) (r : JS.value),
      handleSubmit (run es) = Some r ->
      conforms GenerateRequest r = true /\
      exists p, get "model_preference" r = Some (VStr p) /\ In p PREFERENCE_PROFILES) /\
  (forall (st : State) (p : string),
      In p PREFERENCE_PROFILES ->
      exists i, preference (step st (ClickPreference i)) = p).
Proof.
  split; [reflexivity|].
  split; [exact GenerateRequest_preference|].
  split; [exact GenerateRequest_built|].
  split; [reflexivity|].
  split; [|exact every_profile_has_a_button].
  intros es r. unfold handleSubmit.
  destruct (String.eqb _ ""); [discriminate|]. intros [= <-].
  destruct (run_keeps_choices es) as [Ht Hp].
  split; [now apply GenerateRequest_built|].
  exists (preference (run es)). split; [reflexivity | exact Hp].
Qed.

Lemma preference_profiles_exact_witness :
  exists p, get "model_preference"
              (VObj [("task", VStr "code"); ("model_preference", VStr "fast");
                     ("text", VStr "x")]) = Some (VStr p) /\
            In p PREFERENCE_PROFILES.
Proof.
  apply (proj1 (proj2 preference_profiles_exact)). reflexivity.
Defined.

End TryItDemoFacts.

(* ===================================================================== *)
(** * Properties of the routing core                                      *)
(* ===================================================================== *)

Module EngineFacts.
Import Engine JSFacts.

(** ** Cost Calculator *)

(** C5.  On non-negative token counts the cost is the priced sum of the
    two counts per thousand; the calculator fails exactly on a negative
    count, and then with [InvalidTokenCount]. *)
Theorem cost_calculator :
  (forall (i o : Z) (p : Pricing),
      (0 <= i)%Z -> (0 <= o)%Z ->
      cost i o p = Ok (inject_Z i / 1000 * price_in p + inject_Z o / 1000 * price_out p)%Q) /\
  (forall (i o : Z) (p : Pricing) (e : RoutingError),
      cost i o p = Err e <-> e = InvalidTokenCount /\ ((i < 0)%Z \/ (o < 0)%Z)) /\
  (forall (i o : Z) (p : Pricing),
      (exists c, cost i o p = Ok c) <-> (0 <= i)%Z /\ (0 <= o)%Z).
Proof.
  split; [|split].
  - intros i o p Hi Ho. unfold cost.
    destruct (Z.ltb_spec i 0); [lia|]. destruct (Z.ltb_spec o 0); [lia|]. reflexivity.
  - intros i o p e. unfold cost.
    destruct (Z.ltb_spec i 0); destruct (Z.ltb_spec o 0); simpl; split;
      try (intros [= <-]; split; [reflexivity | lia]);
      try (intros [-> _]; reflexivity);
      try discriminate.
    intros [_ []]; lia.
  - intros i o p. unfold cost.
    destruct (Z.ltb_spec i 0); destruct (Z.ltb_spec o 0); simpl; split;
      try (intros [c [=]]; fail); try (intros [? ?]; lia); eauto.
Qed.

Lemma cost_calculator_witness :
  cost 150 50 {| price_in := 15 # 100000; price_out := 6 # 10000 |}
  = Ok (inject_Z 150 / 1000 * (15 # 100000) + inject_Z 50 / 1000 * (6 # 10000))%Q.
Proof.
  apply (proj1 cost_calculator); lia.
Defined.

(** ** Ranges *)









(** ** Ranking *)

Section Ranking.
Variable eps : Q.




End Ranking.

Section ScorerFacts.
Variable weights : PreferenceProfile -> Weights.
Variable tie_normalized : Q.
Variable eps : Q.
Variable explain : PreferenceProfile -> ModelCandidate -> string.




End ScorerFacts.


(** ** Router *)


Section RouterFacts.
Variables (W : nat) (T : Q) (e1 e2 : Q) (k : nat) (cool_down : Q).
Variable weights : PreferenceProfile -> Weights.
Variable tie_normalized : Q.
Variable eps : Q.
Variable explain : PreferenceProfile -> ModelCandidate -> string.
Variable registry : list ModelCandidate.
Variable input_size : string -> N.
Variable costEstimates : Request -> ModelCandidate -> Q.
Variable max_attempts : nat.
Variable safety_multiplier : Q.
Variable now : Q.
Variable invoke : string -> string -> Q -> InvokeResult.

Local Abbreviation try_in_order' :=
  (try_in_order W T e1 e2 k cool_down safety_multiplier now invoke).
Local Abbreviation route' :=
  (route W T e1 e2 k cool_down weights tie_normalized eps explain registry input_size
         costEstimates max_attempts safety_multiplier now invoke).
Local Abbreviation score' := (score weights tie_normalized eps explain).
Local Abbreviation snapshot' := (snapshot W T e1 e2 k cool_down now).
Local Abbreviation invoke' req c :=
  (invoke (id c) (text req) (timeout_of safety_multiplier c)).





End RouterFacts.






End EngineFacts.

(* ===================================================================== *)
(** * Properties of the number arithmetic                                 *)
(* ===================================================================== *)

Module JSNumberFacts.
Import JS JSFacts JSNumber.

Lemma pow2_Qpower (e : Z) : (pow2 e == 2 ^ e)%Q.
Proof.
  destruct e as [|p|p]; [reflexivity| |].
  - change (inject_Z (Zpos (2 ^ p)) == inject_Z 2 ^ Zpos p)%Q.
    rewrite <- Zpower_Qpower by lia. now rewrite Pos2Z.inj_pow.
  - change (1 # 2 ^ p == / (inject_Z 2 ^ Zpos p))%Q.
    rewrite <- Zpower_Qpower by lia. rewrite <- Pos2Z.inj_pow. reflexivity.
Qed.

Lemma pow2_pos (e : Z) : (0 < pow2 e)%Q.
Proof. rewrite pow2_Qpower. now apply Qpower_0_lt. Qed.

Lemma pow2_add (a b : Z) : (pow2 (a + b) == pow2 a * pow2 b)%Q.
Proof. rewrite !pow2_Qpower. apply Qpower_plus. discriminate. Qed.

Lemma pow2_succ (a : Z) : (pow2 (a + 1) == 2 * pow2 a)%Q.
Proof. rewrite pow2_add. change (pow2 1) with 2%Q. ring. Qed.

Lemma pow2_le (a b : Z) : (a <= b)%Z -> (pow2 a <= pow2 b)%Q.
Proof.
  intros H. rewrite !pow2_Qpower. apply Qpower_le_compat_l; [exact H | discriminate].
Qed.

Lemma pow2_lt_inv (a b : Z) : (pow2 a < pow2 b)%Q -> (a < b)%Z.
Proof.
  intros H. destruct (Z.lt_ge_cases a b) as [L|L]; [exact L|].
  apply pow2_le in L. lra.
Qed.

Lemma pow2_nonneg_Z (n : Z) : (0 <= n)%Z -> (pow2 n == inject_Z (2 ^ n))%Q.
Proof. intros H. rewrite pow2_Qpower. now rewrite Zpower_Qpower. Qed.

(** [binade q] is the exponent of the power of two at or below [q]. *)
Lemma binade_spec (q : Q) :
  (0 < q)%Q -> (pow2 (binade q) <= q /\ q < pow2 (binade q + 1))%Q.
Proof.
  intros Hq. unfold binade.
  destruct q as [a b]. cbn [Qnum Qden].
  assert (Ha : (0 < a)%Z) by (unfold Qlt in Hq; simpl in Hq; lia).
  set (la := Z.log2 a). set (lb := Z.log2 (Zpos b)).
  destruct (Z.log2_spec a Ha) as [A1 A2]. fold la in A1, A2.
  destruct (Z.log2_spec (Zpos b) (Pos2Z.is_pos b)) as [B1 B2]. fold lb in B1, B2.
  assert (Hla : (0 <= la)%Z) by apply Z.log2_nonneg.
  assert (Hlb : (0 <= lb)%Z) by apply Z.log2_nonneg.
  assert (E : (pow2 (la - lb) * pow2 lb == pow2 la)%Q).
  { rewrite <- pow2_add. now replace (la - lb + lb)%Z with la by lia. }
  pose proof (pow2_pos (la - lb)) as P0.
  pose proof (pow2_pos lb) as P1.
  rewrite (pow2_nonneg_Z lb Hlb) in E, P1. rewrite (pow2_nonneg_Z la Hla) in E.
  assert (Q1 : (a # b == inject_Z a / inject_Z (Zpos b))%Q) by apply Qmake_Qdiv.
  assert (Bpos : (0 < inject_Z (Zpos b))%Q) by (unfold Qlt; simpl; lia).
  assert (Q2 : ((a # b) * inject_Z (Zpos b) == inject_Z a)%Q).
  { rewrite Q1. field. lra. }
  rewrite Zle_Qle in A1, B1. rewrite Zlt_Qlt in A2, B2.
  rewrite Z.pow_succ_r in A2, B2 by assumption.
  rewrite inject_Z_mult in A2, B2. change (inject_Z 2) with 2%Q in A2, B2.
  set (A := inject_Z a) in *. set (B := inject_Z (Zpos b)) in *.
  set (PA := inject_Z (2 ^ la)) in *. set (PB := inject_Z (2 ^ lb)) in *.
  set (P := pow2 (la - lb)) in *. set (x := (a # b)%Q) in *.
  assert (PBB : (0 < B * PB)%Q) by nra.
  destruct (Qle_bool P x) eqn:T.
  - apply Qle_bool_iff in T. split; [exact T|].
    rewrite pow2_succ. fold P.
    apply Qmult_lt_r with (z := (B * PB)%Q); [exact PBB|].
    assert (EQ : (x * (B * PB) == (x * B) * PB)%Q) by ring.
    rewrite EQ; clear EQ.
    assert (EQ : (2 * P * (B * PB) == 2 * (P * PB) * B)%Q) by ring.
    rewrite EQ; clear EQ.
    rewrite Q2, E. nra.
  - apply Qle_bool_false in T.
    replace (la - lb - 1 + 1)%Z with (la - lb)%Z by lia. fold P. split; [|exact T].
    assert (H2 : (pow2 (la - lb - 1) * 2 == P)%Q).
    { unfold P. replace (la - lb)%Z with ((la - lb - 1) + 1)%Z at 2 by lia.
      rewrite pow2_succ. ring. }
    apply Qmult_le_r with (z := (2 * (B * PB))%Q); [lra|].
    assert (EQ : (pow2 (la - lb - 1) * (2 * (B * PB))
                  == (pow2 (la - lb - 1) * 2) * PB * B)%Q) by ring.
    rewrite EQ; clear EQ.
    assert (EQ : (x * (2 * (B * PB)) == 2 * (x * B) * PB)%Q) by ring.
    rewrite EQ; clear EQ.
    rewrite H2, E, Q2. nra.
Qed.

Lemma round_half_even_spec (q : Q) :
  (q - (1 # 2) <= inject_Z (round_half_even q) /\
   inject_Z (round_half_even q) <= q + (1 # 2))%Q.
Proof.
  unfold round_half_even.
  pose proof (Qfloor_le q) as L. pose proof (Qlt_floor q) as U.
  rewrite inject_Z_plus in U. change (inject_Z 1) with 1%Q in U.
  set (f := Qfloor q) in *.
  destruct (Qcompare (q - inject_Z f) (1 # 2)) eqn:C.
  - apply Qeq_alt in C. destruct (Z.even f);
      rewrite ?inject_Z_plus; change (inject_Z 1) with 1%Q; split; lra.
  - apply Qlt_alt in C. split; lra.
  - apply Qgt_alt in C. rewrite inject_Z_plus. change (inject_Z 1) with 1%Q. split; lra.
Qed.

Lemma round_half_even_ge (q : Q) (n : Z) :
  (inject_Z n <= q)%Q -> (n <= round_half_even q)%Z.
Proof.
  intros H. apply Qfloor_resp_le in H. rewrite Qfloor_Z in H.
  unfold round_half_even.
  destruct (Qcompare _ _); [destruct (Z.even _)| |]; lia.
Qed.

(** The rounding error of [nearest_double] is at most half a unit in the
    last place. *)
Lemma nearest_double_error (q : Q) :
  let u := pow2 (Z.max (binade q - 52) (-1074)) in
  (q - u * (1 # 2) <= nearest_double q /\ nearest_double q <= q + u * (1 # 2))%Q.
Proof.
  intros u. unfold nearest_double. fold u.
  pose proof (pow2_pos (Z.max (binade q - 52) (-1074))) as Pu. fold u in Pu.
  destruct (round_half_even_spec (q / u)) as [L U].
  set (m := inject_Z (round_half_even (q / u))) in *.
  assert (E : (q / u * u == q)%Q) by (field; lra).
  split.
  - apply Qmult_le_r with (z := u) in L; [|exact Pu].
    assert (EQ : ((q / u - (1 # 2)) * u == q / u * u - u * (1 # 2))%Q) by ring.
    rewrite EQ in L; clear EQ.
    rewrite E in L. exact L.
  - apply Qmult_le_r with (z := u) in U; [|exact Pu].
    assert (EQ : ((q / u + (1 # 2)) * u == q / u * u + u * (1 # 2))%Q) by ring.
    rewrite EQ in U; clear EQ.
    rewrite E in U. exact U.
Qed.

(** In the normal range the relative error is at most [2^-53], the result
    is not below the power of two under the argument, and nothing
    overflows. *)
Lemma to_double_normal (q : Q) :
  (pow2 (-1022) <= q)%Q -> (q <= pow2 1023)%Q ->
  exists r, to_double q = Fin r /\
            (q - q * pow2 (-53) <= r /\ r <= q + q * pow2 (-53) /\
             pow2 (binade q) <= r)%Q.
Proof.
  intros Lo Hi.
  pose proof (pow2_pos (-1022)) as P0.
  assert (Hq : (0 < q)%Q) by lra.
  destruct (binade_spec q Hq) as [B1 B2].
  assert (Hb : (-1022 <= binade q)%Z).
  { assert (pow2 (-1022) < pow2 (binade q + 1))%Q by lra.
    apply pow2_lt_inv in H. lia. }
  destruct (nearest_double_error q) as [L U].
  replace (Z.max (binade q - 52) (-1074)) with (binade q - 52)%Z in L, U by lia.
  assert (Eu : (pow2 (binade q - 52) * (1 # 2) == pow2 (binade q) * pow2 (-53))%Q).
  { replace (binade q - 52)%Z with (binade q + (-53) + 1)%Z by lia.
    rewrite pow2_succ, pow2_add. ring. }
  rewrite Eu in L, U.
  pose proof (pow2_pos (-53)) as P53.
  pose proof (pow2_pos (binade q)) as Pb.
  assert (Hge : (pow2 (binade q) <= nearest_double q)%Q).
  { unfold nearest_double.
    replace (Z.max (binade q - 52) (-1074)) with (binade q - 52)%Z by lia.
    pose proof (pow2_pos (binade q - 52)) as Pe.
    assert (E52 : (pow2 (binade q) == pow2 52 * pow2 (binade q - 52))%Q).
    { rewrite <- pow2_add. now replace (52 + (binade q - 52))%Z with (binade q) by lia. }
    assert (G : (inject_Z (2 ^ 52) <= q / pow2 (binade q - 52))%Q).
    { apply Qle_shift_div_l; [exact Pe|].
      rewrite <- (pow2_nonneg_Z 52) by lia. rewrite <- E52. exact B1. }
    apply round_half_even_ge in G. rewrite Zle_Qle in G.
    rewrite <- (pow2_nonneg_Z 52) in G by lia.
    rewrite E52. apply Qmult_le_compat_r; [exact G | lra]. }
  assert (Hr : (nearest_double q <= q + q * pow2 (-53))%Q) by nra.
  assert (H53 : (pow2 (-53) < 1)%Q) by reflexivity.
  assert (H24 : (pow2 1024 == 2 * pow2 1023)%Q) by reflexivity.
  unfold to_double.
  replace (Qcompare q 0) with Gt by (symmetry; now apply Qgt_alt).
  replace (Qle_bool (pow2 1024) (nearest_double q)) with false.
  - exists (nearest_double q). split; [reflexivity|].
    split; [nra|]. split; assumption.
  - symmetry. apply Qle_bool_false. rewrite H24. nra.
Qed.

End JSNumberFacts.

(* ===================================================================== *)
(** * Properties of the renderings                                        *)
(* ===================================================================== *)

Module ReadingFacts.
Import JS JSFacts Api ApiFacts Reading.

Lemma digits_value_uint (u : Decimal.uint) :
  forall (acc : N) (d' : Decimal.uint),
    DecimalPos.Unsigned.of_lu d' = acc ->
    digits_value_from acc (NilEmpty.string_of_uint u)
    = DecimalPos.Unsigned.of_lu (Decimal.revapp u d').
Proof.
  induction u; intros acc d' H; simpl; [now symmetry | ..];
    apply IHu; simpl; rewrite H; unfold digit_value; simpl; lia.
Qed.

(** Reading the digits of a number gives the number back. *)
Lemma digits_value_decimal (n : Z) : digits_value (decimal n) = Z.to_N n.
Proof.
  unfold decimal, digits_value.
  rewrite <- (DecimalN.Unsigned.of_to (Z.to_N n)) at 2.
  set (u := N.to_uint (Z.to_N n)).
  change (N.of_uint u) with (Pos.of_uint u).
  rewrite DecimalPos.Unsigned.of_uint_alt. unfold Decimal.rev.
  unfold NilZero.string_of_uint.
  destruct u; try (apply digits_value_uint; reflexivity).
  reflexivity.
Qed.

Lemma digits_value_from_append (a b : string) (acc : N) :
  digits_value_from acc (a ++ b) = digits_value_from (digits_value_from acc a) b.
Proof. revert acc. induction a as [|c a IH]; intros acc; simpl; auto. Qed.

Lemma digits_value_zeros (k : nat) (m : string) :
  digits_value (zeros k ++ m) = digits_value m.
Proof.
  unfold digits_value. induction k as [|k IH]; simpl; [reflexivity|]. exact IH.
Qed.

Lemma take_drop (n : nat) (s : string) : take n s ++ drop n s = s.
Proof.
  revert s. induction n as [|n IH]; intros [|c s]; try reflexivity.
  change (String c (take n s ++ drop n s) = String c s). f_equal. apply IH.
Qed.

Lemma fixed_value_intro (a b : string) :
  all_digits a = true -> (1 <= String.length a)%nat -> all_digits b = true ->
  fixed_value (a ++ "." ++ b)
  = Some (inject_Z (Z.of_N (digits_value (a ++ b)))
          / inject_Z (10 ^ Z.of_nat (String.length b)))%Q.
Proof.
  intros Ha La Hb. unfold fixed_value.
  change (a ++ "." ++ b) with (a ++ String "." b).
  rewrite (split_dot_digits a b Ha), Ha, Hb.
  destruct (String.length a); [lia | reflexivity].
Qed.


(** [toFixed] on a non-negative number below [10^21] prints the nearest
    multiple of [10^-f]. *)
Lemma toFixed_fixed_text (big : Q -> string) (q : Q) (f : nat) :
  (0 <= q)%Q -> (q < ten_pow_21)%Q -> (1 <= f <= 100)%nat ->
  toFixed big (Fin q) (Z.of_nat f) = Returns (fixed_text (nearest_scaled q f) f).
Proof.
  intros H0 H21 Hf. unfold toFixed.
  replace ((Z.of_nat f <? 0)%Z || (100 <? Z.of_nat f)%Z) with false
    by (symmetry; apply orb_false_intro; apply Z.ltb_ge; lia).
  replace (Qltb q 0) with false by (symmetry; now apply Qltb_false).
  replace (Qle_bool ten_pow_21 q) with false by (symmetry; now apply Qle_bool_false).
  rewrite Nat2Z.id. destruct f as [|f']; [lia | reflexivity].
Qed.

Lemma nearest_scaled_nonneg (q : Q) (f : nat) : (0 <= q)%Q -> (0 <= nearest_scaled q f)%Z.
Proof.
  intros H. unfold nearest_scaled.
  assert (P10 : (0 < inject_Z (10 ^ Z.of_nat f))%Q).
  { rewrite <- (Zlt_Qlt 0). apply Z.pow_pos_nonneg; lia. }
  assert (G : (inject_Z 0 <= q * inject_Z (10 ^ Z.of_nat f) + (1 # 2))%Q).
  { assert (0 <= q * inject_Z (10 ^ Z.of_nat f))%Q by (apply Qmult_le_0_compat; lra).
    change (inject_Z 0) with 0%Q. lra. }
  apply Qfloor_resp_le in G. now rewrite Qfloor_Z in G.
Qed.

Lemma nearest_scaled_mono (q1 q2 : Q) (f : nat) :
  (q1 <= q2)%Q -> (nearest_scaled q1 f <= nearest_scaled q2 f)%Z.
Proof.
  intros H. unfold nearest_scaled. apply Qfloor_resp_le.
  assert (P10 : (0 < inject_Z (10 ^ Z.of_nat f))%Q).
  { rewrite <- (Zlt_Qlt 0). apply Z.pow_pos_nonneg; lia. }
  apply Qplus_le_l. apply Qmult_le_compat_r; lra.
Qed.

(** The text of [n / 10^f] has an integer part, exactly [f] fraction
    digits, and reads as [n / 10^f]. *)
Lemma fixed_text_reads (n : Z) (f : nat) :
  (0 <= n)%Z -> (1 <= f)%nat ->
  is_dollar_fixed f (String "$" (fixed_text n f)) = true /\
  fixed_value (fixed_text n f)
  = Some (inject_Z n / inject_Z (10 ^ Z.of_nat f))%Q.
Proof.
  intros Hn Hf. unfold fixed_text.
  pose proof (fixed_point_split (decimal n) f (decimal_digits _) (decimal_length _))
    as (A & B & C & D).
  set (m' := if (String.length (decimal n) <=? f)%nat
             then zeros (f + 1 - String.length (decimal n)) ++ decimal n
             else decimal n) in *.
  set (k := String.length m') in *.
  split.
  - apply (is_dollar_fixed_intro f _ _ A B C D).
  - rewrite (fixed_value_intro _ _ A B C), D, take_drop.
    assert (E : digits_value m' = Z.to_N n).
    { unfold m'. destruct (_ <=? _)%nat; rewrite ?digits_value_zeros;
        apply digits_value_decimal. }
    rewrite E, Z2N.id by exact Hn. reflexivity.
Qed.

End ReadingFacts.

(* ===================================================================== *)
(** * Properties of [lib/api.ts]: amounts, latencies and counts           *)
(* ===================================================================== *)

Module ApiFormatFacts.
Import JS JSFacts Api ApiFacts JSNumber JSNumberFacts Reading ReadingFacts ApiFormat.

(** ** [formatCost] *)

Lemma formatCost_four_digits (big : Q -> string) (q : Q) :
  ge (Fin q) lit_0_0001 = true -> lt (Fin q) lit_0_01 = true ->
  formatCost big (Fin q) = Returns ("$" ++ fixed_text (nearest_scaled q 4) 4) /\
  (1 <= nearest_scaled q 4 <= 100)%Z.
Proof.
  unfold formatCost, lit_0_0001, lit_0_01. cbn [ge lt]. intros G L.
  apply Qle_bool_iff in G. pose proof L as L'. apply Qltb_true in L'.
  replace (Qltb q (7378697629483821 # 73786976294838206464)) with false
    by (symmetry; now apply Qltb_false).
  rewrite L.
  pose proof lit_0_0001_pos. pose proof lit_0_01_small.
  assert (R : toFixed big (Fin q) 4 = Returns (fixed_text (nearest_scaled q 4) 4))
    by (apply (toFixed_fixed_text big q 4); try lia; lra).
  rewrite R. split; [reflexivity|].
  split.
  - unfold nearest_scaled.
    assert (E : (inject_Z 1 <= q * inject_Z (10 ^ Z.of_nat 4) + (1 # 2))%Q).
    { change (inject_Z (10 ^ Z.of_nat 4)) with 10000%Q. change (inject_Z 1) with 1%Q.
      assert ((1 # 10000) < 7378697629483821 # 73786976294838206464)%Q by reflexivity.
      lra. }
    apply Qfloor_resp_le in E. now rewrite Qfloor_Z in E.
  - unfold nearest_scaled.
    assert (E : (q * inject_Z (10 ^ Z.of_nat 4) + (1 # 2) <= inject_Z 100 + (6 # 10))%Q).
    { change (inject_Z (10 ^ Z.of_nat 4)) with 10000%Q. change (inject_Z 100) with 100%Q.
      assert ((5764607523034235 # 576460752303423488) < (100001 # 10000000))%Q by reflexivity.
      lra. }
    apply Qfloor_resp_le in E.
    assert (F : Qfloor (inject_Z 100 + (6 # 10)) = 100%Z) by reflexivity.
    now rewrite F in E.
Qed.

Lemma formatCost_two_digits (big : Q -> string) (q : Q) :
  ge (Fin q) lit_0_01 = true -> lt (Fin q) (Fin ten_pow_21) = true ->
  formatCost big (Fin q) = Returns ("$" ++ fixed_text (nearest_scaled q 2) 2) /\
  (1 <= nearest_scaled q 2)%Z.
Proof.
  unfold formatCost, lit_0_0001, lit_0_01. cbn [ge lt]. intros G L.
  apply Qle_bool_iff in G. apply Qltb_true in L.
  pose proof lit_order.
  replace (Qltb q (7378697629483821 # 73786976294838206464)) with false
    by (symmetry; apply Qltb_false; lra).
  replace (Qltb q (5764607523034235 # 576460752303423488)) with false
    by (symmetry; now apply Qltb_false).
  pose proof lit_0_0001_pos.
  assert (R : toFixed big (Fin q) 2 = Returns (fixed_text (nearest_scaled q 2) 2))
    by (apply (toFixed_fixed_text big q 2); try lia; lra).
  rewrite R. split; [reflexivity|].
  unfold nearest_scaled.
  assert (E : (inject_Z 1 <= q * inject_Z (10 ^ Z.of_nat 2) + (1 # 2))%Q).
  { change (inject_Z (10 ^ Z.of_nat 2)) with 100%Q. change (inject_Z 1) with 1%Q.
    assert ((1 # 100) < 5764607523034235 # 576460752303423488)%Q by reflexivity.
    lra. }
  apply Qfloor_resp_le in E. now rewrite Qfloor_Z in E.
Qed.

Lemma dollar_fixed_text (n : Z) (f : nat) :
  (0 <= n)%Z -> (1 <= f)%nat ->
  dollar_value ("$" ++ fixed_text n f)
  = Some (inject_Z n / inject_Z (10 ^ Z.of_nat f))%Q.
Proof.
  intros Hn Hf. change ("$" ++ fixed_text n f) with (String "$" (fixed_text n f)).
  cbn [dollar_value]. apply fixed_text_reads; assumption.
Qed.

(** X1.  The amount shown is the cost rounded to the nearest ten-thousandth
    below [0.01] and to the nearest hundredth from there on, and it is
    never zero. *)
Theorem formatCost_shows_nearest (ToString_large : Q -> string) (q : Q) :
  (ge (Fin q) lit_0_0001 = true -> lt (Fin q) lit_0_01 = true ->
   exists n : Z,
     formatCost ToString_large (Fin q) = Returns ("$" ++ fixed_text n 4) /\
     dollar_value ("$" ++ fixed_text n 4) = Some (inject_Z n / 10000)%Q /\
     (1 <= n <= 100)%Z /\
     (inject_Z n - (1 # 2) <= q * 10000 /\ q * 10000 < inject_Z n + (1 # 2))%Q) /\
  (ge (Fin q) lit_0_01 = true -> lt (Fin q) (Fin ten_pow_21) = true ->
   exists n : Z,
     formatCost ToString_large (Fin q) = Returns ("$" ++ fixed_text n 2) /\
     dollar_value ("$" ++ fixed_text n 2) = Some (inject_Z n / 100)%Q /\
     (1 <= n)%Z /\
     (inject_Z n - (1 # 2) <= q * 100 /\ q * 100 < inject_Z n + (1 # 2))%Q).
Proof.
  split; intros G L.
  - destruct (formatCost_four_digits ToString_large q G L) as (R & N).
    exists (nearest_scaled q 4). split; [exact R|]. split; [|split; [exact N|]].
    + apply (dollar_fixed_text _ 4); lia.
    + exact (nearest_scaled_spec q 4).
  - destruct (formatCost_two_digits ToString_large q G L) as (R & N).
    exists (nearest_scaled q 2). split; [exact R|]. split; [|split; [exact N|]].
    + apply (dollar_fixed_text _ 2); lia.
    + exact (nearest_scaled_spec q 2).
Qed.

Lemma formatCost_shows_nearest_witness :
  exists n : Z,
    formatCost (fun _ => "") (Fin (1234 # 100000)) = Returns ("$" ++ fixed_text n 2) /\
    dollar_value ("$" ++ fixed_text n 2) = Some (inject_Z n / 100)%Q /\
    (1 <= n)%Z /\
    (inject_Z n - (1 # 2) <= (1234 # 100000) * 100 /\
     (1234 # 100000) * 100 < inject_Z n + (1 # 2))%Q.
Proof.
  apply (proj2 (formatCost_shows_nearest (fun _ => "") (1234 # 100000))); reflexivity.
Defined.

(** X2.  A larger cost never shows a smaller amount, also across the change
    from four to two fraction digits. *)
Theorem formatCost_monotone (ToString_large : Q -> string) (q1 q2 : Q) :
  ge (Fin q1) lit_0_0001 = true -> (q1 <= q2)%Q -> lt (Fin q2) (Fin ten_pow_21) = true ->
  exists (s1 s2 : string) (v1 v2 : Q),
    formatCost ToString_large (Fin q1) = Returns s1 /\
    formatCost ToString_large (Fin q2) = Returns s2 /\
    dollar_value s1 = Some v1 /\ dollar_value s2 = Some v2 /\ (v1 <= v2)%Q.
Proof.
  intros G1 H12 L2.
  assert (G2 : ge (Fin q2) lit_0_0001 = true).
  { unfold lit_0_0001 in *. cbn [ge] in *. apply Qle_bool_iff. apply Qle_bool_iff in G1. lra. }
  assert (L1 : lt (Fin q1) (Fin ten_pow_21) = true).
  { cbn [lt] in *. apply Qltb_true. apply Qltb_true in L2. lra. }
  assert (Split : forall q, lt (Fin q) lit_0_01 = true \/ ge (Fin q) lit_0_01 = true).
  { intros q. unfold lit_0_01. cbn [lt ge].
    destruct (Qltb q _) eqn:E; [now left|]. right.
    apply Qle_bool_iff. now apply Qltb_false. }
  assert (Low : forall q, ge (Fin q) lit_0_0001 = true -> lt (Fin q) lit_0_01 = true ->
            exists n, formatCost ToString_large (Fin q) = Returns ("$" ++ fixed_text n 4) /\
                      dollar_value ("$" ++ fixed_text n 4) = Some (inject_Z n / 10000)%Q /\
                      n = nearest_scaled q 4 /\ (1 <= n <= 100)%Z).
  { intros q G L. destruct (formatCost_four_digits ToString_large q G L) as (R & N).
    exists (nearest_scaled q 4). repeat split; try tauto.
    apply (dollar_fixed_text _ 4); lia. }
  assert (High : forall q, ge (Fin q) lit_0_01 = true -> lt (Fin q) (Fin ten_pow_21) = true ->
            exists n, formatCost ToString_large (Fin q) = Returns ("$" ++ fixed_text n 2) /\
                      dollar_value ("$" ++ fixed_text n 2) = Some (inject_Z n / 100)%Q /\
                      n = nearest_scaled q 2 /\ (1 <= n)%Z).
  { intros q G L. destruct (formatCost_two_digits ToString_large q G L) as (R & N).
    exists (nearest_scaled q 2). repeat split; try tauto.
    apply (dollar_fixed_text _ 2); lia. }
  destruct (Split q1) as [A1|B1]; destruct (Split q2) as [A2|B2].
  - destruct (Low q1 G1 A1) as (n1 & R1 & V1 & E1 & N1).
    destruct (Low q2 G2 A2) as (n2 & R2 & V2 & E2 & N2).
    do 4 eexists. split; [exact R1|]. split; [exact R2|]. split; [exact V1|].
    split; [exact V2|].
    assert (n1 <= n2)%Z by (subst; now apply nearest_scaled_mono).
    rewrite Zle_Qle in H. unfold Qdiv. apply Qmult_le_compat_r; [exact H | discriminate].
  - destruct (Low q1 G1 A1) as (n1 & R1 & V1 & E1 & N1).
    destruct (High q2 B2 L2) as (n2 & R2 & V2 & E2 & N2).
    do 4 eexists. split; [exact R1|]. split; [exact R2|]. split; [exact V1|].
    split; [exact V2|].
    destruct N1 as [_ N1]. rewrite Zle_Qle in N1, N2.
    change (inject_Z 100) with 100%Q in N1. change (inject_Z 1) with 1%Q in N2.
    assert (inject_Z n1 / 10000 <= 1 # 100)%Q by (apply Qle_shift_div_r; lra).
    assert ((1 # 100) <= inject_Z n2 / 100)%Q by (apply Qle_shift_div_l; lra).
    lra.
  - exfalso. unfold lit_0_01 in *. cbn [lt ge] in *.
    apply Qltb_true in A2. apply Qle_bool_iff in B1. lra.
  - destruct (High q1 B1 L1) as (n1 & R1 & V1 & E1 & N1).
    destruct (High q2 B2 L2) as (n2 & R2 & V2 & E2 & N2).
    do 4 eexists. split; [exact R1|]. split; [exact R2|]. split; [exact V1|].
    split; [exact V2|].
    assert (n1 <= n2)%Z by (subst; now apply nearest_scaled_mono).
    rewrite Zle_Qle in H. unfold Qdiv. apply Qmult_le_compat_r; [exact H | discriminate].
Qed.

Lemma formatCost_monotone_witness :
  exists (s1 s2 : string) (v1 v2 : Q),
    formatCost (fun _ => "") (Fin (99 # 10000)) = Returns s1 /\
    formatCost (fun _ => "") (Fin (1 # 50)) = Returns s2 /\
    dollar_value s1 = Some v1 /\ dollar_value s2 = Some v2 /\ (v1 <= v2)%Q.
Proof.
  apply (formatCost_monotone (fun _ => "") (99 # 10000) (1 # 50)).
  - reflexivity.
  - discriminate.
  - reflexivity.
Defined.

(** ** Division by the unit *)

Lemma toFixed_returns (big : Q -> string) (x : number) (fd : Z) :
  (0 <= fd <= 100)%Z -> exists s, toFixed big x fd = Returns s.
Proof.
  intros H. unfold toFixed.
  replace ((fd <? 0)%Z || (100 <? fd)%Z) with false
    by (symmetry; apply orb_false_intro; apply Z.ltb_ge; lia).
  destruct x; eauto.
Qed.

(** A quotient between 1 and [10^20] is computed with a relative error of
    at most [2^-53]; it is at least 1 and well below [10^21]. *)
Lemma to_double_moderate (x : Q) :
  (1 <= x)%Q -> (x <= inject_Z (10 ^ 20))%Q ->
  exists r, to_double x = Fin r /\
            (1 <= r /\ r < ten_pow_21 /\
             x - x * pow2 (-53) <= r /\ r <= x + x * pow2 (-53))%Q.
Proof.
  intros Lo Hi.
  assert (A : (pow2 (-1022) <= 1)%Q) by (apply Qle_bool_imp_le; vm_compute; reflexivity).
  assert (B : (inject_Z (10 ^ 20) <= pow2 1023)%Q)
    by (apply Qle_bool_imp_le; vm_compute; reflexivity).
  destruct (to_double_normal x) as (r & R & L & U & G); [lra | lra |].
  exists r. split; [exact R|].
  assert (Hx : (0 < x)%Q) by lra.
  destruct (binade_spec x Hx) as [_ B2].
  assert (Hb : (0 <= binade x)%Z).
  { assert (pow2 0 < pow2 (binade x + 1))%Q by (change (pow2 0) with 1%Q; lra).
    apply pow2_lt_inv in H. lia. }
  apply pow2_le in Hb. change (pow2 0) with 1%Q in Hb.
  assert (P : (pow2 (-53) < 1)%Q) by reflexivity.
  assert (P' : (0 < pow2 (-53))%Q) by reflexivity.
  assert (T : (2 * inject_Z (10 ^ 20) < ten_pow_21)%Q) by reflexivity.
  repeat split; try lra. nra.
Qed.

Lemma Number_toString_integer (big : Q -> string) (n : Z) :
  (Z.abs n < 10 ^ 21)%Z -> Number_toString big (Fin (inject_Z n)) = integer_text n.
Proof.
  intros H. unfold Number_toString, is_integer, integer_text.
  rewrite Qfloor_Z.
  replace (Qeq_bool (inject_Z n) (inject_Z n)) with true
    by (symmetry; apply Qeq_bool_iff; reflexivity).
  replace (Qltb (Qabs (inject_Z n)) ten_pow_21) with true.
  - cbn [andb].
    replace (Qltb (inject_Z n) 0) with (n <? 0)%Z; [reflexivity|].
    destruct (Z.ltb_spec n 0) as [L|L]; symmetry.
    + apply Qltb_true. now rewrite (Zlt_Qlt n 0) in L.
    + apply Qltb_false. now rewrite (Zle_Qle 0 n) in L.
  - symmetry. apply Qltb_true. unfold ten_pow_21.
    change (Qabs (inject_Z n)) with (inject_Z (Z.abs n)). now rewrite <- Zlt_Qlt.
Qed.

(** ** [formatLatency] *)



(** X4.  From a second on the text is the quotient by 1000, as computed in
    double precision, rounded to the nearest hundredth; it never reads
    less than 1.00. *)
Theorem formatLatency_seconds (ToString_other : Q -> string) (q : Q) :
  (1000 <= q)%Q -> (q <= inject_Z (10 ^ 23))%Q ->
  exists (r : Q) (n : Z),
    div (Fin q) (Fin 1000) = Fin r /\
    (q / 1000 - q / 1000 * pow2 (-53) <= r /\ r <= q / 1000 + q / 1000 * pow2 (-53))%Q /\
    formatLatency ToString_other (Fin q) = Returns (fixed_text n 2 ++ "s") /\
    fixed_value (fixed_text n 2) = Some (inject_Z n / 100)%Q /\
    (100 <= n)%Z /\
    (inject_Z n - (1 # 2) <= r * 100 /\ r * 100 < inject_Z n + (1 # 2))%Q.
Proof.
  intros Lo Hi. unfold formatLatency. cbn [lt].
  replace (Qltb q 1000) with false by (symmetry; now apply Qltb_false).
  change (div (Fin q) (Fin 1000)) with (to_double (q / 1000)).
  destruct (to_double_moderate (q / 1000)) as (r & R & R1 & R21 & RL & RU).
  { apply Qle_shift_div_l; lra. }
  { apply Qle_shift_div_r; [reflexivity|].
    assert (E : (inject_Z (10 ^ 20) * 1000 == inject_Z (10 ^ 23))%Q) by reflexivity.
    lra. }
  rewrite R.
  assert (T : toFixed ToString_other (Fin r) 2 = Returns (fixed_text (nearest_scaled r 2) 2))
    by (apply (toFixed_fixed_text ToString_other r 2); try lia; lra).
  rewrite T. cbn [bind].
  exists r, (nearest_scaled r 2).
  split; [reflexivity|]. split; [split; assumption|]. split; [reflexivity|].
  assert (N : (100 <= nearest_scaled r 2)%Z).
  { unfold nearest_scaled.
    assert (E : (inject_Z 100 <= r * inject_Z (10 ^ Z.of_nat 2) + (1 # 2))%Q).
    { change (inject_Z (10 ^ Z.of_nat 2)) with 100%Q. change (inject_Z 100) with 100%Q. lra. }
    apply Qfloor_resp_le in E. now rewrite Qfloor_Z in E. }
  split; [apply (fixed_text_reads _ 2); lia|]. split; [exact N|].
  exact (nearest_scaled_spec r 2).
Qed.

Lemma formatLatency_seconds_witness :
  exists (r : Q) (n : Z),
    div (Fin 1005) (Fin 1000) = Fin r /\
    formatLatency (fun _ => "") (Fin 1005) = Returns (fixed_text n 2 ++ "s") /\
    (100 <= n)%Z.
Proof.
  destruct (formatLatency_seconds (fun _ => "") 1005) as (r & n & D & _ & R & _ & N & _).
  - discriminate.
  - discriminate.
  - exists r, n. auto.
Defined.

(** ** [formatNumber] *)



Lemma formatNumber_thousands (big : Q -> string) (q : Q) :
  (1000 <= q)%Q -> (q < 1000000)%Q ->
  exists r : Q,
    div (Fin q) (Fin 1000) = Fin r /\
    (1 <= r /\ r < ten_pow_21 /\
     q / 1000 - q / 1000 * pow2 (-53) <= r /\ r <= q / 1000 + q / 1000 * pow2 (-53))%Q /\
    formatNumber big (Fin q) = Returns (fixed_text (nearest_scaled r 1) 1 ++ "K").
Proof.
  intros Lo Hi. unfold formatNumber. cbn [ge].
  replace (Qle_bool 1000000 q) with false by (symmetry; now apply Qle_bool_false).
  replace (Qle_bool 1000 q) with true by (symmetry; now apply Qle_bool_iff).
  change (div (Fin q) (Fin 1000)) with (to_double (q / 1000)).
  destruct (to_double_moderate (q / 1000)) as (r & R & R1 & R21 & RL & RU).
  { apply Qle_shift_div_l; lra. }
  { apply Qle_shift_div_r; [reflexivity|].
    assert (E : (1000000 <= inject_Z (10 ^ 20) * 1000)%Q) by discriminate. lra. }
  rewrite R.
  assert (T : toFixed big (Fin r) 1 = Returns (fixed_text (nearest_scaled r 1) 1))
    by (apply (toFixed_fixed_text big r 1); try lia; lra).
  rewrite T. cbn [bind]. exists r. repeat split; assumption.
Qed.

Lemma formatNumber_millions (big : Q -> string) (q : Q) :
  (1000000 <= q)%Q -> (q <= inject_Z (10 ^ 26))%Q ->
  exists r : Q,
    div (Fin q) (Fin 1000000) = Fin r /\
    (1 <= r /\ r < ten_pow_21 /\
     q / 1000000 - q / 1000000 * pow2 (-53) <= r /\
     r <= q / 1000000 + q / 1000000 * pow2 (-53))%Q /\
    formatNumber big (Fin q) = Returns (fixed_text (nearest_scaled r 1) 1 ++ "M").
Proof.
  intros Lo Hi. unfold formatNumber. cbn [ge].
  replace (Qle_bool 1000000 q) with true by (symmetry; now apply Qle_bool_iff).
  change (div (Fin q) (Fin 1000000)) with (to_double (q / 1000000)).
  destruct (to_double_moderate (q / 1000000)) as (r & R & R1 & R21 & RL & RU).
  { apply Qle_shift_div_l; lra. }
  { apply Qle_shift_div_r; [reflexivity|].
    assert (E : (inject_Z (10 ^ 20) * 1000000 == inject_Z (10 ^ 26))%Q) by reflexivity.
    lra. }
  rewrite R.
  assert (T : toFixed big (Fin r) 1 = Returns (fixed_text (nearest_scaled r 1) 1))
    by (apply (toFixed_fixed_text big r 1); try lia; lra).
  rewrite T. cbn [bind]. exists r. repeat split; assumption.
Qed.

Lemma nearest_scaled_bounds (r : Q) (f : nat) (lo hi : Z) :
  (inject_Z lo <= r * inject_Z (10 ^ Z.of_nat f) + (1 # 2))%Q ->
  (r * inject_Z (10 ^ Z.of_nat f) + (1 # 2) < inject_Z (hi + 1))%Q ->
  (lo <= nearest_scaled r f <= hi)%Z.
Proof.
  intros L U. unfold nearest_scaled.
  set (y := (r * inject_Z (10 ^ Z.of_nat f) + (1 # 2))%Q) in *.
  split.
  - apply Qfloor_resp_le in L. now rewrite Qfloor_Z in L.
  - pose proof (Qfloor_le y) as F.
    assert (inject_Z (Qfloor y) < inject_Z (hi + 1))%Q by lra.
    rewrite <- Zlt_Qlt in H. lia.
Qed.

(** X6.  From a thousand on a count is shown in thousands, from a million on in
    millions, with one fraction digit: the quotient as computed in double
    precision, rounded to the nearest tenth. *)
Theorem formatNumber_abbreviates (ToString_other : Q -> string) (q : Q) :
  ((1000 <= q)%Q -> (q < 1000000)%Q ->
   exists (r : Q) (n : Z),
     div (Fin q) (Fin 1000) = Fin r /\
     (q / 1000 - q / 1000 * pow2 (-53) <= r /\ r <= q / 1000 + q / 1000 * pow2 (-53))%Q /\
     formatNumber ToString_other (Fin q) = Returns (fixed_text n 1 ++ "K") /\
     fixed_value (fixed_text n 1) = Some (inject_Z n / 10)%Q /\
     (10 <= n <= 10000)%Z /\
     (inject_Z n - (1 # 2) <= r * 10 /\ r * 10 < inject_Z n + (1 # 2))%Q) /\
  ((1000000 <= q)%Q -> (q <= inject_Z (10 ^ 26))%Q ->
   exists (r : Q) (n : Z),
     div (Fin q) (Fin 1000000) = Fin r /\
     (q / 1000000 - q / 1000000 * pow2 (-53) <= r /\
      r <= q / 1000000 + q / 1000000 * pow2 (-53))%Q /\
     formatNumber ToString_other (Fin q) = Returns (fixed_text n 1 ++ "M") /\
     fixed_value (fixed_text n 1) = Some (inject_Z n / 10)%Q /\
     (10 <= n)%Z /\
     (inject_Z n - (1 # 2) <= r * 10 /\ r * 10 < inject_Z n + (1 # 2))%Q).
Proof.
  assert (P' : (0 < pow2 (-53))%Q) by reflexivity.
  assert (P : (pow2 (-53) <= 1 # 1000000000)%Q) by discriminate.
  split; intros Lo Hi.
  - destruct (formatNumber_thousands ToString_other q Lo Hi)
      as (r & D & (R1 & R21 & RL & RU) & F).
    exists r, (nearest_scaled r 1).
    assert (X : (q / 1000 < 1000)%Q) by (apply Qlt_shift_div_r; lra).
    assert (X0 : (1 <= q / 1000)%Q) by (apply Qle_shift_div_l; lra).
    assert (N : (10 <= nearest_scaled r 1 <= 10000)%Z).
    { apply nearest_scaled_bounds; change (inject_Z (10 ^ Z.of_nat 1)) with 10%Q.
      - change (inject_Z 10) with 10%Q. lra.
      - change (inject_Z (10000 + 1)) with 10001%Q. nra. }
    split; [exact D|]. split; [split; assumption|]. split; [exact F|].
    split; [apply (fixed_text_reads _ 1); lia|]. split; [exact N|].
    exact (nearest_scaled_spec r 1).
  - destruct (formatNumber_millions ToString_other q Lo Hi)
      as (r & D & (R1 & R21 & RL & RU) & F).
    exists r, (nearest_scaled r 1).
    assert (N : (10 <= nearest_scaled r 1)%Z).
    { unfold nearest_scaled.
      assert (E : (inject_Z 10 <= r * inject_Z (10 ^ Z.of_nat 1) + (1 # 2))%Q).
      { change (inject_Z (10 ^ Z.of_nat 1)) with 10%Q. change (inject_Z 10) with 10%Q. lra. }
      apply Qfloor_resp_le in E. now rewrite Qfloor_Z in E. }
    split; [exact D|]. split; [split; assumption|]. split; [exact F|].
    split; [apply (fixed_text_reads _ 1); lia|]. split; [exact N|].
    exact (nearest_scaled_spec r 1).
Qed.

Lemma formatNumber_abbreviates_witness :
  exists (r : Q) (n : Z),
    div (Fin 1250) (Fin 1000) = Fin r /\
    formatNumber (fun _ => "") (Fin 1250) = Returns (fixed_text n 1 ++ "K") /\
    (10 <= n <= 10000)%Z.
Proof.
  destruct (proj1 (formatNumber_abbreviates (fun _ => "") 1250))
    as (r & n & D & _ & R & _ & N & _).
  - discriminate.
  - reflexivity.
  - exists r, n. auto.
Defined.

(** X7.  Just below a million the count is shown as ["1000.0K"], and from a
    million to just below 1.05 million as ["1.0M"]. *)
Theorem formatNumber_around_a_million (ToString_other : Q -> string) (q : Q) :
  ((999951 <= q)%Q -> (q < 1000000)%Q ->
   formatNumber ToString_other (Fin q) = Returns "1000.0K") /\
  ((1000000 <= q)%Q -> (q <= 1049999)%Q ->
   formatNumber ToString_other (Fin q) = Returns "1.0M").
Proof.
  assert (P' : (0 < pow2 (-53))%Q) by reflexivity.
  assert (P : (pow2 (-53) <= 1 # 1000000000)%Q) by discriminate.
  split; intros Lo Hi.
  - destruct (formatNumber_thousands ToString_other q) as (r & D & (R1 & R21 & RL & RU) & F);
      [lra | lra |].
    rewrite F.
    assert (X : (q / 1000 < 1000)%Q) by (apply Qlt_shift_div_r; lra).
    assert (X0 : (999951 # 1000 <= q / 1000)%Q) by (apply Qle_shift_div_l; lra).
    assert (N : (10000 <= nearest_scaled r 1 <= 10000)%Z).
    { apply nearest_scaled_bounds; change (inject_Z (10 ^ Z.of_nat 1)) with 10%Q.
      - change (inject_Z 10000) with 10000%Q. nra.
      - change (inject_Z (10000 + 1)) with 10001%Q. nra. }
    replace (nearest_scaled r 1) with 10000%Z by lia. reflexivity.
  - assert (T : (1049999 <= inject_Z (10 ^ 26))%Q) by discriminate.
    destruct (formatNumber_millions ToString_other q) as (r & D & (R1 & R21 & RL & RU) & F);
      [lra | lra |].
    rewrite F.
    assert (X : (q / 1000000 <= 1049999 # 1000000)%Q) by (apply Qle_shift_div_r; lra).
    assert (X0 : (1 <= q / 1000000)%Q) by (apply Qle_shift_div_l; lra).
    assert (N : (10 <= nearest_scaled r 1 <= 10)%Z).
    { apply nearest_scaled_bounds; change (inject_Z (10 ^ Z.of_nat 1)) with 10%Q.
      - change (inject_Z 10) with 10%Q. lra.
      - change (inject_Z (10 + 1)) with 11%Q. nra. }
    replace (nearest_scaled r 1) with 10%Z by lia. reflexivity.
Qed.

Lemma formatNumber_around_a_million_witness :
  formatNumber (fun _ => "") (Fin 999999) = Returns "1000.0K".
Proof.
  apply (proj1 (formatNumber_around_a_million (fun _ => "") 999999)).
  - discriminate.
  - reflexivity.
Defined.

Lemma formatLatency_returns (ToString_other : Q -> string) (x : number) :
  exists s, formatLatency ToString_other x = Returns s.
Proof.
  unfold formatLatency. destruct (lt x (Fin 1000)); [eauto|].
  destruct (toFixed_returns ToString_other (div x (Fin 1000)) 2) as (s & ->); [lia|].
  cbn [bind]. eauto.
Qed.

Lemma formatNumber_returns (ToString_other : Q -> string) (x : number) :
  exists s, formatNumber ToString_other x = Returns s.
Proof.
  unfold formatNumber. destruct (ge x (Fin 1000000)).
  - destruct (toFixed_returns ToString_other (div x (Fin 1000000)) 1) as (s & ->); [lia|].
    cbn [bind]. eauto.
  - destruct (ge x (Fin 1000)); [|eauto].
    destruct (toFixed_returns ToString_other (div x (Fin 1000)) 1) as (s & ->); [lia|].
    cbn [bind]. eauto.
Qed.

Lemma formatCost_returns (ToString_large : Q -> string) (x : number) :
  exists s, formatCost ToString_large x = Returns s.
Proof.
  unfold formatCost. destruct (lt x lit_0_0001); [eauto|].
  destruct (lt x lit_0_01).
  - destruct (toFixed_returns ToString_large x 4) as (s & ->); [lia|].
    cbn [bind]. eauto.
  - destruct (toFixed_returns ToString_large x 2) as (s & ->); [lia|].
    cbn [bind]. eauto.
Qed.

(** X8.  Neither formatter ever throws, whatever number it is given. *)
Theorem formatLatency_formatNumber_return (ToString_other : Q -> string) (x : number) :
  (exists s, formatLatency ToString_other x = Returns s) /\
  (exists s, formatNumber ToString_other x = Returns s).
Proof.
  split.
  - unfold formatLatency. destruct (lt x (Fin 1000)); [eauto|].
    destruct (toFixed_returns ToString_other (div x (Fin 1000)) 2) as (s & ->); [lia|].
    cbn [bind]. eauto.
  - unfold formatNumber. destruct (ge x (Fin 1000000)).
    + destruct (toFixed_returns ToString_other (div x (Fin 1000000)) 1) as (s & ->); [lia|].
      cbn [bind]. eauto.
    + destruct (ge x (Fin 1000)); [|eauto].
      destruct (toFixed_returns ToString_other (div x (Fin 1000)) 1) as (s & ->); [lia|].
      cbn [bind]. eauto.
Qed.

End ApiFormatFacts.

(* ===================================================================== *)
(** * Properties of the labels, the icons and the colours                 *)
(* ===================================================================== *)

Module ViewFacts.
Import JS JSFacts Api ApiFacts JSNumber JSObject Charts ProviderStatusView.

(** ** [split] and [pop] *)

Lemma split_not_nil (sep : ascii) (s : string) : split sep s <> [].
Proof.
  induction s as [|c s IH]; simpl; [discriminate|].
  destruct (Ascii.eqb c sep); [discriminate|].
  destruct (split sep s); discriminate.
Qed.

Lemma split_whole (sep : ascii) (s : string) :
  contains sep s = false -> split sep s = [s].
Proof.
  induction s as [|c s IH]; simpl; [reflexivity|].
  intros H. apply orb_false_elim in H as [Hc Hs].
  rewrite Hc, (IH Hs). reflexivity.
Qed.

Lemma split_append (sep : ascii) (p n : string) :
  split sep (p ++ String sep n) = (split sep p ++ split sep n)%list.
Proof.
  induction p as [|c p IH].
  - change (split sep (String sep n) = "" :: split sep n).
    simpl. now rewrite Ascii.eqb_refl.
  - change (split sep (String c (p ++ String sep n))
            = (split sep (String c p) ++ split sep n)%list).
    simpl. rewrite IH. destruct (Ascii.eqb c sep); [reflexivity|].
    pose proof (split_not_nil sep p). destruct (split sep p); [congruence | reflexivity].
Qed.

Lemma pop_last_piece (p n : string) :
  contains "/" n = false -> pop (split "/" (p ++ "/" ++ n)) = VStr n.
Proof.
  intros H. change (p ++ "/" ++ n) with (p ++ String "/" n).
  rewrite split_append, (split_whole _ _ H). unfold pop. now rewrite last_snoc.
Qed.

(** Every string either has no slash or splits at its last slash. *)
Lemma last_slash (s : string) :
  contains "/" s = false \/
  exists p n, s = p ++ "/" ++ n /\ contains "/" n = false.
Proof.
  induction s as [|c s IH]; [now left|].
  destruct IH as [H|(p & n & -> & Hn)].
  - simpl. destruct (Ascii.eqb_spec c "/") as [->|Hc].
    + right. exists "", s. split; [reflexivity | exact H].
    + left. exact H.
  - right. exists (String c p), n. split; [reflexivity | exact Hn].
Qed.

Lemma or_else_string (s t : string) :
  or_else (VStr s) (VStr t) = VStr (if String.eqb s "" then t else s).
Proof. unfold or_else. simpl. now destruct (String.eqb s ""). Qed.

Lemma append_not_empty (p n : string) : p ++ "/" ++ n <> "".
Proof. destruct p; discriminate. Qed.

(** X9.  The label of a model is never empty for a non-empty name: it is the
    piece behind the last slash, without any slash, or else the whole
    name. *)
Theorem short_name_is_last_piece (name : string) :
  exists label,
    short_name name = VStr label /\
    (name <> "" -> label <> "") /\
    (label = name \/
     exists prefix, name = prefix ++ "/" ++ label /\ contains "/" label = false).
Proof.
  unfold short_name.
  destruct (last_slash name) as [H|(p & n & -> & Hn)].
  - rewrite (split_whole _ _ H). change (pop [name]) with (VStr name).
    rewrite or_else_string. exists name.
    split; [now destruct (String.eqb name "")|]. split; [auto | now left].
  - rewrite (pop_last_piece p n Hn), or_else_string.
    destruct (String.eqb_spec n "") as [->|Hne].
    + eexists. split; [reflexivity|]. split; [auto | now left].
    + exists n. split; [reflexivity|]. split; [auto|]. right. eauto.
Qed.

(** X10.  Whatever stands before the last slash is dropped, so names that
    differ in their prefix only get the same label; behind a final slash
    there is nothing, and the whole name is the label. *)
Theorem short_name_drops_prefix (prefix model : string) :
  contains "/" model = false ->
  (model <> "" ->
   short_name (prefix ++ "/" ++ model) = VStr model /\
   short_name model = VStr model) /\
  (pop (split "/" (prefix ++ "/")) = VStr "" /\
   short_name (prefix ++ "/") = VStr (prefix ++ "/")).
Proof.
  intros H. split.
  - intros Hne. unfold short_name.
    rewrite (pop_last_piece prefix model H), (split_whole _ _ H).
    change (pop [model]) with (VStr model). rewrite !or_else_string.
    destruct (String.eqb_spec model ""); [congruence | auto].
  - assert (E : pop (split "/" (prefix ++ "/")) = VStr "")
      by (apply (pop_last_piece prefix ""); reflexivity).
    split; [exact E|]. unfold short_name. rewrite E. reflexivity.
Qed.

Lemma short_name_drops_prefix_witness :
  short_name ("openai" ++ "/" ++ "gpt-4o") = VStr "gpt-4o" /\
  short_name "gpt-4o" = VStr "gpt-4o".
Proof.
  apply (proj1 (short_name_drops_prefix "openai" "gpt-4o" eq_refl)). discriminate.
Defined.

(** ** The status of a provider *)

Lemma badge_classes_other (status : string) :
  ~ In status ["healthy"; "degraded"; "unhealthy"; "unknown"] ->
  badge_classes !! status = None.
Proof.
  intros H. unfold badge_classes. apply not_elem_of_list_to_map_1.
  intros E. apply H. apply list_elem_of_In in E. exact E.
Qed.

(** X11.  The icon and the badge of a status agree: green for [healthy], amber
    for [degraded], red for [unhealthy], and grey for every other status,
    one in another letter case included. *)
Theorem status_icon_and_badge_agree (status : string) :
  assoc status Object_prototype = None ->
  (status = "healthy" /\
   getStatusIcon status = (CheckCircle, "w-5 h-5 text-emerald-500") /\
   getStatusBadge status = VStr "bg-emerald-100 text-emerald-700") \/
  (status = "degraded" /\
   getStatusIcon status = (AlertTriangle, "w-5 h-5 text-amber-500") /\
   getStatusBadge status = VStr "bg-amber-100 text-amber-700") \/
  (status = "unhealthy" /\
   getStatusIcon status = (XCircle, "w-5 h-5 text-red-500") /\
   getStatusBadge status = VStr "bg-red-100 text-red-700") \/
  (~ In status ["healthy"; "degraded"; "unhealthy"] /\
   getStatusIcon status = (Server, "w-5 h-5 text-slate-400") /\
   getStatusBadge status = VStr "bg-slate-100 text-slate-600").
Proof.
  intros Hp.
  destruct (String.eqb_spec status "healthy") as [->|H1];
    [left; split; [reflexivity|]; split; vm_compute; reflexivity|].
  destruct (String.eqb_spec status "degraded") as [->|H2];
    [right; left; split; [reflexivity|]; split; vm_compute; reflexivity|].
  destruct (String.eqb_spec status "unhealthy") as [->|H3];
    [right; right; left; split; [reflexivity|]; split; vm_compute; reflexivity|].
  right; right; right. split; [simpl; intuition congruence|]. split.
  - unfold getStatusIcon.
    destruct (String.eqb_spec status "healthy"); [congruence|].
    destruct (String.eqb_spec status "degraded"); [congruence|].
    destruct (String.eqb_spec status "unhealthy"); [congruence|]. reflexivity.
  - destruct (String.eqb_spec status "unknown") as [->|H4]; [vm_compute; reflexivity|].
    unfold getStatusBadge, get_property at 1.
    rewrite badge_classes_other by (simpl; intuition congruence).
    rewrite Hp. vm_compute. reflexivity.
Qed.

Lemma status_icon_and_badge_agree_witness :
  ~ In "Healthy" ["healthy"; "degraded"; "unhealthy"] /\
  getStatusIcon "Healthy" = (Server, "w-5 h-5 text-slate-400") /\
  getStatusBadge "Healthy" = VStr "bg-slate-100 text-slate-600".
Proof.
  destruct (status_icon_and_badge_agree "Healthy" eq_refl)
    as [(E & _)|[(E & _)|[(E & _)|H]]]; try discriminate E. exact H.
Defined.

(** ** The colour of a provider *)

(** X12.  For every name that is not a member of [Object.prototype] in lower
    case, the colour is a string: one of the six of the table or the
    default; and it is the same for all letter cases of the name. *)
Theorem getProviderColor_is_a_colour (provider : string) :
  assoc (toLowerCase provider) Object_prototype = None ->
  In (getProviderColor provider)
     [ VStr "#10a37f"; VStr "#d4a574"; VStr "#0078d4"; VStr "#ff9900";
       VStr "#6b7280"; VStr "#8b5cf6" ] /\
  getProviderColor (toLowerCase provider) = getProviderColor provider.
Proof.
  intros Hp. split; [|symmetry; apply getProviderColor_case].
  unfold getProviderColor, get_property.
  set (k := toLowerCase provider) in *.
  destruct (String.eqb_spec k "openai") as [->|N1]; [vm_compute; tauto|].
  destruct (String.eqb_spec k "anthropic") as [->|N2]; [vm_compute; tauto|].
  destruct (String.eqb_spec k "azure") as [->|N3]; [vm_compute; tauto|].
  destruct (String.eqb_spec k "bedrock") as [->|N4]; [vm_compute; tauto|].
  destruct (String.eqb_spec k "mock") as [->|N5]; [vm_compute; tauto|].
  destruct (String.eqb_spec k "local") as [->|N6]; [vm_compute; tauto|].
  rewrite provider_colors_unknown by (unfold KNOWN_PROVIDERS; simpl; intuition congruence).
  rewrite Hp. vm_compute. tauto.
Qed.

Lemma getProviderColor_is_a_colour_witness :
  getProviderColor (toLowerCase "Anthropic") = getProviderColor "Anthropic".
Proof.
  apply (getProviderColor_is_a_colour "Anthropic"). reflexivity.
Defined.

(** ** The colours of a chart *)






End ViewFacts.

(* ===================================================================== *)
(** * Properties of the cost chart                                        *)
(* ===================================================================== *)

Module CostChartFacts.
Import JS JSFacts Api ApiFacts JSNumber JSNumberFacts JSObject Charts.

(** ** The sign of a difference of doubles *)

Lemma pow2_grid (e : Z) :
  (-1074 <= e)%Z -> (pow2 e == inject_Z (2 ^ (e + 1074)) * pow2 (-1074))%Q.
Proof.
  intros H. rewrite <- pow2_nonneg_Z by lia. rewrite <- pow2_add.
  replace (e + 1074 + -1074)%Z with e by lia. reflexivity.
Qed.

Lemma nearest_double_grid (q : Q) :
  (0 <= q)%Q ->
  exists k : Z, (0 <= k)%Z /\ (nearest_double q == inject_Z k * pow2 (-1074))%Q.
Proof.
  intros Hq. unfold nearest_double.
  set (e := Z.max (binade q - 52) (-1074)).
  set (m := round_half_even (q / pow2 e)).
  assert (Hm : (0 <= m)%Z).
  { apply round_half_even_ge. change (inject_Z 0) with 0%Q.
    apply Qle_shift_div_l; [apply pow2_pos|]. now rewrite Qmult_0_l. }
  exists (m * 2 ^ (e + 1074))%Z. split.
  - apply Z.mul_nonneg_nonneg; [exact Hm|]. apply Z.pow_nonneg. lia.
  - rewrite (pow2_grid e) by (unfold e; lia). rewrite inject_Z_mult. ring.
Qed.

Lemma double_grid (q : Q) :
  is_double q = true -> exists k : Z, (q == inject_Z k * pow2 (-1074))%Q.
Proof.
  unfold is_double, to_double. destruct (Qcompare_spec q 0) as [E|L|G].
  - intros _. exists 0%Z. rewrite E. change (inject_Z 0) with 0%Q. ring.
  - destruct (Qle_bool (pow2 1024) (nearest_double (- q))); [discriminate|].
    intros E. apply Qeq_bool_eq in E.
    destruct (nearest_double_grid (- q)) as (k & _ & Hk).
    { apply (Qopp_le_compat q 0). now apply Qlt_le_weak. }
    exists (- k)%Z. rewrite <- E, Hk, inject_Z_opp. ring.
  - destruct (Qle_bool (pow2 1024) (nearest_double q)); [discriminate|].
    intros E. apply Qeq_bool_eq in E.
    destruct (nearest_double_grid q) as (k & _ & Hk); [now apply Qlt_le_weak|].
    exists k. now rewrite <- E.
Qed.

Lemma nearest_double_positive (q : Q) :
  (pow2 (-1074) <= q)%Q -> (0 < nearest_double q)%Q.
Proof.
  intros Hq.
  assert (Pq : (0 < q)%Q) by (eapply Qlt_le_trans; [apply pow2_pos | exact Hq]).
  unfold nearest_double. set (e := Z.max (binade q - 52) (-1074)).
  assert (He : (pow2 e <= q)%Q).
  { unfold e. destruct (Z.max_spec (binade q - 52) (-1074)) as [[_ ->]|[_ ->]];
      [exact Hq|].
    eapply Qle_trans; [|apply (binade_spec q Pq)]. apply pow2_le. lia. }
  assert (Hm : (1 <= round_half_even (q / pow2 e))%Z).
  { apply round_half_even_ge. change (inject_Z 1) with 1%Q.
    apply Qle_shift_div_l; [apply pow2_pos|]. now rewrite Qmult_1_l. }
  apply Qmult_lt_0_compat; [|apply pow2_pos].
  change 0%Q with (inject_Z 0). rewrite <- Zlt_Qlt. lia.
Qed.

Lemma to_double_negative (d : Q) :
  (d <= - pow2 (-1074))%Q -> lt (to_double d) (Fin 0) = true.
Proof.
  intros H. pose proof (pow2_pos (-1074)) as P.
  assert (N : (d < 0)%Q) by lra.
  unfold to_double. destruct (Qcompare_spec d 0) as [E|L|G]; [lra| |lra].
  destruct (Qle_bool (pow2 1024) (nearest_double (- d))); [reflexivity|].
  cbn [lt]. apply Qltb_true.
  assert (0 < nearest_double (- d))%Q by (apply nearest_double_positive; lra). lra.
Qed.

Lemma to_double_nonnegative (d : Q) :
  (0 <= d)%Q -> lt (to_double d) (Fin 0) = false.
Proof.
  intros H. unfold to_double. destruct (Qcompare_spec d 0) as [E|L|G]; [reflexivity|lra|].
  destruct (Qle_bool (pow2 1024) (nearest_double d)); [reflexivity|].
  cbn [lt]. apply Qltb_false.
  destruct (nearest_double_grid d H) as (k & Hk & ->).
  apply Qmult_le_0_compat; [|apply Qlt_le_weak, pow2_pos].
  change 0%Q with (inject_Z 0). now rewrite <- Zle_Qle.
Qed.

(** Between doubles, [b - a < 0] is [b < a]: the difference of two distinct
    doubles does not round to zero. *)
Lemma sub_negative (a b : Q) :
  is_double a = true -> is_double b = true ->
  lt (sub (Fin b) (Fin a)) (Fin 0) = Qltb b a.
Proof.
  intros Ha Hb. cbn [sub neg add].
  destruct (double_grid a Ha) as (ka & Ea). destruct (double_grid b Hb) as (kb & Eb).
  pose proof (pow2_pos (-1074)) as P.
  destruct (Qlt_le_dec b a) as [L|G].
  - rewrite (proj2 (Qltb_true b a) L). apply to_double_negative.
    assert (K : (kb < ka)%Z).
    { apply Z.lt_nge. intros C. rewrite Zle_Qle in C.
      assert (inject_Z ka * pow2 (-1074) <= inject_Z kb * pow2 (-1074))%Q
        by (apply Qmult_le_compat_r; [exact C | lra]).
      lra. }
    assert (K' : (inject_Z kb + 1 <= inject_Z ka)%Q).
    { change 1%Q with (inject_Z 1). rewrite <- inject_Z_plus, <- Zle_Qle. lia. }
    rewrite Ea, Eb. nra.
  - rewrite (proj2 (Qltb_false b a) G). apply to_double_nonnegative. lra.
Qed.

(** ** Sorting by cost *)

Lemma not_cheaper_trans (a b c : Bar) :
  finite_cost a -> finite_cost b -> finite_cost c ->
  not_cheaper a b -> not_cheaper b c -> not_cheaper a c.
Proof.
  intros (x & Ex & _) (y & Ey & _) (z & Ez & _). unfold not_cheaper.
  rewrite Ex, Ey, Ez. cbn [ge]. rewrite !Qle_bool_iff. intros. lra.
Qed.

Lemma by_cost_before (a b : Bar) :
  finite_cost a -> finite_cost b ->
  lt (by_cost a b) (Fin 0) = true -> not_cheaper a b.
Proof.
  intros (x & Ex & Dx) (y & Ey & Dy). unfold by_cost, not_cheaper.
  rewrite Ex, Ey, (sub_negative x y Dx Dy). cbn [ge].
  rewrite Qltb_true, Qle_bool_iff. intros. lra.
Qed.

Lemma by_cost_not_before (a b : Bar) :
  finite_cost a -> finite_cost b ->
  lt (by_cost a b) (Fin 0) = false -> not_cheaper b a.
Proof.
  intros (x & Ex & Dx) (y & Ey & Dy). unfold by_cost, not_cheaper.
  rewrite Ex, Ey, (sub_negative x y Dx Dy). cbn [ge].
  rewrite Qltb_false, Qle_bool_iff. intros. lra.
Qed.

Lemma sort_insert_permutation {A} (cmp : A -> A -> number) (x : A) (l : list A) :
  Permutation (sort_insert cmp x l) (x :: l).
Proof.
  induction l as [|y r IH]; simpl; [reflexivity|].
  destruct (lt (cmp x y) (Fin 0)); [reflexivity|].
  rewrite IH. apply perm_swap.
Qed.

Lemma sort_permutation {A} (cmp : A -> A -> number) (l : list A) :
  Permutation (sort cmp l) l.
Proof.
  unfold sort.
  assert (G : forall acc, Permutation
             (fold_left (fun sorted x => sort_insert cmp x sorted) l acc) (l ++ acc)%list).
  { induction l as [|x l IH]; intros acc; simpl; [reflexivity|].
    rewrite IH, sort_insert_permutation. symmetry. apply Permutation_middle. }
  rewrite G. now rewrite app_nil_r.
Qed.

Lemma sort_insert_sorted (x : Bar) (l : list Bar) :
  finite_cost x -> List.Forall finite_cost l ->
  StronglySorted not_cheaper l -> StronglySorted not_cheaper (sort_insert by_cost x l).
Proof.
  intros Fx Fl S. induction S as [|y r S IH Hy]; simpl.
  - constructor; constructor.
  - inversion Fl as [|? ? Fy Fr]; subst.
    destruct (lt (by_cost x y) (Fin 0)) eqn:C.
    + pose proof (by_cost_before x y Fx Fy C) as Rxy.
      constructor; [now constructor|]. constructor; [exact Rxy|].
      rewrite List.Forall_forall in Hy, Fr |- *. intros z Hz.
      apply (not_cheaper_trans x y z); auto.
    + pose proof (by_cost_not_before x y Fx Fy C) as Ryx.
      constructor; [now apply IH|].
      rewrite List.Forall_forall in Hy |- *. intros z Hz.
      apply (Permutation_in _ (sort_insert_permutation by_cost x r)) in Hz.
      destruct Hz as [<-|Hz]; auto.
Qed.

Lemma sort_sorted (l : list Bar) :
  List.Forall finite_cost l -> StronglySorted not_cheaper (sort by_cost l).
Proof.
  unfold sort.
  assert (G : forall acc, List.Forall finite_cost l -> List.Forall finite_cost acc ->
              StronglySorted not_cheaper acc ->
              StronglySorted not_cheaper
                (fold_left (fun sorted x => sort_insert by_cost x sorted) l acc)).
  { induction l as [|x l IH]; intros acc Fl Fa S; simpl; [exact S|].
    inversion Fl as [|? ? Fx Fl']; subst. apply IH; [exact Fl'| |].
    - rewrite List.Forall_forall in Fa |- *. intros z Hz.
      apply (Permutation_in _ (sort_insert_permutation by_cost x acc)) in Hz.
      destruct Hz as [<-|Hz]; auto.
    - now apply sort_insert_sorted. }
  intros F. apply G; [exact F | constructor | constructor].
Qed.

Lemma bars_lookup (data : list (string * number)) (bar : Bar) :
  In bar (costChartData data) ->
  exists i entry, data !! i = Some entry /\
    bar_name bar = short_name (fst entry) /\ bar_fullName bar = fst entry /\
    cost bar = snd entry /\
    fill bar = default VUndefined (model_colors !! (i mod 8)%nat).
Proof.
  unfold costChartData. intros H.
  apply (Permutation_in _ (sort_permutation _ _)) in H.
  apply list_elem_of_In, list_elem_of_lookup_1 in H as (i & H).
  rewrite list_lookup_imap in H.
  destruct (data !! i) as [entry|] eqn:E; [|discriminate].
  injection H as <-. exists i, entry. cbn. rewrite getModelColor_nat. auto.
Qed.

(** X14.  The bars of the cost chart are the models, the most expensive first;
    each bar keeps the colour of the position that its model had before
    the sorting. *)
Theorem costChartData_most_expensive_first (data : list (string * number)) :
  List.Forall (fun entry => exists q, snd entry = Fin q /\ is_double q = true) data ->
  StronglySorted (fun a b => ge (cost a) (cost b) = true) (costChartData data) /\
  length (costChartData data) = length data /\
  (forall i entry, data !! i = Some entry ->
     exists bar, In bar (costChartData data) /\
       bar_fullName bar = fst entry /\ cost bar = snd entry /\
       fill bar = default VUndefined (model_colors !! (i mod 8)%nat)) /\
  (forall bar, In bar (costChartData data) ->
     exists i entry, data !! i = Some entry /\
       bar_fullName bar = fst entry /\ cost bar = snd entry /\
       fill bar = default VUndefined (model_colors !! (i mod 8)%nat)).
Proof.
  intros F. split; [|split; [|split]].
  - apply sort_sorted. rewrite List.Forall_forall in F |- *. intros bar Hb.
    apply list_elem_of_In, list_elem_of_lookup_1 in Hb as (i & Hb).
    rewrite list_lookup_imap in Hb.
    destruct (data !! i) as [entry|] eqn:E; [|discriminate].
    injection Hb as <-. apply F. apply list_elem_of_In. eapply list_elem_of_lookup_2. exact E.
  - unfold costChartData. rewrite (Permutation_length (sort_permutation _ _)).
    apply length_imap.
  - intros i entry E. eexists. split.
    + unfold costChartData. apply (Permutation_in _ (Permutation_sym (sort_permutation _ _))).
      apply list_elem_of_In. eapply list_elem_of_lookup_2.
      rewrite list_lookup_imap, E. reflexivity.
    + cbn. rewrite getModelColor_nat. auto.
  - intros bar Hb. destruct (bars_lookup data bar Hb) as (i & entry & E & _ & H).
    exists i, entry. auto.
Qed.

Lemma costChartData_most_expensive_first_witness :
  length (costChartData [("a", Fin 1); ("b", Fin 2)]) = 2%nat.
Proof.
  apply (costChartData_most_expensive_first [("a", Fin 1); ("b", Fin 2)]).
  repeat constructor; eexists; (split; [reflexivity | vm_compute; reflexivity]).
Defined.

End CostChartFacts.

(* ===================================================================== *)
(** * Properties of the calls and of the header                           *)
(* ===================================================================== *)

Module ApiCallsFacts.
Import JS JSFacts JSNumber JSObject Reading ApiFormatFacts ApiCalls Header.

Section Runtime.
Variable ToString_other : Q -> string.
Variable Function_toString : string -> string.

Local Abbreviation fetchAPI := (ApiCalls.fetchAPI ToString_other Function_toString).
Local Abbreviation ToString := (JSObject.ToString ToString_other Function_toString).
Local Abbreviation checkHealth := (Header.checkHealth ToString_other Function_toString).
Local Abbreviation indicator := (Header.indicator ToString_other Function_toString).

Lemma response_ok_range (status : nat) :
  response_ok status = true <-> (200 <= status <= 299)%nat.
Proof.
  unfold response_ok. rewrite andb_true_iff, !Nat.leb_le. tauto.
Qed.

Lemma fetchAPI_not_ok (status : nat) (json : option value) :
  response_ok status = false ->
  exists e, fetchAPI (Responded status json) = Rejected e.
Proof.
  intros H. unfold ApiCalls.fetchAPI. rewrite H. cbn [negb].
  destruct (member _ _); [|eauto]. destruct (JSObject.ToString _ _ _); eauto.
Qed.

Lemma fetchAPI_ok (status : nat) (json : option value) :
  response_ok status = true ->
  fetchAPI (Responded status json)
  = match json with Some v => Fulfilled v | None => Rejected NativeSyntaxError end.
Proof. intros H. unfold ApiCalls.fetchAPI. now rewrite H. Qed.

Lemma fetchAPI_fulfilled (o : FetchOutcome) (v : value) :
  fetchAPI o = Fulfilled v ->
  exists status, o = Responded status (Some v) /\ response_ok status = true.
Proof.
  destruct o as [|status json]; [discriminate|].
  destruct (response_ok status) eqn:K.
  - rewrite (fetchAPI_ok _ _ K). destruct json; [|discriminate].
    intros [= ->]. now exists status.
  - destruct (fetchAPI_not_ok status json K) as (e & ->). discriminate.
Qed.

(** X15.  A call fulfils exactly when the answer has a status from 200 to 299
    and a body that parses; it fulfils with that body, untouched and
    unchecked. *)
Theorem fetchAPI_fulfils (o : FetchOutcome) (v : value) :
  fetchAPI o = Fulfilled v <->
  exists status, o = Responded status (Some v) /\ (200 <= status <= 299)%nat.
Proof.
  split.
  - intros H. destruct (fetchAPI_fulfilled o v H) as (status & E & K).
    exists status. split; [exact E | now apply response_ok_range].
  - intros (status & -> & R). apply response_ok_range in R.
    now rewrite (fetchAPI_ok _ _ R).
Qed.

Lemma status_text (status : nat) :
  (status < 1000)%nat ->
  Number_toString ToString_other (of_nat status) = decimal (Z.of_nat status).
Proof.
  intros H. unfold of_nat. rewrite Number_toString_integer.
  - unfold integer_text. replace (Z.of_nat status <? 0)%Z with false
      by (symmetry; apply Z.ltb_ge; lia).
    now rewrite Z.abs_eq by lia.
  - rewrite Z.abs_eq by lia.
    apply Z.lt_trans with 1000%Z; [lia | reflexivity].
Qed.

(** X16.  The message of the error for an answer outside 200 to 299: the
    [detail] of the body when it is a non-empty string; ["Unknown error"]
    when the body does not parse; the status in decimal when the body is an
    object without a [detail].  A body [null] gives a [TypeError]
    instead. *)
Theorem fetchAPI_error_message (status : nat) :
  response_ok status = false -> (status < 1000)%nat ->
  fetchAPI (Responded status None) = Rejected (ErrorWith "Unknown error") /\
  (forall props d,
      assoc "detail" props = Some (VStr d) -> d <> "" ->
      fetchAPI (Responded status (Some (VObj props))) = Rejected (ErrorWith d)) /\
  (forall props,
      assoc "detail" props = None ->
      fetchAPI (Responded status (Some (VObj props)))
      = Rejected (ErrorWith ("API error: " ++ decimal (Z.of_nat status)))) /\
  fetchAPI (Responded status (Some VNull)) = Rejected NativeTypeError.
Proof.
  intros K B. unfold ApiCalls.fetchAPI. rewrite K. cbn [negb].
  split; [reflexivity|]. split; [|split; [|reflexivity]].
  - intros props d E Hd. cbn [member]. rewrite E.
    unfold or_else. cbn [truthy].
    destruct (String.eqb_spec d ""); [congruence|]. reflexivity.
  - intros props E. cbn [member]. rewrite E.
    change (default VUndefined (assoc "detail" Object_prototype)) with VUndefined.
    unfold or_else. cbn [truthy JSObject.ToString]. now rewrite (status_text status B).
Qed.

Lemma ToString_plain_objects (items : list value) :
  List.Forall (fun item => exists props, item = VObj props /\ assoc "toString" props = None)
         items ->
  ToString (VArr items)
  = Returns (String.concat "," (map (fun _ => "[object Object]") items)).
Proof.
  induction 1 as [|item items (props & -> & E) F IH]; [reflexivity|].
  destruct items as [|next items].
  - cbn. now rewrite E.
  - cbn in IH |- *. rewrite E. cbn [bind]. rewrite IH. reflexivity.
Qed.

(** X17.  When [detail] is a list of objects, as for an input that fails
    validation, the message is ["[object Object]"] once per entry, with
    commas between: nothing of the entries is shown. *)
Theorem fetchAPI_validation_errors (status : nat) (props : list (string * value))
    (items : list value) :
  response_ok status = false ->
  assoc "detail" props = Some (VArr items) ->
  List.Forall (fun item => exists ps, item = VObj ps /\ assoc "toString" ps = None) items ->
  fetchAPI (Responded status (Some (VObj props)))
  = Rejected (ErrorWith (String.concat "," (map (fun _ => "[object Object]") items))).
Proof.
  intros K E F. unfold ApiCalls.fetchAPI. rewrite K. cbn [negb member]. rewrite E.
  unfold or_else. cbn [truthy]. now rewrite (ToString_plain_objects items F).
Qed.

(** ** The indicator of the header *)

Lemma is_the_string_true (s : string) (v : value) :
  is_the_string s v = true <-> v = VStr s.
Proof.
  destruct v; simpl; try (split; [discriminate | congruence]).
  rewrite String.eqb_eq. split; congruence.
Qed.

Lemma indicator_last (ended : list FetchOutcome) (o : FetchOutcome) :
  indicator (ended ++ [o])%list = checkHealth o.
Proof. unfold Header.indicator. now rewrite fold_left_app. Qed.

Lemma checkHealth_not_loading (o : FetchOutcome) : checkHealth o <> loading.
Proof.
  unfold Header.checkHealth. destruct (getBasicHealth _ _ o); [|discriminate].
  destruct (member _ _); [|discriminate]. destruct (is_the_string _ _); discriminate.
Qed.

Lemma checkHealth_object (status : nat) (props : list (string * value)) :
  response_ok status = true ->
  checkHealth (Responded status (Some (VObj props)))
  = match assoc "status" props with
    | Some v => if is_the_string "healthy" v then healthy else degraded
    | None => degraded
    end.
Proof.
  intros K. unfold Header.checkHealth, getBasicHealth. rewrite (fetchAPI_ok _ _ K).
  cbn [member]. destruct (assoc "status" props); reflexivity.
Qed.

(** X18.  After the first check the indicator shows what the last check found,
    never [loading] again.  It is [healthy] only for an answer from 200 to
    299 whose [status] is ["healthy"]; it is [unhealthy] only when no such
    answer with a body other than [null] came; so a backend that answers
    with the status ["unhealthy"] is shown as [degraded]. *)
Theorem header_indicator (ended : list FetchOutcome) (o : FetchOutcome) :
  let shown := indicator (ended ++ [o])%list in
  shown = checkHealth o /\ shown <> loading /\
  (shown = healthy <->
   exists status props,
     o = Responded status (Some (VObj props)) /\ (200 <= status <= 299)%nat /\
     assoc "status" props = Some (VStr "healthy")) /\
  (shown = unhealthy <->
   forall status v,
     o = Responded status (Some v) -> (200 <= status <= 299)%nat ->
     v = VNull \/ v = VUndefined) /\
  (forall status props reported,
     o = Responded status (Some (VObj props)) -> (200 <= status <= 299)%nat ->
     assoc "status" props = Some (VStr reported) -> reported <> "healthy" ->
     shown = degraded).
Proof.
  cbv zeta. rewrite indicator_last.
  split; [reflexivity|]. split; [apply checkHealth_not_loading|].
  split; [|split].
  - split.
    + unfold Header.checkHealth, getBasicHealth.
      destruct (ApiCalls.fetchAPI _ _ o) as [data|e] eqn:E; [|discriminate].
      apply fetchAPI_fulfilled in E as (status & -> & R).
      apply response_ok_range in R.
      destruct data as [| | | | | |props|]; cbn [member]; try discriminate.
      destruct (assoc "status" props) as [v|] eqn:A.
      * destruct (is_the_string "healthy" v) eqn:I; [|discriminate].
        apply is_the_string_true in I as ->. intros _. exists status, props. auto.
      * change (default VUndefined (assoc "status" Object_prototype)) with VUndefined.
        discriminate.
    + intros (status & props & -> & R & A). apply response_ok_range in R.
      rewrite (checkHealth_object _ _ R), A. reflexivity.
  - split.
    + intros U status v -> R. apply response_ok_range in R.
      unfold Header.checkHealth, getBasicHealth in U. rewrite (fetchAPI_ok _ _ R) in U.
      destruct v; cbn [member] in U; auto;
        try (destruct (is_the_string _ _); discriminate).
    + intros H. unfold Header.checkHealth, getBasicHealth.
      destruct (ApiCalls.fetchAPI _ _ o) as [data|e] eqn:E; [|reflexivity].
      apply fetchAPI_fulfilled in E as (status & -> & R).
      apply response_ok_range in R.
      destruct (H status data eq_refl R) as [->| ->]; reflexivity.
  - intros status props reported -> R A N. apply response_ok_range in R.
    rewrite (checkHealth_object _ _ R), A. cbn [is_the_string].
    destruct (String.eqb_spec reported "healthy"); [congruence | reflexivity].
Qed.

End Runtime.

Lemma fetchAPI_error_message_witness :
  ApiCalls.fetchAPI (fun _ => "") (fun _ => "") (Responded 503 (Some (VObj [])))
  = Rejected (ErrorWith ("API error: " ++ decimal 503)).
Proof.
  apply (fetchAPI_error_message (fun _ => "") (fun _ => "") 503); [reflexivity | lia | reflexivity].
Defined.

Lemma fetchAPI_validation_errors_witness :
  ApiCalls.fetchAPI (fun _ => "") (fun _ => "")
    (Responded 422
       (Some (VObj [("detail",
                     VArr [VObj [("msg", VStr "field required")];
                           VObj [("msg", VStr "value is not a valid enumeration member")]])])))
  = Rejected (ErrorWith "[object Object],[object Object]").
Proof.
  apply (fetchAPI_validation_errors (fun _ => "") (fun _ => "") 422
           [("detail", VArr [VObj [("msg", VStr "field required")];
                             VObj [("msg", VStr "value is not a valid enumeration member")]])]
           [VObj [("msg", VStr "field required")];
            VObj [("msg", VStr "value is not a valid enumeration member")]]);
    [reflexivity | reflexivity |].
  repeat constructor; eexists; (split; [reflexivity | reflexivity]).
Defined.

End ApiCallsFacts.

(* ===================================================================== *)
(** * Properties of a session with the demo                               *)
(* ===================================================================== *)

Module TryItSessionFacts.
Import JS TS JSFacts Api JSNumber JSObject ApiCalls ApiFormat ApiFormatFacts.
Import ViewFacts ApiCallsFacts TryItDemoFacts TryItSession.

(** ** [trim] *)






(** ** [handleSubmit] *)


(** ** The states of a session *)

Section Runtime.
Variable ToString_other : Q -> string.
Variable Function_toString : string -> string.
Variable Native_message : Thrown -> string.

Local Abbreviation step := (TryItSession.step ToString_other Function_toString Native_message).
Local Abbreviation run := (TryItSession.run ToString_other Function_toString Native_message).

Lemma fold_invariant (P : Session -> Prop) (es : list Event) (s : Session) :
  (forall s e, P s -> P (step s e)) -> P s -> P (fold_left step es s).
Proof.
  intros Hstep. revert s. induction es as [|e es IH]; intros s H; simpl; auto.
Qed.

Lemma display_step (s : Session) (e : Event) :
  (loading s = true <-> in_flight s <> None) /\
  (loading s = true -> response s = None /\ error s = None) /\
  (response s = None \/ error s = None) ->
  (loading (step s e) = true <-> in_flight (step s e) <> None) /\
  (loading (step s e) = true -> response (step s e) = None /\ error (step s e) = None) /\
  (response (step s e) = None \/ error (step s e) = None).
Proof.
  intros (L & C & X).
  destruct e as [i|i|t| |o|]; cbn [TryItSession.step].
  - destruct (TryItDemo.TASKS !! i); cbn; auto.
  - cbn. auto.
  - cbn. auto.
  - destruct (loading s) eqn:EL; [rewrite EL; auto|].
    destruct (TryItDemo.handleSubmit (choices s)); [|rewrite EL; auto].
    cbn. split; [split; [discriminate | reflexivity]|]. auto.
  - destruct (in_flight s) as [req|] eqn:F; [|rewrite F; auto].
    assert (T : loading s = true) by (apply L; discriminate).
    destruct (C T) as [R E].
    destruct (generate _ _ o); cbn.
    + split; [split; [discriminate | congruence]|].
      split; [discriminate | now right].
    + split; [split; [discriminate | congruence]|].
      split; [discriminate | now left].
  - destruct (response s) eqn:R; cbn; rewrite ?R; auto.
Qed.

(** X20.  At every moment of a session: while a request is awaited neither an
    answer nor an error is on display, and an answer and an error are
    never on display together. *)
Theorem session_display (es : list Event) :
  let s := run es in
  (loading s = true <-> in_flight s <> None) /\
  (loading s = true -> response s = None /\ error s = None) /\
  (response s = None \/ error s = None).
Proof.
  cbv zeta. unfold TryItSession.run.
  apply (fold_invariant
           (fun s => (loading s = true <-> in_flight s <> None) /\
                     (loading s = true -> response s = None /\ error s = None) /\
                     (response s = None \/ error s = None))).
  - apply display_step.
  - cbn. split; [split; [discriminate | congruence]|]. split; [discriminate | now left].
Qed.



(** X22.  The three figures above an answer never fail to render.  The model is
    shown by what stands behind its last slash, which is nothing at all
    for a name that ends in a slash. *)
Theorem quickStats_render (selected_model : string) (total_time_ms total_cost_usd : number) :
  exists label latency cost,
    quickStats ToString_other selected_model total_time_ms total_cost_usd
    = Returns (VStr label, latency, cost) /\
    formatLatency ToString_other total_time_ms = Returns latency /\
    formatCost ToString_other total_cost_usd = Returns cost /\
    (forall prefix model,
        selected_model = prefix ++ "/" ++ model -> contains "/" model = false ->
        label = model).
Proof.
  destruct (formatLatency_returns ToString_other total_time_ms) as (latency & EL).
  destruct (formatCost_returns ToString_other total_cost_usd) as (cost & EC).
  unfold quickStats. rewrite EL, EC. cbn [bind].
  unfold pop. destruct (last (split "/" selected_model)) as [label|] eqn:E.
  - exists label, latency, cost. split; [reflexivity|]. split; [reflexivity|].
    split; [reflexivity|]. intros prefix model -> H.
    pose proof (pop_last_piece prefix model H) as P. unfold pop in P.
    rewrite E in P. congruence.
  - apply last_None in E. now apply split_not_nil in E.
Qed.

End Runtime.


End TryItSessionFacts.

(* ===================================================================== *)
(** * Properties of the dashboard                                         *)
(* ===================================================================== *)

Module DashboardFacts.
Import JS JSFacts Api JSNumber JSObject ApiCalls ApiFormat Reading ReadingFacts.
Import ApiFormatFacts ApiCallsFacts Dashboard.

Section Runtime.
Variable ToString_other : Q -> string.
Variable Function_toString : string -> string.

Local Abbreviation fetchAPI := (ApiCalls.fetchAPI ToString_other Function_toString).
Local Abbreviation fetchData := (Dashboard.fetchData ToString_other Function_toString).

Lemma member_throws (name : string) (v : value) :
  (exists e, member name v = Throws e) <-> v = VNull \/ v = VUndefined.
Proof.
  destruct v; cbn [member]; split;
    try (intros (e & H); discriminate); try (intros [H|H]; discriminate); eauto.
Qed.

Lemma fallback_member (name : string) (v : value) (o : FetchOutcome) :
  (exists e,
     member name match fetchAPI o with
                 | Fulfilled data => data
                 | Rejected _ => VObj [(name, v)]
                 end = Throws e) <->
  fetchAPI o = Fulfilled VNull \/ fetchAPI o = Fulfilled VUndefined.
Proof.
  destruct (fetchAPI o) as [data|e].
  - rewrite member_throws.
    split; [intros [->| ->]; auto | intros [[= ->]|[= ->]]; auto].
  - split; [intros (e' & H); discriminate | intros [H|H]; discriminate].
Qed.

(** X23.  The banner about the connection appears exactly when the request for
    the logs or the one for the realtime statistics is answered with the
    body [null].  A request that fails is replaced by an empty answer, so
    with all three requests failing no error is displayed: the logs and
    the provider list are empty, the metrics of the round before stay, and
    the time of the last update is the present one. *)
Theorem dashboard_error_banner (now : Q) (m l r : FetchOutcome) (s : State) :
  let s' := fetchData now m l r s in
  loading s' = false /\
  (error s' <> None <->
   fetchAPI l = Fulfilled VNull \/ fetchAPI l = Fulfilled VUndefined \/
   fetchAPI r = Fulfilled VNull \/ fetchAPI r = Fulfilled VUndefined) /\
  (error s' <> None -> error s' = Some UNABLE_TO_CONNECT /\ lastUpdated s' = lastUpdated s) /\
  ((forall v, fetchAPI m <> Fulfilled v) ->
   (forall v, fetchAPI l <> Fulfilled v) ->
   (forall v, fetchAPI r <> Fulfilled v) ->
   error s' = None /\ lastUpdated s' = Some now /\ metrics s' = metrics s /\
   logs s' = VArr [] /\ providerHealth s' = VObj []).
Proof.
  cbv zeta. unfold Dashboard.fetchData, getMetricsSummary, getRequestLogs, getRealtimeStats.
  pose proof (fallback_member "logs" (VArr []) l) as Hl.
  pose proof (fallback_member "provider_health" (VObj []) r) as Hr.
  destruct (member "logs" _) as [found_logs|e1] eqn:E1;
    [destruct (member "provider_health" _) as [found_health|e2] eqn:E2|];
    cbn [loading error lastUpdated metrics logs providerHealth].
  - split; [reflexivity|]. split; [|split; [congruence|]].
    + split; [congruence|]. intros [H|[H|H]].
      * destruct (proj2 Hl (or_introl H)). discriminate.
      * destruct (proj2 Hl (or_intror H)). discriminate.
      * destruct (proj2 Hr H). discriminate.
    + intros Nm Nl Nr. split; [reflexivity|]. split; [reflexivity|].
      destruct (fetchAPI m) as [v|]; [now destruct (Nm v)|].
      destruct (fetchAPI l) as [v|]; [now destruct (Nl v)|].
      destruct (fetchAPI r) as [v|]; [now destruct (Nr v)|].
      cbn in E1, E2. injection E1 as <-. injection E2 as <-. auto.
  - split; [reflexivity|]. split; [|split; [auto|]].
    + split; [intros _|discriminate]. right. right. apply Hr. eauto.
    + intros _ _ Nr. destruct (fetchAPI r) as [v|]; [now destruct (Nr v)|]. discriminate.
  - split; [reflexivity|]. split; [|split; [auto|]].
    + split; [intros _|discriminate].
      destruct (proj1 Hl (ex_intro _ e1 eq_refl)); auto.
    + intros _ Nl _. destruct (fetchAPI l) as [v|]; [now destruct (Nl v)|]. discriminate.
Qed.

(** X24.  Metrics that have been received once stay on display: a later round
    replaces them by the summary it receives, unless that request fails or
    its answer is falsy, and never clears them. *)
Theorem dashboard_keeps_metrics (now : Q) (m l r : FetchOutcome) (s : State) :
  let s' := fetchData now m l r s in
  (truthy (metrics s) = true -> truthy (metrics s') = true) /\
  (forall v, fetchAPI m = Fulfilled v -> truthy v = true -> metrics s' = v) /\
  ((forall v, fetchAPI m = Fulfilled v -> truthy v = false) -> metrics s' = metrics s).
Proof.
  cbv zeta.
  assert (E : metrics (fetchData now m l r s)
              = if truthy match fetchAPI m with Fulfilled v => v | Rejected _ => VNull end
                then match fetchAPI m with Fulfilled v => v | Rejected _ => VNull end
                else metrics s).
  { unfold Dashboard.fetchData, getMetricsSummary.
    destruct (member "logs" _); [destruct (member "provider_health" _)|]; reflexivity. }
  rewrite E. split; [|split].
  - intros T. destruct (truthy match fetchAPI m with Fulfilled v => v | Rejected _ => VNull end)
      eqn:K; [exact K | exact T].
  - intros v -> T. now rewrite T.
  - intros H. destruct (fetchAPI m) as [v|]; [now rewrite (H v eq_refl) | reflexivity].
Qed.

End Runtime.

Lemma dashboard_keeps_metrics_witness :
  truthy (metrics (Dashboard.fetchData (fun _ => "") (fun _ => "") 0 FetchFailed FetchFailed
                     FetchFailed
                     {| metrics := VObj []; logs := VArr []; providerHealth := VObj [];
                        loading := true; lastUpdated := None; error := None |})) = true.
Proof.
  apply (dashboard_keeps_metrics (fun _ => "") (fun _ => "") 0 FetchFailed FetchFailed
           FetchFailed). reflexivity.
Defined.

End DashboardFacts.

(* ===================================================================== *)
(** * Properties of the metrics cards                                     *)
(* ===================================================================== *)

Module MetricsCardsFacts.
Import JS JSFacts Api JSNumber JSObject ApiFormat Reading ReadingFacts ApiFormatFacts.
Import MetricsCards.

Section Runtime.
Variable ToString_other : Q -> string.

Local Abbreviation MetricsCards := (MetricsCards.MetricsCards ToString_other).


End Runtime.


End MetricsCardsFacts.

(* ===================================================================== *)
(** * Properties of the shares and of the error rate                      *)
(* ===================================================================== *)

Module ShareFacts.
Import JS JSFacts Api JSNumber JSNumberFacts JSObject ApiFormat Reading ReadingFacts.
Import ApiFormatFacts Charts.

(** ** Rounding does not depend on how a rational is written *)

Lemma binade_unique (q : Q) (b : Z) :
  (pow2 b <= q)%Q -> (q < pow2 (b + 1))%Q -> (0 < q)%Q -> binade q = b.
Proof.
  intros L U P. destruct (binade_spec q P) as [L' U'].
  assert (b < binade q + 1)%Z by (apply pow2_lt_inv; lra).
  assert (binade q < b + 1)%Z by (apply pow2_lt_inv; lra).
  lia.
Qed.

Lemma binade_proper (q q' : Q) : (q == q')%Q -> (0 < q)%Q -> binade q = binade q'.
Proof.
  intros E P. assert (P' : (0 < q')%Q) by now rewrite <- E.
  destruct (binade_spec q' P') as [L U].
  apply binade_unique; [now rewrite E | now rewrite E | exact P].
Qed.

Lemma round_half_even_proper (q q' : Q) :
  (q == q')%Q -> round_half_even q = round_half_even q'.
Proof.
  intros E. unfold round_half_even.
  assert (F : Qfloor q = Qfloor q') by now rewrite E.
  rewrite F.
  assert (C : (q - inject_Z (Qfloor q') ?= 1 # 2)%Q = (q' - inject_Z (Qfloor q') ?= 1 # 2)%Q)
    by now rewrite E.
  now rewrite C.
Qed.

Lemma nearest_double_proper (q q' : Q) :
  (q == q')%Q -> (0 < q)%Q -> nearest_double q = nearest_double q'.
Proof.
  intros E P. unfold nearest_double. rewrite <- (binade_proper q q' E P).
  set (e := Z.max (binade q - 52) (-1074)).
  rewrite (round_half_even_proper (q / pow2 e) (q' / pow2 e)); [reflexivity|].
  now rewrite E.
Qed.

Lemma to_double_proper (q q' : Q) : (q == q')%Q -> to_double q = to_double q'.
Proof.
  intros E. unfold to_double.
  assert (C : (q ?= 0)%Q = (q' ?= 0)%Q) by now rewrite E.
  rewrite <- C. destruct (Qcompare_spec q 0) as [Z|N|P]; [reflexivity| |].
  - rewrite (nearest_double_proper (- q) (- q')); [reflexivity | now rewrite E | lra].
  - now rewrite (nearest_double_proper q q' E P).
Qed.

(** ** The share of a slice *)

Section Runtime.
Variable ToString_other : Q -> string.

(** X27.  In a chart with a single model that has a positive count, the share
    of that model is ["100.0"]; when the counts add up to zero, the share
    is the text ["NaN"]. *)
Theorem percentage_edges (data : Slice) (entries : list Slice) :
  (forall q, value data = Fin q -> is_double q = true -> (0 < q)%Q ->
     percentage ToString_other [data] data = Returns "100.0") /\
  (value data = Fin 0 -> total entries = Fin 0 ->
     percentage ToString_other entries data = Returns "NaN").
Proof.
  split.
  - intros q V D P. unfold percentage, total. cbn [fold_left]. rewrite V.
    cbn [add]. rewrite (to_double_proper (0 + q) q) by ring.
    unfold is_double in D. destruct (to_double q) as [| | |r]; try discriminate.
    apply Qeq_bool_eq in D. cbn [div].
    replace (Qeq_bool r 0) with false
      by (symmetry; apply not_true_is_false; intros C; apply Qeq_bool_eq in C; lra).
    rewrite (to_double_proper (q / r) 1) by (rewrite D; field; lra).
    vm_compute. reflexivity.
  - intros V T. unfold percentage. rewrite V, T. reflexivity.
Qed.

End Runtime.

Lemma percentage_edges_witness :
  percentage (fun _ => "")
    [{| name := VStr "m"; fullName := "m"; value := Fin 7; color := VUndefined |}]
    {| name := VStr "m"; fullName := "m"; value := Fin 7; color := VUndefined |}
  = Returns "100.0".
Proof.
  apply (proj1 (percentage_edges (fun _ => "")
                  {| name := VStr "m"; fullName := "m"; value := Fin 7;
                     color := VUndefined |} []) 7%Q);
    [reflexivity | vm_compute; reflexivity | reflexivity].
Defined.

(** ** The card of the error rate *)

Section Cards.
Variable ToString_other : Q -> string.

(** X26.  The limit of five per cent is compared before the rate is rounded for
    display: a rate from 4.95 up to 5 shows as ["5.0%"] in purple, and a
    rate above 5 and below 5.05 shows as the same ["5.0%"] in red. *)
Theorem error_rate_card (m : MetricsCards.Metrics) (q : Q) :
  MetricsCards.error_rate_percent m = Fin q ->
  (495 # 100 <= q)%Q -> (q < 505 # 100)%Q ->
  exists c1 c2 c3 card,
    MetricsCards.MetricsCards ToString_other (Some m) false
    = Returns (MetricsCards.Shown [c1; c2; c3; card]) /\
    MetricsCards.title card = "Error Rate" /\
    MetricsCards.value card = "5.0%" /\
    (MetricsCards.color card = "red" <-> (5 < q)%Q) /\
    (MetricsCards.color card = "purple" <-> (q <= 5)%Q).
Proof.
  intros E L U. unfold MetricsCards.MetricsCards.
  destruct (formatNumber_returns ToString_other (MetricsCards.total m)) as (a & ->).
  destruct (formatLatency_returns ToString_other (MetricsCards.average m)) as (b & ->).
  destruct (formatLatency_returns ToString_other (MetricsCards.p95 m)) as (c & ->).
  destruct (formatCost_returns ToString_other (MetricsCards.total_usd m)) as (d & ->).
  destruct (formatCost_returns ToString_other (MetricsCards.average_per_request_usd m))
    as (e & ->).
  rewrite E.
  assert (R : toFixed ToString_other (Fin q) 1 = Returns "5.0").
  { assert (T : toFixed ToString_other (Fin q) (Z.of_nat 1)
                = Returns (fixed_text (nearest_scaled q 1) 1)).
    { apply toFixed_fixed_text; [lra| |lia].
      apply Qlt_trans with (505 # 100)%Q; [exact U | reflexivity]. }
    change (Z.of_nat 1) with 1%Z in T. rewrite T.
    assert (N : (50 <= nearest_scaled q 1 <= 50)%Z).
    { apply nearest_scaled_bounds.
      - change (inject_Z (10 ^ Z.of_nat 1)) with 10%Q. change (inject_Z 50) with 50%Q. lra.
      - change (inject_Z (10 ^ Z.of_nat 1)) with 10%Q. change (inject_Z (50 + 1)) with 51%Q.
        lra. }
    replace (nearest_scaled q 1) with 50%Z by lia. reflexivity. }
  rewrite R. cbn [bind]. do 4 eexists. split; [reflexivity|].
  cbn [MetricsCards.title MetricsCards.value MetricsCards.color lt].
  split; [reflexivity|]. split; [reflexivity|].
  destruct (Qltb 5 q) eqn:C.
  - apply Qltb_true in C. split; split; intros H; try reflexivity; try discriminate; lra.
  - apply Qltb_false in C. split; split; intros H; try reflexivity; try discriminate; lra.
Qed.

End Cards.

Lemma error_rate_card_witness :
  exists c1 c2 c3 card,
    MetricsCards.MetricsCards (fun _ => "")
      (Some {| MetricsCards.total := Fin 0; MetricsCards.successful := Fin 0;
               MetricsCards.failed := Fin 0; MetricsCards.p50 := Fin 0;
               MetricsCards.p95 := Fin 0; MetricsCards.average := Fin 0;
               MetricsCards.total_usd := Fin 0;
               MetricsCards.average_per_request_usd := Fin 0;
               MetricsCards.error_rate_percent := Fin (501 # 100) |}) false
    = Returns (MetricsCards.Shown [c1; c2; c3; card]) /\
    MetricsCards.title card = "Error Rate" /\
    MetricsCards.value card = "5.0%" /\
    (MetricsCards.color card = "red" <-> (5 < 501 # 100)%Q) /\
    (MetricsCards.color card = "purple" <-> (501 # 100 <= 5)%Q).
Proof.
  apply (error_rate_card (fun _ => "")); [reflexivity | discriminate | reflexivity].
Defined.

End ShareFacts.

(* ===================================================================== *)
(** * Worked examples                                                     *)
(* ===================================================================== *)

Module Examples.
Import JS.

Example formatCost_tenths_of_a_cent :
  Api.formatCost (fun _ => "") (Fin (5 # 1000)) = Returns "$0.0050".
Proof. vm_compute. reflexivity. Qed.

Example formatCost_rounds_half_up :
  Api.formatCost (fun _ => "") (Fin (12345 # 1000)) = Returns "$12.35".
Proof. vm_compute. reflexivity. Qed.

Example formatCost_just_above_the_floor :
  Api.formatCost (fun _ => "") (Fin (12345 # 100000000)) = Returns "$0.0001".
Proof. vm_compute. reflexivity. Qed.

Example formatCost_below_the_floor :
  Api.formatCost (fun _ => "") (Fin (1 # 100000)) = Returns "<$0.0001".
Proof. vm_compute. reflexivity. Qed.

Example formatCost_not_a_number :
  Api.formatCost (fun _ => "") NaN = Returns "$NaN".
Proof. vm_compute. reflexivity. Qed.

Example toFixed_negative :
  toFixed (fun _ => "") (Fin (- (1 # 1000))) 2 = Returns "-0.00".
Proof. vm_compute. reflexivity. Qed.

Example toFixed_range :
  toFixed (fun _ => "") (Fin 1) 101 = Throws RangeError.
Proof. vm_compute. reflexivity. Qed.

Example getProviderColor_mixed_case :
  Api.getProviderColor "OpenAI" = VStr "#10a37f".
Proof. vm_compute. reflexivity. Qed.

Example getProviderColor_unlisted :
  Api.getProviderColor "cohere" = VStr "#6b7280".
Proof. vm_compute. reflexivity. Qed.

Example getProviderColor_proto :
  Api.getProviderColor "__proto__" = VBuiltin "Object.prototype".
Proof. vm_compute. reflexivity. Qed.

Example getModelColor_wraps :
  Api.getModelColor "gpt-4o" (of_nat 9) = VStr "#8b5cf6".
Proof. vm_compute. reflexivity. Qed.

Example getModelColor_negative_index :
  Api.getModelColor "gpt-4o" (Fin (-1)) = VUndefined.
Proof. vm_compute. reflexivity. Qed.

Example getModelColor_fractional_index :
  Api.getModelColor "gpt-4o" (Fin (3 # 2)) = VUndefined.
Proof. vm_compute. reflexivity. Qed.

Example submit_after_choosing_cheap :
  TryItDemo.handleSubmit
    (TryItDemo.run [TryItDemo.ClickPreference 1; TryItDemo.ChangeText "  hi  "])
  = Some (VObj [ ("task", VStr "summarize"); ("model_preference", VStr "cheap");
                 ("text", VStr "hi") ]).
Proof. vm_compute. reflexivity. Qed.

Example submit_blank_text :
  TryItDemo.handleSubmit (TryItDemo.run [TryItDemo.ChangeText "   "]) = None.
Proof. vm_compute. reflexivity. Qed.

Example route_selects_the_cheaper_model :
  match Samples.route_with Samples.answering with
  | Engine.Ok d => Engine.id (Engine.candidate (Engine.selected d)) = "gpt-4o-mini"
  | Engine.Err _ => False
  end.
Proof. vm_compute. reflexivity. Qed.

Example route_tries_both_in_order :
  match Samples.route_with Samples.timing_out with
  | Engine.Err (Engine.AllProvidersFailed a) =>
      map Engine.attempted a = ["gpt-4o-mini"; "claude-3-5-haiku"]
  | _ => False
  end.
Proof. vm_compute. reflexivity. Qed.

End Examples.
